(** * Valo.Rant web service: authentication, discussion and patch-note handlers

    A shallow embedding of [server.js].  The Express handlers become
    functions in a state monad over the three MongoDB collections; the
    request body and the JSON answers are values of a small JavaScript
    value type; strings are sequences of UTF-16 code units, so that
    [length], [===] and the credential codec behave as they do in Node. *)

From Stdlib Require Import ZArith List Bool String Ascii Lia DecimalString.
Import ListNotations.
Local Open Scope Z_scope.

Set Implicit Arguments.
Set Warnings "-register-all".

(* ================================================================== *)
(** * JavaScript values                                                 *)
(* ================================================================== *)

(** A JavaScript string is a sequence of 16-bit code units. *)
Definition jsstring := list Z.

Definition code_unit (u : Z) : Prop := 0 <= u < 65536.

Definition byte (b : Z) : Prop := 0 <= b < 256.

(** A string literal of the source, all of which are ASCII. *)
Definition js (s : string) : jsstring :=
  map (fun a => Z.of_N (N_of_ascii a)) (list_ascii_of_string s).

(** [a === b] on strings. *)
Fixpoint str_eqb (a b : jsstring) : bool :=
  match a, b with
  | [], [] => true
  | x :: a', y :: b' => (x =? y) && str_eqb a' b'
  | _, _ => false
  end.

(** [s.length]. *)
Definition str_length (s : jsstring) : Z := Z.of_nat (List.length s).

(** What [JSON.parse] can put in a request body, and [undefined] for a key
    that is absent.  Numbers are kept as integers: the handlers only test
    them for truthiness or compare identifiers. *)
Inductive value : Type :=
| VUndefined
| VNull
| VBool (b : bool)
| VNum (n : Z)
| VStr (s : jsstring)
| VArr (items : list value)
| VObj (fields : list (string * value)).

(** ToBoolean. *)
Definition truthy (v : value) : bool :=
  match v with
  | VUndefined | VNull => false
  | VBool b => b
  | VNum n => negb (n =? 0)
  | VStr s => match s with [] => false | _ => true end
  | VArr _ | VObj _ => true
  end.

(** [a || b]. *)
Definition js_or (a b : value) : value := if truthy a then a else b.

Definition is_undefined (v : value) : bool :=
  match v with VUndefined => true | _ => false end.

(** An object literal as it reaches the client through [res.json]:
    [JSON.stringify] leaves out the keys whose value is [undefined]. *)
Definition obj (fields : list (string * value)) : value :=
  VObj (filter (fun kv => negb (is_undefined (snd kv))) fields).

(** Property read [o.k]; [undefined] when the key is missing. *)
Fixpoint lookup (k : string) (fields : list (string * value)) : value :=
  match fields with
  | [] => VUndefined
  | (k', v) :: rest => if String.eqb k k' then v else lookup k rest
  end.

Definition get (k : string) (v : value) : value :=
  match v with
  | VObj fields => lookup k fields
  | _ => VUndefined
  end.

Definition has_key (k : string) (v : value) : bool :=
  match v with
  | VObj fields => existsb (fun kv => String.eqb k (fst kv)) fields
  | _ => false
  end.

(** A string-typed body field: [None] when the key is absent. *)
Definition field := option jsstring.

(** [!f] is false exactly for a present, non-empty string. *)
Definition filled (f : field) : bool :=
  match f with
  | Some (_ :: _) => true
  | _ => false
  end.

Definition str (f : field) : jsstring :=
  match f with Some s => s | None => [] end.

(** ** White space and [parseInt] *)

(** The class [\s] of a JavaScript regular expression, which is also the
    white space [parseInt] skips. *)
Definition is_space (u : Z) : bool :=
  ((9 <=? u) && (u <=? 13)) || (u =? 32) || (u =? 160) || (u =? 5760)
  || ((8192 <=? u) && (u <=? 8202)) || (u =? 8232) || (u =? 8233)
  || (u =? 8239) || (u =? 8287) || (u =? 12288) || (u =? 65279).

Definition digit_value (radix u : Z) : option Z :=
  let d :=
    if (48 <=? u) && (u <=? 57) then u - 48
    else if (97 <=? u) && (u <=? 122) then u - 87
    else if (65 <=? u) && (u <=? 90) then u - 55
    else radix in
  if d <? radix then Some d else None.

Fixpoint skip_space (s : jsstring) : jsstring :=
  match s with
  | u :: rest => if is_space u then skip_space rest else s
  | [] => []
  end.

(** Longest prefix of digits, accumulated left to right; [None] when there
    is no digit at all. *)
Fixpoint digits (radix : Z) (acc : option Z) (s : jsstring) : option Z :=
  match s with
  | u :: rest =>
      match digit_value radix u with
      | Some d =>
          digits radix (Some (match acc with Some a => a * radix + d | None => d end)) rest
      | None => acc
      end
  | [] => acc
  end.

(** [parseInt(s)] with no radix argument; [None] is NaN.  The result is
    the exact integer: the rounding of JavaScript numbers above 2^53 is
    not modelled (the identifiers in use are readings of the clock in
    milliseconds). *)
Definition parseInt (s : jsstring) : option Z :=
  let s1 := skip_space s in
  let '(sign, s2) :=
    match s1 with
    | 45 :: rest => (-1, rest)
    | 43 :: rest => (1, rest)
    | _ => (1, s1)
    end in
  let '(radix, s3) :=
    match s2 with
    | 48 :: 120 :: rest => (16, rest)
    | 48 :: 88 :: rest => (16, rest)
    | _ => (10, s2)
    end in
  option_map (Z.mul sign) (digits radix None s3).

(** A filter [{ id: n }] against a stored integer identifier; NaN matches
    nothing. *)
Definition id_is (n : option Z) (i : Z) : bool :=
  match n with
  | Some k => i =? k
  | None => false
  end.

(* ================================================================== *)
(** * Regular expressions                                               *)
(* ================================================================== *)

Module Regex.

Inductive t : Type :=
| Void
| Eps
| Class (p : Z -> bool)
| Seq (r1 r2 : t)
| Alt (r1 r2 : t)
| Star (r : t).

(** [r+] *)
Definition Plus (r : t) : t := Seq r (Star r).

Definition Char (c : Z) : t := Class (Z.eqb c).

Fixpoint nullable (r : t) : bool :=
  match r with
  | Void => false
  | Eps => true
  | Class _ => false
  | Seq r1 r2 => nullable r1 && nullable r2
  | Alt r1 r2 => nullable r1 || nullable r2
  | Star _ => true
  end.

Fixpoint deriv (u : Z) (r : t) : t :=
  match r with
  | Void => Void
  | Eps => Void
  | Class p => if p u then Eps else Void
  | Seq r1 r2 =>
      if nullable r1 then Alt (Seq (deriv u r1) r2) (deriv u r2)
      else Seq (deriv u r1) r2
  | Alt r1 r2 => Alt (deriv u r1) (deriv u r2)
  | Star r1 => Seq (deriv u r1) (Star r1)
  end.

(** [/^r$/.test(s)]: the whole string is in the language of [r]. *)
Fixpoint test (r : t) (s : jsstring) : bool :=
  match s with
  | [] => nullable r
  | u :: rest => test (deriv u r) rest
  end.

(** The language of a regular expression. *)
Inductive matches : t -> jsstring -> Prop :=
| MEps : matches Eps []
| MClass p u : p u = true -> matches (Class p) [u]
| MSeq r1 r2 s1 s2 : matches r1 s1 -> matches r2 s2 -> matches (Seq r1 r2) (s1 ++ s2)
| MAltL r1 r2 s : matches r1 s -> matches (Alt r1 r2) s
| MAltR r1 r2 s : matches r2 s -> matches (Alt r1 r2) s
| MStarNil r : matches (Star r) []
| MStarCons r s1 s2 : matches r s1 -> matches (Star r) s2 -> matches (Star r) (s1 ++ s2).

End Regex.

(** [[^\s@]] *)
Definition not_space_at (u : Z) : bool := negb (is_space u) && negb (u =? 64).

(** [/^[^\s@]+@[^\s@]+\.[^\s@]+$/] *)
Definition email_regex : Regex.t :=
  Regex.Seq (Regex.Plus (Regex.Class not_space_at))
    (Regex.Seq (Regex.Char 64)
       (Regex.Seq (Regex.Plus (Regex.Class not_space_at))
          (Regex.Seq (Regex.Char 46)
             (Regex.Plus (Regex.Class not_space_at))))).

(** The pattern in words: a non-empty run of characters that are neither
    white space nor [@], an [@], a second such run, a dot, a third such
    run. *)
Definition email_shape (s : jsstring) : Prop :=
  exists a b c,
    s = a ++ 64 :: b ++ 46 :: c
    /\ a <> [] /\ b <> [] /\ c <> []
    /\ Forall (fun u => not_space_at u = true) a
    /\ Forall (fun u => not_space_at u = true) b
    /\ Forall (fun u => not_space_at u = true) c.

(* ================================================================== *)
(** * The credential codec                                              *)
(* ================================================================== *)

(** [Buffer.from(str)] writes the string as UTF-8 and
    [buf.toString('base64')] prints the bytes in base 64;
    [Buffer.from(str, 'base64')] reads base 64 back and
    [buf.toString('utf-8')] decodes the bytes.  Bytes are integers in
    [0, 256). *)
Module Buffer.

Definition is_high (u : Z) : bool := (55296 <=? u) && (u <=? 56319).
Definition is_low (u : Z) : bool := (56320 <=? u) && (u <=? 57343).

(** U+FFFD, written for a surrogate that has no partner. *)
Definition replacement : list Z := [239; 191; 189].

Definition utf8_1 (u : Z) : list Z := [u].
Definition utf8_2 (u : Z) : list Z := [192 + u / 64; 128 + u mod 64].
Definition utf8_3 (u : Z) : list Z :=
  [224 + u / 4096; 128 + (u / 64) mod 64; 128 + u mod 64].
Definition utf8_4 (c : Z) : list Z :=
  [240 + c / 262144; 128 + (c / 4096) mod 64; 128 + (c / 64) mod 64; 128 + c mod 64].

(** The code point of a surrogate pair. *)
Definition pair_point (hi lo : Z) : Z := 65536 + (hi - 55296) * 1024 + (lo - 56320).

(** UTF-8 encoding of a string of UTF-16 code units. *)
Fixpoint utf8_write (s : jsstring) : list Z :=
  match s with
  | [] => []
  | u :: rest =>
      if u <? 128 then utf8_1 u ++ utf8_write rest
      else if u <? 2048 then utf8_2 u ++ utf8_write rest
      else if is_high u then
        match rest with
        | v :: rest' =>
            if is_low v then utf8_4 (pair_point u v) ++ utf8_write rest'
            else replacement ++ utf8_write rest
        | [] => replacement
        end
      else if is_low u then replacement ++ utf8_write rest
      else utf8_3 u ++ utf8_write rest
  end.

(** State of the UTF-8 decoder: between characters, or inside one with
    the bits read so far, the number of continuation bytes that follow
    the next one, and the range the next byte must lie in. *)
Inductive utf8_state : Type :=
| Start
| Cont (cp : Z) (more : nat) (lower upper : Z).

Definition utf8_lead (b : Z) : list Z * utf8_state :=
  if b <=? 127 then ([b], Start)
  else if (194 <=? b) && (b <=? 223) then ([], Cont (b - 192) 0 128 191)
  else if (224 <=? b) && (b <=? 239) then
    ([], Cont (b - 224) 1 (if b =? 224 then 160 else 128) (if b =? 237 then 159 else 191))
  else if (240 <=? b) && (b <=? 244) then
    ([], Cont (b - 240) 2 (if b =? 240 then 144 else 128) (if b =? 244 then 143 else 191))
  else ([65533], Start).

(** One byte: the code points it completes and the next state.  A byte
    that cannot continue the current character ends it with U+FFFD and is
    read again as a first byte. *)
Definition utf8_step (st : utf8_state) (b : Z) : list Z * utf8_state :=
  match st with
  | Start => utf8_lead b
  | Cont cp more lower upper =>
      if (lower <=? b) && (b <=? upper) then
        let cp' := cp * 64 + (b - 128) in
        match more with
        | O => ([cp'], Start)
        | S m => ([], Cont cp' m 128 191)
        end
      else
        let '(out, st') := utf8_lead b in (65533 :: out, st')
  end.

Fixpoint utf8_points (st : utf8_state) (bs : list Z) : list Z :=
  match bs with
  | [] => match st with Start => [] | Cont _ _ _ _ => [65533] end
  | b :: rest =>
      let '(out, st') := utf8_step st b in out ++ utf8_points st' rest
  end.

(** A code point as UTF-16. *)
Definition utf16_units (c : Z) : jsstring :=
  if c <? 65536 then [c]
  else [55296 + (c - 65536) / 1024; 56320 + (c - 65536) mod 1024].

(** UTF-8 decoding into a string. *)
Definition utf8_read (bs : list Z) : jsstring :=
  flat_map utf16_units (utf8_points Start bs).

(** The base 64 alphabet. *)
Definition b64_char (n : Z) : Z :=
  if n <? 26 then 65 + n
  else if n <? 52 then 97 + (n - 26)
  else if n <? 62 then 48 + (n - 52)
  else if n =? 62 then 43
  else 47.

Fixpoint base64_write (bs : list Z) : jsstring :=
  match bs with
  | [] => []
  | [a] => [b64_char (a / 4); b64_char ((a mod 4) * 16); 61; 61]
  | [a; b] =>
      [b64_char (a / 4); b64_char ((a mod 4) * 16 + b / 16); b64_char ((b mod 16) * 4); 61]
  | a :: b :: c :: rest =>
      [b64_char (a / 4); b64_char ((a mod 4) * 16 + b / 16);
       b64_char ((b mod 16) * 4 + c / 64); b64_char (c mod 64)]
      ++ base64_write rest
  end.

(** Value of a base 64 digit; the decoder also takes the URL alphabet.  A
    code unit above 255 counts as no digit here; the encodings that the
    server stores are written by [base64_write] and hold none. *)
Definition unbase64 (u : Z) : option Z :=
  if (65 <=? u) && (u <=? 90) then Some (u - 65)
  else if (97 <=? u) && (u <=? 122) then Some (u - 97 + 26)
  else if (48 <=? u) && (u <=? 57) then Some (u - 48 + 52)
  else if (u =? 43) || (u =? 45) then Some 62
  else if (u =? 47) || (u =? 95) then Some 63
  else None.

(** The digits of the input: reading stops at the first [=], any other
    character outside the alphabet is skipped. *)
Fixpoint sextets (s : jsstring) : list Z :=
  match s with
  | [] => []
  | u :: rest =>
      if u =? 61 then []
      else match unbase64 u with
           | Some n => n :: sextets rest
           | None => sextets rest
           end
  end.

Fixpoint unsextets (ds : list Z) : list Z :=
  match ds with
  | a :: b :: c :: d :: rest =>
      [a * 4 + b / 16; (b mod 16) * 16 + c / 4; (c mod 4) * 64 + d] ++ unsextets rest
  | [a; b; c] => [a * 4 + b / 16; (b mod 16) * 16 + c / 4]
  | [a; b] => [a * 4 + b / 16]
  | _ => []
  end.

Definition base64_read (s : jsstring) : list Z := unsextets (sextets s).

End Buffer.

(** [const encodePassword = (pwd) => Buffer.from(pwd).toString('base64')] *)
Definition encodePassword (pwd : jsstring) : jsstring :=
  Buffer.base64_write (Buffer.utf8_write pwd).

(** [const decodePassword = (encoded) => Buffer.from(encoded, 'base64').toString('utf-8')] *)
Definition decodePassword (encoded : jsstring) : jsstring :=
  Buffer.utf8_read (Buffer.base64_read encoded).

(** No surrogate stands alone: a high one is directly followed by a low
    one, and a low one directly follows a high one. *)
Fixpoint paired (s : jsstring) : bool :=
  match s with
  | [] => true
  | u :: rest =>
      if Buffer.is_high u then
        match rest with
        | v :: rest' => Buffer.is_low v && paired rest'
        | [] => false
        end
      else negb (Buffer.is_low u) && paired rest
  end.

(** The string with U+FFFD in the place of every surrogate that stands
    alone.  This is what a string becomes when it is written as UTF-8 and
    read back: by [Buffer], and by the database driver, which writes the
    strings of a document and of a filter as UTF-8. *)
Fixpoint sanitize (s : jsstring) : jsstring :=
  match s with
  | [] => []
  | u :: rest =>
      if Buffer.is_high u then
        match rest with
        | v :: rest' =>
            if Buffer.is_low v then u :: v :: sanitize rest'
            else 65533 :: sanitize rest
        | [] => [65533]
        end
      else if Buffer.is_low u then 65533 :: sanitize rest
      else u :: sanitize rest
  end.

(* ================================================================== *)
(** * The document store                                                *)
(* ================================================================== *)

(** The documents, with the fields the handlers write and read, typed as
    the handlers write them.  The identifier MongoDB adds on its own
    ([_id]) is never read by the code and is left out, also from the
    documents sent back. *)

Module User.
Record t : Type := mk {
  username : jsstring;
  email : jsstring;
  password : jsstring;
  isAdmin : value
}.
End User.

Module Reply.
Record t : Type := mk {
  id : Z;
  author : value;
  content : value;
  timestamp : jsstring
}.
End Reply.

Module Post.
(** [replies] is missing in documents older than the field. *)
Record t : Type := mk {
  id : Z;
  author : value;
  content : value;
  image : value;
  timestamp : jsstring;
  replies : option (list Reply.t)
}.
End Post.

Module Patch.
Record t : Type := mk {
  id : Z;
  version : value;
  date : value;
  text : value
}.
End Patch.

Inductive collection_name : Type := Users | Posts | Patches.

(** The driver calls the code makes. *)
Inductive access : Type :=
| CountDocuments (c : collection_name)
| Find (c : collection_name)
| FindOne (c : collection_name)
| InsertOne (c : collection_name)
| UpdateOne (c : collection_name)
| DeleteOne (c : collection_name)
| FindOneAndUpdate (c : collection_name).

(** The database: whether it answers, the documents of each collection in
    storage order, and the calls made so far.  A database that does not
    answer makes every call throw, which is what the [catch] blocks of the
    handlers are for. *)
Record store : Type := mkStore {
  online : bool;
  users : list User.t;
  posts : list Post.t;
  patches : list Patch.t;
  calls : list access
}.

(** A collection handle: its name and where its documents live. *)
Record collection (D : Type) : Type := mkCollection {
  name : collection_name;
  docs : store -> list D;
  with_docs : list D -> store -> store
}.

Definition usersCollection : collection User.t :=
  mkCollection Users users
    (fun l s => mkStore (online s) l (posts s) (patches s) (calls s)).

Definition postsCollection : collection Post.t :=
  mkCollection Posts posts
    (fun l s => mkStore (online s) (users s) l (patches s) (calls s)).

Definition patchesCollection : collection Patch.t :=
  mkCollection Patches patches
    (fun l s => mkStore (online s) (users s) (posts s) l (calls s)).

(** What an awaited call gives: a value, or an exception. *)
Inductive result (A : Type) : Type :=
| Ok (a : A)
| Thrown.

Arguments Ok {A} a.
Arguments Thrown {A}.

(** Computations that use the store. *)
Definition M (A : Type) : Type := store -> result A * store.

Definition ret {A} (a : A) : M A := fun s => (Ok a, s).

Definition bind {A B} (m : M A) (k : A -> M B) : M B :=
  fun s =>
    match m s with
    | (Ok a, s') => k a s'
    | (Thrown, s') => (Thrown, s')
    end.

Declare Scope store_scope.
Delimit Scope store_scope with store.
Notation "x <- m ;; k" := (bind m (fun x => k))
  (at level 61, m at next level, right associativity) : store_scope.
Notation "m ;;; k" := (bind m (fun _ => k))
  (at level 61, right associativity) : store_scope.
Local Open Scope store_scope.

Definition record_call (a : access) (s : store) : store :=
  mkStore (online s) (users s) (posts s) (patches s) (calls s ++ [a]).

(** A call to the driver: it is rejected when the database does not
    answer, and does [run] otherwise. *)
Definition call {A} (a : access) (run : store -> A * store) : M A :=
  fun s =>
    if online s then
      let '(x, s') := run (record_call a s) in (Ok x, s')
    else (Thrown, record_call a s).

(** Remove the first document the filter takes; [None] when there is
    none. *)
Fixpoint remove_first {D} (f : D -> bool) (l : list D) : option (list D) :=
  match l with
  | [] => None
  | d :: rest =>
      if f d then Some rest
      else option_map (cons d) (remove_first f rest)
  end.

(** Change the first document the filter takes; [None] when there is
    none. *)
Fixpoint update_first {D} (f : D -> bool) (g : D -> D) (l : list D) : option (list D) :=
  match l with
  | [] => None
  | d :: rest =>
      if f d then Some (g d :: rest)
      else option_map (cons d) (update_first f g rest)
  end.

Section Driver.
Variable D : Type.
Variable c : collection D.

(** [c.countDocuments()] *)
Definition countDocuments : M Z :=
  call (CountDocuments (name c))
    (fun s => (Z.of_nat (List.length (docs c s)), s)).

(** [c.insertOne(d)] *)
Definition insertOne (d : D) : M unit :=
  call (InsertOne (name c))
    (fun s => (tt, with_docs c (docs c s ++ [d]) s)).

(** [c.find({}).toArray()] *)
Definition find_all : M (list D) :=
  call (Find (name c)) (fun s => (docs c s, s)).

(** [c.findOne(filter)]: the first match, or [null]. *)
Definition findOne (filter : D -> bool) : M (option D) :=
  call (FindOne (name c)) (fun s => (List.find filter (docs c s), s)).

(** [c.deleteOne(filter)]; the result is [deletedCount]. *)
Definition deleteOne (filter : D -> bool) : M Z :=
  call (DeleteOne (name c))
    (fun s =>
       match remove_first filter (docs c s) with
       | Some l => (1, with_docs c l s)
       | None => (0, s)
       end).

(** [c.updateOne(filter, update)]; the result is [matchedCount]. *)
Definition updateOne (filter : D -> bool) (update : D -> D) : M Z :=
  call (UpdateOne (name c))
    (fun s =>
       match update_first filter update (docs c s) with
       | Some l => (1, with_docs c l s)
       | None => (0, s)
       end).

(** [c.findOneAndUpdate(filter, update, { returnDocument: 'after' })].
    The driver answers an object whose [value] is the document after the
    update, or [null] when nothing matched; the result here is that
    [value]. *)
Definition findOneAndUpdate (filter : D -> bool) (update : D -> D) : M (option D) :=
  call (FindOneAndUpdate (name c))
    (fun s =>
       match update_first filter update (docs c s) with
       | Some l => (option_map update (List.find filter (docs c s)), with_docs c l s)
       | None => (None, s)
       end).
End Driver.

(** [{ $push: { replies: reply } }] *)
Definition push_reply (reply : Reply.t) (p : Post.t) : Post.t :=
  Post.mk (Post.id p) (Post.author p) (Post.content p) (Post.image p) (Post.timestamp p)
    (Some (match Post.replies p with Some l => l ++ [reply] | None => [reply] end)).

(** [{ $pull: { replies: { id: n } } }] *)
Definition pull_reply (n : option Z) (p : Post.t) : Post.t :=
  Post.mk (Post.id p) (Post.author p) (Post.content p) (Post.image p) (Post.timestamp p)
    (option_map (filter (fun r => negb (id_is n (Reply.id r)))) (Post.replies p)).

(** The object [updateFields]: a key is there once it has been assigned. *)
Record update_fields : Type := mkFields {
  set_version : option value;
  set_date : option value;
  set_text : option value
}.

(** [{ $set: updateFields }]; with no key the document is left as it is. *)
Definition set_fields (u : update_fields) (p : Patch.t) : Patch.t :=
  Patch.mk (Patch.id p)
    (match set_version u with Some v => v | None => Patch.version p end)
    (match set_date u with Some v => v | None => Patch.date p end)
    (match set_text u with Some v => v | None => Patch.text p end).

(* ================================================================== *)
(** * The handlers                                                      *)
(* ================================================================== *)

(** [res.status(n).json(v)] *)
Record response : Type := respond {
  status : Z;
  body : value
}.

(** A route handler: the answer it sends and the store it leaves. *)
Definition handler : Type := store -> response * store.

(** [return res.status(n).json(v)] before the [try]. *)
Definition answer (r : response) : handler := fun s => (r, s).

(** [try { ... } catch (error) { res.status(500).json(...) }] *)
Definition try_or (block : M response) (caught : response) : handler :=
  fun s =>
    match block s with
    | (Ok r, s') => (r, s')
    | (Thrown, s') => (caught, s')
    end.

Definition error (msg : string) : value := obj [("error"%string, VStr (js msg))].
Definition message (msg : string) : value := obj [("message"%string, VStr (js msg))].

(** The documents as [res.json] sends them. *)
Definition json_of_reply (r : Reply.t) : value :=
  obj [("id"%string, VNum (Reply.id r));
       ("author"%string, Reply.author r);
       ("content"%string, Reply.content r);
       ("timestamp"%string, VStr (Reply.timestamp r))].

Definition json_of_replies (l : option (list Reply.t)) : value :=
  match l with
  | Some rs => VArr (map json_of_reply rs)
  | None => VUndefined
  end.

Definition json_of_post (p : Post.t) : value :=
  obj [("id"%string, VNum (Post.id p));
       ("author"%string, Post.author p);
       ("content"%string, Post.content p);
       ("image"%string, Post.image p);
       ("timestamp"%string, VStr (Post.timestamp p));
       ("replies"%string, json_of_replies (Post.replies p))].

Definition json_of_patch (p : Patch.t) : value :=
  obj [("id"%string, VNum (Patch.id p));
       ("version"%string, Patch.version p);
       ("date"%string, Patch.date p);
       ("text"%string, Patch.text p)].

(** The two readings of the clock a handler makes: [Date.now()] and
    [new Date().toISOString()]. *)
Record clock : Type := mkClock {
  now : Z;
  iso : jsstring
}.

(** ** Startup *)

Definition seed_patch : Patch.t :=
  Patch.mk 1 (VStr (js "Patch 2.5.0")) (VStr (js "December 15, 2024"))
    (VStr (js "New Features" ++ [10] ++ js "- New Gun")).

(** [connectDB], from the first use of the database on: create the
    default patch if none exist.  An exception ends the process
    ([process.exit(1)]). *)
Definition connectDB : M unit :=
  patchCount <- countDocuments patchesCollection ;;
  if patchCount =? 0 then insertOne patchesCollection seed_patch
  else ret tt.

(** ** Agents *)

(** [GET /api/agents].  [upstream] is the JSON the catalogue answered, or
    [None] when the fetch or the parsing failed.  The store is not used. *)
Definition get_agents (upstream : option value) : response :=
  let failed := respond 500 (obj [("status"%string, VNum 500);
                                  ("error"%string, VStr (js "Server error fetching agents"))]) in
  match upstream with
  | None | Some VNull | Some VUndefined => failed
  | Some data =>
      match get "status" data with
      | VNum 200 =>
          match get "data" data with
          | VArr items =>
              if existsb (fun a => match a with VNull | VUndefined => true | _ => false end) items
              then failed
              else respond 200
                     (obj [("status"%string, VNum 200);
                           ("data"%string,
                            VArr (filter (fun a => truthy (get "isPlayableCharacter" a)) items))])
          | _ => failed
          end
      | _ => respond 500 (obj [("status"%string, VNum 500);
                               ("error"%string, VStr (js "Failed to fetch agents"))])
      end
  end.

(** ** Authentication *)

(** The two authentication handlers are modelled on the bodies whose
    fields are JSON strings or absent.  The strings of a filter and of a
    stored user are the strings as the driver writes them ([sanitize]);
    the strings of an answer that come from the request are the
    request's.  What the checks of a registration and the encoding of a
    password make of other JSON values comes after the two handlers
    ([register_checks], [encode_secret]). *)

(** Admin account *)
Definition ADMIN : User.t :=
  User.mk (js "Admin") (js "admin@gmail.com") (encodePassword (js "access")) (VBool true).

Module RegisterBody.
Record t : Type := mk {
  username : field;
  email : field;
  password : field;
  confirm : field
}.
End RegisterBody.

Module LoginBody.
Record t : Type := mk {
  email : field;
  password : field
}.
End LoginBody.

(** [POST /api/auth/register] *)
Definition register (b : RegisterBody.t) : handler :=
  let username := RegisterBody.username b in
  let email := RegisterBody.email b in
  let password := RegisterBody.password b in
  let confirm := RegisterBody.confirm b in
  if negb (filled username) || negb (filled email)
     || negb (filled password) || negb (filled confirm) then
    answer (respond 400 (error "Please fill in all fields"))
  else if str_length (str username) <? 3 then
    answer (respond 400 (error "Username must be at least 3 characters long"))
  else if negb (Regex.test email_regex (str email)) then
    answer (respond 400 (error "Please enter a valid email address"))
  else if negb (str_eqb (str password) (str confirm)) then
    answer (respond 400 (error "Passwords do not match"))
  else if str_length (str password) <? 6 then
    answer (respond 400 (error "Password must be at least 6 characters long"))
  else
    try_or
      (existingUser <- findOne usersCollection
                         (fun u => str_eqb (User.email u) (sanitize (str email))
                                   || str_eqb (User.username u) (sanitize (str username))) ;;
       match existingUser with
       | Some _ =>
           ret (respond 400 (error "This email or username is already registered"))
       | None =>
           let newUser :=
             User.mk (sanitize (str username)) (sanitize (str email))
               (encodePassword (str password)) (VBool false) in
           insertOne usersCollection newUser ;;;
           ret (respond 201
                  (obj [("message"%string, VStr (js "Registration successful!"));
                        ("user"%string, obj [("username"%string, VStr (str username));
                                             ("email"%string, VStr (str email))])]))
       end)
      (respond 500 (error "Server error during registration")).

(** [POST /api/auth/login] *)
Definition login (b : LoginBody.t) : handler :=
  let email := LoginBody.email b in
  let password := LoginBody.password b in
  if negb (filled email) || negb (filled password) then
    answer (respond 400 (error "Please fill in all fields"))
  else
    try_or
      (if str_eqb (str email) (User.email ADMIN)
          && str_eqb (encodePassword (str password)) (User.password ADMIN) then
         ret (respond 200
                (obj [("message"%string, VStr (js "Admin login successful!"));
                      ("user"%string, obj [("username"%string, VStr (User.username ADMIN));
                                           ("email"%string, VStr (User.email ADMIN));
                                           ("isAdmin"%string, VBool true)])]))
       else
         user <- findOne usersCollection
                   (fun u => str_eqb (User.email u) (sanitize (str email))) ;;
         match user with
         | Some u =>
             if str_eqb (decodePassword (User.password u)) (str password) then
               ret (respond 200
                      (obj [("message"%string, VStr (js "Login successful!"));
                            ("user"%string,
                             obj [("username"%string, VStr (User.username u));
                                  ("email"%string, VStr (User.email u));
                                  ("isAdmin"%string, js_or (User.isAdmin u) (VBool false))])]))
             else ret (respond 401 (error "Invalid email or password"))
         | None => ret (respond 401 (error "Invalid email or password"))
         end)
      (respond 500 (error "Server error during login")).

(** *** The checks of a registration on other JSON values *)

(** A field of a body that is not an array or an object: absent, null, a
    boolean, an integer or a string. *)
Inductive scalar : Type :=
| SAbsent
| SNull
| SBool (b : bool)
| SNum (n : Z)
| SStr (s : jsstring).

Definition scalar_value (v : scalar) : value :=
  match v with
  | SAbsent => VUndefined
  | SNull => VNull
  | SBool b => VBool b
  | SNum n => VNum n
  | SStr s => VStr s
  end.

Definition of_field (f : field) : scalar :=
  match f with
  | Some s => SStr s
  | None => SAbsent
  end.

(** [v.length]: a string has one, a number and a boolean have none (the
    property reads as [undefined]). *)
Definition length_of (v : scalar) : option Z :=
  match v with
  | SStr s => Some (str_length s)
  | _ => None
  end.

(** [l < n] where [l] is a length or [undefined]: [undefined < n] is
    false. *)
Definition less_than (l : option Z) (n : Z) : bool :=
  match l with
  | Some k => k <? n
  | None => false
  end.

(** [String(v)], which the pattern is tested on.  An integer is written in
    decimal (JavaScript does so below 10^21). *)
Definition to_text (v : scalar) : jsstring :=
  match v with
  | SAbsent => js "undefined"
  | SNull => js "null"
  | SBool true => js "true"
  | SBool false => js "false"
  | SNum n => js (NilZero.string_of_int (Z.to_int n))
  | SStr s => s
  end.

(** [a !== b] is the negation of this. *)
Definition strict_equal (a b : scalar) : bool :=
  match a, b with
  | SAbsent, SAbsent => true
  | SNull, SNull => true
  | SBool x, SBool y => Bool.eqb x y
  | SNum x, SNum y => x =? y
  | SStr x, SStr y => str_eqb x y
  | _, _ => false
  end.

(** The five checks that [POST /api/auth/register] makes before it calls
    the store: the refusal that is sent, or [None] when the request goes on
    to the look-up. *)
Definition register_checks (username email password confirm : scalar) : option response :=
  if negb (truthy (scalar_value username)) || negb (truthy (scalar_value email))
     || negb (truthy (scalar_value password)) || negb (truthy (scalar_value confirm)) then
    Some (respond 400 (error "Please fill in all fields"))
  else if less_than (length_of username) 3 then
    Some (respond 400 (error "Username must be at least 3 characters long"))
  else if negb (Regex.test email_regex (to_text email)) then
    Some (respond 400 (error "Please enter a valid email address"))
  else if negb (strict_equal password confirm) then
    Some (respond 400 (error "Passwords do not match"))
  else if less_than (length_of password) 6 then
    Some (respond 400 (error "Password must be at least 6 characters long"))
  else None.

(** [Buffer.from(pwd).toString('base64')] on what a body can carry as a
    password and [Buffer.from] accepts: a string, or an array of integers,
    which is read as bytes, each integer modulo 256. *)
Inductive secret : Type :=
| Text (s : jsstring)
| Bytes (l : list Z).

Definition encode_secret (p : secret) : jsstring :=
  match p with
  | Text s => encodePassword s
  | Bytes l => Buffer.base64_write (map (fun n => n mod 256) l)
  end.

(** *** The two awaited calls of a registration *)

(** A registration that passed its checks awaits the look-up, and then
    the insertion; other requests can be answered in between. *)
Definition register_lookup (b : RegisterBody.t) : M (option User.t) :=
  findOne usersCollection
    (fun u => str_eqb (User.email u) (sanitize (str (RegisterBody.email b)))
              || str_eqb (User.username u) (sanitize (str (RegisterBody.username b)))).

Definition register_finish (b : RegisterBody.t) (existingUser : option User.t) : M response :=
  match existingUser with
  | Some _ =>
      ret (respond 400 (error "This email or username is already registered"))
  | None =>
      let newUser :=
        User.mk (sanitize (str (RegisterBody.username b))) (sanitize (str (RegisterBody.email b)))
          (encodePassword (str (RegisterBody.password b))) (VBool false) in
      insertOne usersCollection newUser ;;;
      ret (respond 201
             (obj [("message"%string, VStr (js "Registration successful!"));
                   ("user"%string,
                    obj [("username"%string, VStr (str (RegisterBody.username b)));
                         ("email"%string, VStr (str (RegisterBody.email b)))])]))
  end.

(** What follows the look-up in the [try] block of a registration, the
    look-up having answered or thrown. *)
Definition register_after (b : RegisterBody.t) (e : result (option User.t)) : handler :=
  match e with
  | Ok existingUser =>
      try_or (register_finish b existingUser)
        (respond 500 (error "Server error during registration"))
  | Thrown => answer (respond 500 (error "Server error during registration"))
  end.

(** Two registrations that passed their checks, the second one looked up
    before the first one is inserted: the two answers, and the store that
    is left. *)
Definition register_overlapped (b1 b2 : RegisterBody.t) (s : store)
  : (response * response) * store :=
  let (e1, s1) := register_lookup b1 s in
  let (e2, s2) := register_lookup b2 s1 in
  let (r1, s3) := register_after b1 e1 s2 in
  let (r2, s4) := register_after b2 e2 s3 in
  ((r1, r2), s4).

(** ** Posts *)

Module PostBody.
Record t : Type := mk {
  author : value;
  content : value;
  image : value
}.
End PostBody.

Module ReplyBody.
Record t : Type := mk {
  author : value;
  content : value
}.
End ReplyBody.

Module AdminBody.
Record t : Type := mk {
  isAdmin : value
}.
End AdminBody.

(** [GET /api/posts] *)
Definition list_posts : handler :=
  try_or
    (posts <- find_all postsCollection ;;
     let postsWithReplies :=
       map (fun p => json_of_post
                       (Post.mk (Post.id p) (Post.author p) (Post.content p) (Post.image p)
                          (Post.timestamp p)
                          (Some (match Post.replies p with Some l => l | None => [] end))))
           posts in
     ret (respond 200 (VArr postsWithReplies)))
    (respond 500 (error "Server error fetching posts")).

(** [POST /api/posts] *)
Definition create_post (t : clock) (b : PostBody.t) : handler :=
  let author := PostBody.author b in
  let content := PostBody.content b in
  let image := PostBody.image b in
  if negb (truthy content) then
    answer (respond 400 (error "Post content is required"))
  else
    try_or
      (let post :=
         Post.mk (now t) (js_or author (VStr (js "Anonymous"))) content (js_or image VNull)
           (iso t) (Some []) in
       insertOne postsCollection post ;;;
       ret (respond 201 (json_of_post post)))
      (respond 500 (error "Server error creating post")).

(** [DELETE /api/posts/:id] *)
Definition delete_post (id : jsstring) (b : AdminBody.t) : handler :=
  let isAdmin := AdminBody.isAdmin b in
  if negb (truthy isAdmin) then
    answer (respond 403 (error "Only administrators can delete posts"))
  else
    try_or
      (deletedCount <- deleteOne postsCollection
                         (fun p => id_is (parseInt id) (Post.id p)) ;;
       if deletedCount =? 0 then ret (respond 404 (error "Post not found"))
       else ret (respond 200 (message "Post deleted")))
      (respond 500 (error "Server error deleting post")).

(** [POST /api/posts/:id/reply] *)
Definition add_reply (t : clock) (id : jsstring) (b : ReplyBody.t) : handler :=
  let author := ReplyBody.author b in
  let content := ReplyBody.content b in
  if negb (truthy content) then
    answer (respond 400 (error "Reply content is required"))
  else
    try_or
      (let reply :=
         Reply.mk (now t) (js_or author (VStr (js "Anonymous"))) content (iso t) in
       matchedCount <- updateOne postsCollection
                         (fun p => id_is (parseInt id) (Post.id p)) (push_reply reply) ;;
       if matchedCount =? 0 then ret (respond 404 (error "Post not found"))
       else ret (respond 201 (json_of_reply reply)))
      (respond 500 (error "Server error adding reply")).

(** [DELETE /api/posts/:postId/reply/:replyId] *)
Definition delete_reply (postId replyId : jsstring) (b : AdminBody.t) : handler :=
  let isAdmin := AdminBody.isAdmin b in
  if negb (truthy isAdmin) then
    answer (respond 403 (error "Only administrators can delete replies"))
  else
    try_or
      (matchedCount <- updateOne postsCollection
                         (fun p => id_is (parseInt postId) (Post.id p))
                         (pull_reply (parseInt replyId)) ;;
       if matchedCount =? 0 then ret (respond 404 (error "Post not found"))
       else ret (respond 200 (message "Reply deleted")))
      (respond 500 (error "Server error deleting reply")).

(** ** Patch notes *)

Module PatchBody.
Record t : Type := mk {
  version : value;
  date : value;
  text : value;
  isAdmin : value
}.
End PatchBody.

(** [GET /api/patches] *)
Definition list_patches : handler :=
  try_or
    (patches <- find_all patchesCollection ;;
     ret (respond 200 (VArr (map json_of_patch patches))))
    (respond 500 (error "Server error fetching patches")).

(** [POST /api/patches] *)
Definition create_patch (t : clock) (b : PatchBody.t) : handler :=
  let version := PatchBody.version b in
  let date := PatchBody.date b in
  let text := PatchBody.text b in
  let isAdmin := PatchBody.isAdmin b in
  if negb (truthy isAdmin) then
    answer (respond 403 (error "Only administrators can create patches"))
  else if negb (truthy version) || negb (truthy date) || negb (truthy text) then
    answer (respond 400 (error "All fields are required"))
  else
    try_or
      (let patch := Patch.mk (now t) version date text in
       insertOne patchesCollection patch ;;;
       ret (respond 201 (json_of_patch patch)))
      (respond 500 (error "Server error creating patch")).

(** [PUT /api/patches/:id] *)
Definition update_patch (id : jsstring) (b : PatchBody.t) : handler :=
  let version := PatchBody.version b in
  let date := PatchBody.date b in
  let text := PatchBody.text b in
  let isAdmin := PatchBody.isAdmin b in
  if negb (truthy isAdmin) then
    answer (respond 403 (error "Only administrators can edit patches"))
  else
    try_or
      (let updateFields :=
         mkFields (if truthy version then Some version else None)
                  (if truthy date then Some date else None)
                  (if truthy text then Some text else None) in
       result <- findOneAndUpdate patchesCollection
                   (fun p => id_is (parseInt id) (Patch.id p)) (set_fields updateFields) ;;
       match result with
       | None => ret (respond 404 (error "Patch not found"))
       | Some updated => ret (respond 200 (json_of_patch updated))
       end)
      (respond 500 (error "Server error updating patch")).

(** [DELETE /api/patches/:id] *)
Definition delete_patch (id : jsstring) (b : AdminBody.t) : handler :=
  let isAdmin := AdminBody.isAdmin b in
  if negb (truthy isAdmin) then
    answer (respond 403 (error "Only administrators can delete patches"))
  else
    try_or
      (deletedCount <- deleteOne patchesCollection
                         (fun p => id_is (parseInt id) (Patch.id p)) ;;
       if deletedCount =? 0 then ret (respond 404 (error "Patch not found"))
       else ret (respond 200 (message "Patch deleted")))
      (respond 500 (error "Server error deleting patch")).

(** ** The routes *)

Inductive request : Type :=
| GetAgents (upstream : option value)
| PostRegister (b : RegisterBody.t)
| PostLogin (b : LoginBody.t)
| GetPosts
| PostPost (t : clock) (b : PostBody.t)
| DeletePost (id : jsstring) (b : AdminBody.t)
| PostReply (t : clock) (id : jsstring) (b : ReplyBody.t)
| DeleteReply (postId replyId : jsstring) (b : AdminBody.t)
| GetPatches
| PostPatch (t : clock) (b : PatchBody.t)
| PutPatch (id : jsstring) (b : PatchBody.t)
| DeletePatch (id : jsstring) (b : AdminBody.t).

Definition handle (r : request) : handler :=
  match r with
  | GetAgents upstream => answer (get_agents upstream)
  | PostRegister b => register b
  | PostLogin b => login b
  | GetPosts => list_posts
  | PostPost t b => create_post t b
  | DeletePost id b => delete_post id b
  | PostReply t id b => add_reply t id b
  | DeleteReply postId replyId b => delete_reply postId replyId b
  | GetPatches => list_patches
  | PostPatch t b => create_patch t b
  | PutPatch id b => update_patch id b
  | DeletePatch id b => delete_patch id b
  end.

(** The server after start-up, answering requests one after the other,
    each to its end before the next.  The handlers await their calls to
    the store, so the server can also start on a request between two
    calls of another; [register_overlapped] is such a run. *)
Fixpoint serve (rs : list request) (s : store) : list response * store :=
  match rs with
  | [] => ([], s)
  | r :: rest =>
      let '(a, s1) := handle r s in
      let '(answers, s2) := serve rest s1 in
      (a :: answers, s2)
  end.

(* ================================================================== *)
(** * Vocabulary of the specification                                   *)
(* ================================================================== *)

(** A body field that is present and not the empty string. *)
Definition non_empty (f : field) : Prop := exists s, f = Some s /\ s <> [].

(** All four fields of a registration are filled in. *)
Definition all_present (b : RegisterBody.t) : Prop :=
  non_empty (RegisterBody.username b) /\ non_empty (RegisterBody.email b)
  /\ non_empty (RegisterBody.password b) /\ non_empty (RegisterBody.confirm b).

(** Some stored user has this email or this username. *)
Definition taken (s : store) (email username : jsstring) : Prop :=
  exists u, In u (users s) /\ (User.email u = email \/ User.username u = username).

(** The store after more calls, with the documents as they were. *)
Definition after_calls (s : store) (l : list access) : store :=
  mkStore (online s) (users s) (posts s) (patches s) (calls s ++ l).

(** [path] names the identifier [n]. *)
Definition names (path : jsstring) (n : Z) : Prop := parseInt path = Some n.

(** ** Sample data *)

Definition empty_store : store := mkStore true [] [] [] [].

Definition alice : RegisterBody.t :=
  RegisterBody.mk (Some (js "alice")) (Some (js "alice@example.com"))
    (Some (js "secret1")) (Some (js "secret1")).

Definition alice_user : User.t :=
  User.mk (js "alice") (js "alice@example.com") (encodePassword (js "secret1")) (VBool false).

Definition admin_login (password : jsstring) : LoginBody.t :=
  LoginBody.mk (Some (User.email ADMIN)) (Some password).

(** A stored user whose username ends in U+FFFD, and a registration whose
    username ends in a high surrogate that stands alone. *)
Definition bob_user : User.t :=
  User.mk (js "bob" ++ [65533]) (js "bob@example.com") (encodePassword (js "secret1"))
    (VBool false).

Definition bob_surrogate : RegisterBody.t :=
  RegisterBody.mk (Some (js "bob" ++ [55296])) (Some (js "robert@example.com"))
    (Some (js "secret1")) (Some (js "secret1")).

(** A patch [{version: "1.0", date: "d", text: "t"}] with identifier [k],
    and a body that gives a version only. *)
Definition patch_1_0 (k : Z) : Patch.t :=
  Patch.mk k (VStr (js "1.0")) (VStr (js "d")) (VStr (js "t")).

Definition patch_2_0 (k : Z) : Patch.t :=
  Patch.mk k (VStr (js "2.0")) (VStr (js "d")) (VStr (js "t")).

Definition version_only : PatchBody.t :=
  PatchBody.mk (VStr (js "2.0")) VUndefined VUndefined (VBool true).

(** A computation that makes calls to the store without counting the
    patches. *)
Definition no_count {A : Type} (m : store -> A * store) : Prop :=
  forall s, exists cs,
    calls (snd (m s)) = calls s ++ cs /\ ~ In (CountDocuments Patches) cs.

(** A request that creates a patch. *)
Definition creates_patch (r : request) : bool :=
  match r with
  | PostPatch _ _ => true
  | _ => false
  end.

(** ** Vocabulary of the further properties *)

(** A character of the base 64 alphabet, or the padding sign. *)
Definition base64_symbol (u : Z) : Prop :=
  65 <= u <= 90 \/ 97 <= u <= 122 \/ 48 <= u <= 57 \/ u = 43 \/ u = 47 \/ u = 61.

(** The documents of the three collections. *)
Definition documents (s : store) : list User.t * list Post.t * list Patch.t :=
  (users s, posts s, patches s).

(** A registration that passes the five checks made on the body alone. *)
Definition valid_registration (b : RegisterBody.t) : Prop :=
  all_present b
  /\ 3 <= str_length (str (RegisterBody.username b))
  /\ email_shape (str (RegisterBody.email b))
  /\ str (RegisterBody.password b) = str (RegisterBody.confirm b)
  /\ 6 <= str_length (str (RegisterBody.password b)).

(** The user a registration stores. *)
Definition new_user (b : RegisterBody.t) : User.t :=
  User.mk (sanitize (str (RegisterBody.username b))) (sanitize (str (RegisterBody.email b)))
    (encodePassword (str (RegisterBody.password b))) (VBool false).

(** The answer to a registration that is accepted. *)
Definition registered (b : RegisterBody.t) : response :=
  respond 201
    (obj [("message"%string, VStr (js "Registration successful!"));
          ("user"%string,
           obj [("username"%string, VStr (str (RegisterBody.username b)));
                ("email"%string, VStr (str (RegisterBody.email b)))])]).

(** The answer to a login as the stored user [u]. *)
Definition logged_in (u : User.t) : response :=
  respond 200
    (obj [("message"%string, VStr (js "Login successful!"));
          ("user"%string,
           obj [("username"%string, VStr (User.username u));
                ("email"%string, VStr (User.email u));
                ("isAdmin"%string, js_or (User.isAdmin u) (VBool false))])]).

(** No two stored users share an email, and no two share a username. *)
Definition unique_users (s : store) : Prop :=
  NoDup (map User.email (users s)) /\ NoDup (map User.username (users s)).

(** No stored user is an administrator. *)
Definition no_stored_admin (s : store) : Prop :=
  Forall (fun u => truthy (User.isAdmin u) = false) (users s).

(** [p.replies || []] *)
Definition replies_or_empty (p : Post.t) : list Reply.t :=
  match Post.replies p with Some l => l | None => [] end.

(** The reply a request builds. *)
Definition new_reply (t : clock) (b : ReplyBody.t) : Reply.t :=
  Reply.mk (now t) (js_or (ReplyBody.author b) (VStr (js "Anonymous")))
    (ReplyBody.content b) (iso t).

(** The post a request builds. *)
Definition new_post (t : clock) (b : PostBody.t) : Post.t :=
  Post.mk (now t) (js_or (PostBody.author b) (VStr (js "Anonymous")))
    (PostBody.content b) (js_or (PostBody.image b) VNull) (iso t) (Some []).

(** A post with other replies. *)
Definition with_replies (p : Post.t) (rs : list Reply.t) : Post.t :=
  Post.mk (Post.id p) (Post.author p) (Post.content p) (Post.image p) (Post.timestamp p)
    (Some rs).

Definition hello_post : Post.t :=
  Post.mk 42 (VStr (js "kay")) (VStr (js "hello")) VNull (js "t")
    (Some [Reply.mk 7 (VStr (js "kay")) (VStr (js "first")) (js "t")]).

Definition admin_flag : AdminBody.t := AdminBody.mk (VBool true).

Definition noon : clock := mkClock 1700000000000 (js "2023-11-14T22:13:20.000Z").

(** The patch a request builds. *)
Definition new_patch (t : clock) (b : PatchBody.t) : Patch.t :=
  Patch.mk (now t) (PatchBody.version b) (PatchBody.date b) (PatchBody.text b).

(** The collection a route writes to, if any. *)
Definition written (r : request) : option collection_name :=
  match r with
  | PostRegister _ => Some Users
  | PostPost _ _ | DeletePost _ _ | PostReply _ _ _ | DeleteReply _ _ _ => Some Posts
  | PostPatch _ _ | PutPatch _ _ | DeletePatch _ _ => Some Patches
  | GetAgents _ | PostLogin _ | GetPosts | GetPatches => None
  end.

(** The routes that can answer without the database. *)
Definition storeless (r : request) : bool :=
  match r with
  | GetAgents _ | PostLogin _ => true
  | _ => false
  end.

(** The characters of a sequence of decimal digits, and the number they
    write. *)
Definition digit_chars (ds : list Z) : jsstring := map (fun d => 48 + d) ds.

Definition positional (ds : list Z) : Z := fold_left (fun a d => a * 10 + d) ds 0.

Definition decimal_digit (d : Z) : Prop := 0 <= d <= 9.

(* ================================================================== *)
(** * Properties                                                        *)
(* ================================================================== *)

Unset Implicit Arguments.

Local Ltac euclid := Z.to_euclidean_division_equations; lia.

(** Turn boolean comparisons in the hypotheses into propositions. *)
Local Ltac props :=
  repeat match goal with
         | H : _ && _ = true |- _ => apply andb_true_iff in H; destruct H
         | H : _ && _ = false |- _ => apply andb_false_iff in H
         | H : _ || _ = true |- _ => apply orb_true_iff in H
         | H : _ || _ = false |- _ => apply orb_false_iff in H; destruct H
         | H : negb _ = true |- _ => apply negb_true_iff in H
         | H : negb _ = false |- _ => apply negb_false_iff in H
         | H : (_ <=? _) = true |- _ => apply Z.leb_le in H
         | H : (_ <=? _) = false |- _ => apply Z.leb_gt in H
         | H : (_ <? _) = true |- _ => apply Z.ltb_lt in H
         | H : (_ <? _) = false |- _ => apply Z.ltb_ge in H
         | H : (_ =? _) = true |- _ => apply Z.eqb_eq in H
         | H : (_ =? _) = false |- _ => apply Z.eqb_neq in H
         end.

(** Decide the comparisons of the goal by arithmetic. *)
Local Ltac decide_cmp :=
  repeat match goal with
         | |- context [?a <=? ?b] =>
             first [ replace (a <=? b) with true by (symmetry; apply Z.leb_le; euclid)
                   | replace (a <=? b) with false by (symmetry; apply Z.leb_gt; euclid) ]
         | |- context [?a <? ?b] =>
             first [ replace (a <? b) with true by (symmetry; apply Z.ltb_lt; euclid)
                   | replace (a <? b) with false by (symmetry; apply Z.ltb_ge; euclid) ]
         | |- context [?a =? ?b] =>
             first [ replace (a =? b) with true by (symmetry; apply Z.eqb_eq; euclid)
                   | replace (a =? b) with false by (symmetry; apply Z.eqb_neq; euclid) ]
         end.

Section Strings.

Lemma str_eqb_refl (a : jsstring) : str_eqb a a = true.
Proof.
  induction a as [|x a IH]; simpl; [reflexivity|].
  now rewrite Z.eqb_refl, IH.
Qed.

Lemma str_eqb_eq (a b : jsstring) : str_eqb a b = true <-> a = b.
Proof.
  split.
  - revert b; induction a as [|x a IH]; intros [|y b] H; simpl in H;
      try discriminate; [reflexivity|].
    props. subst y. f_equal. now apply IH.
  - intros ->. apply str_eqb_refl.
Qed.

Lemma str_eqb_neq (a b : jsstring) : str_eqb a b = false <-> a <> b.
Proof.
  split.
  - intros H E. apply str_eqb_eq in E. congruence.
  - intros H. destruct (str_eqb a b) eqn:E; [|reflexivity].
    apply str_eqb_eq in E. contradiction.
Qed.

Lemma filled_spec (f : field) :
  filled f = true <-> exists s, f = Some s /\ s <> [].
Proof.
  split.
  - destruct f as [[|u s]|]; simpl; try discriminate.
    intros _. exists (u :: s). split; [reflexivity|discriminate].
  - intros (s & -> & Hs). destruct s; [contradiction|reflexivity].
Qed.

End Strings.

(** ** Base 64 *)

Section Base64.
Import Buffer.

Lemma unbase64_b64_char (n : Z) :
  0 <= n < 64 -> unbase64 (b64_char n) = Some n.
Proof.
  intros Hn. unfold b64_char, unbase64.
  destruct (n <? 26) eqn:H1; props.
  { decide_cmp. cbn [andb orb]. f_equal. lia. }
  destruct (n <? 52) eqn:H2; props.
  { decide_cmp. cbn [andb orb]. f_equal. lia. }
  destruct (n <? 62) eqn:H3; props.
  { decide_cmp. cbn [andb orb]. f_equal. lia. }
  destruct (n =? 62) eqn:H4; props.
  { subst n. reflexivity. }
  assert (n = 63) by lia. subst n. reflexivity.
Qed.

Lemma b64_char_not_pad (n : Z) : 0 <= n < 64 -> (b64_char n =? 61) = false.
Proof.
  intros Hn. apply Z.eqb_neq. unfold b64_char.
  repeat match goal with
         | |- context [if ?c then _ else _] => destruct c eqn:?; props
         end; lia.
Qed.

Lemma sextets_digit (n : Z) (rest : jsstring) :
  0 <= n < 64 -> sextets (b64_char n :: rest) = n :: sextets rest.
Proof.
  intros Hn. simpl.
  now rewrite (b64_char_not_pad n Hn), (unbase64_b64_char n Hn).
Qed.

Lemma sextets_pad (rest : jsstring) : sextets (61 :: rest) = [].
Proof. reflexivity. Qed.

(** Induction on lists three elements at a time. *)
Lemma list_ind3 (A : Type) (P : list A -> Prop) :
  P [] -> (forall a, P [a]) -> (forall a b, P [a; b]) ->
  (forall a b c l, P l -> P (a :: b :: c :: l)) ->
  forall l, P l.
Proof.
  intros H0 H1 H2 H3.
  fix IH 1. intros [|a [|b [|c l]]].
  - exact H0.
  - apply H1.
  - apply H2.
  - apply H3, IH.
Qed.

Lemma base64_roundtrip (bs : list Z) :
  Forall byte bs -> base64_read (base64_write bs) = bs.
Proof.
  unfold base64_read.
  induction bs as [|a|a b|a b c l IH] using list_ind3; intros Hbs.
  - reflexivity.
  - inversion_clear Hbs as [|? ? Ha _]. unfold byte in Ha.
    cbn [base64_write].
    rewrite !sextets_digit by euclid. rewrite sextets_pad. cbn [unsextets].
    f_equal. euclid.
  - inversion_clear Hbs as [|? ? Ha Hbs']. inversion_clear Hbs' as [|? ? Hb _].
    unfold byte in *. cbn [base64_write].
    rewrite !sextets_digit by euclid. rewrite sextets_pad. cbn [unsextets].
    f_equal; [euclid|]. f_equal. euclid.
  - inversion_clear Hbs as [|? ? Ha Hbs']. inversion_clear Hbs' as [|? ? Hb Hbs].
    inversion_clear Hbs as [|? ? Hc Hl].
    unfold byte in *. cbn [base64_write app].
    rewrite !sextets_digit by euclid.
    cbn [unsextets app]. rewrite (IH Hl).
    f_equal; [euclid|]. f_equal; [euclid|]. f_equal. euclid.
Qed.

End Base64.

(** ** UTF-8 *)

Section Utf8.
Import Buffer.

(** Induction that also gives the property for the tail of the tail. *)
Lemma list_ind2 (A : Type) (P : list A -> Prop) :
  P [] -> (forall u, P [u]) ->
  (forall u v l, P (v :: l) -> P l -> P (u :: v :: l)) ->
  forall l, P l.
Proof.
  intros H0 H1 H2 l.
  enough (P l /\ forall u, P (u :: l)) by tauto.
  induction l as [|v l [IHl IHc]]; split; auto.
Qed.

Lemma utf8_points_1 (u : Z) (bs : list Z) :
  0 <= u < 128 ->
  utf8_points Start (utf8_1 u ++ bs) = u :: utf8_points Start bs.
Proof.
  intros Hu. unfold utf8_1. cbn [app utf8_points utf8_step]. unfold utf8_lead.
  decide_cmp. reflexivity.
Qed.

Lemma utf8_points_2 (u : Z) (bs : list Z) :
  128 <= u < 2048 ->
  utf8_points Start (utf8_2 u ++ bs) = u :: utf8_points Start bs.
Proof.
  intros Hu. unfold utf8_2. cbn [app utf8_points utf8_step]. unfold utf8_lead.
  decide_cmp. cbn [andb app utf8_points utf8_step]. decide_cmp.
  cbn [andb app]. f_equal. euclid.
Qed.

Lemma utf8_points_3 (u : Z) (bs : list Z) :
  2048 <= u < 65536 -> is_high u = false -> is_low u = false ->
  utf8_points Start (utf8_3 u ++ bs) = u :: utf8_points Start bs.
Proof.
  intros Hu Hh Hl. unfold is_high, is_low in *. props.
  unfold utf8_3. cbn [app utf8_points utf8_step]. unfold utf8_lead.
  decide_cmp. cbn [andb app utf8_points utf8_step].
  destruct (224 + u / 4096 =? 224) eqn:E0; destruct (224 + u / 4096 =? 237) eqn:E1;
    props; decide_cmp; cbn [andb app utf8_points utf8_step]; decide_cmp;
    cbn [andb app]; f_equal; euclid.
Qed.

Lemma utf8_points_4 (c : Z) (bs : list Z) :
  65536 <= c < 1114112 ->
  utf8_points Start (utf8_4 c ++ bs) = c :: utf8_points Start bs.
Proof.
  intros Hc. unfold utf8_4. cbn [app utf8_points utf8_step]. unfold utf8_lead.
  decide_cmp. cbn [andb app utf8_points utf8_step].
  destruct (240 + c / 262144 =? 240) eqn:E0; destruct (240 + c / 262144 =? 244) eqn:E1;
    props; decide_cmp; cbn [andb app utf8_points utf8_step]; decide_cmp;
    cbn [andb app utf8_points utf8_step]; decide_cmp;
    cbn [andb app]; f_equal; euclid.
Qed.

Lemma pair_point_range (hi lo : Z) :
  is_high hi = true -> is_low lo = true -> 65536 <= pair_point hi lo < 1114112.
Proof.
  unfold is_high, is_low, pair_point. intros Hh Hl. props. lia.
Qed.

Lemma utf16_units_pair (hi lo : Z) :
  is_high hi = true -> is_low lo = true -> utf16_units (pair_point hi lo) = [hi; lo].
Proof.
  intros Hh Hl. pose proof (pair_point_range hi lo Hh Hl) as Hr.
  unfold utf16_units. decide_cmp.
  unfold is_high, is_low, pair_point in *. props.
  f_equal; [euclid|]. f_equal. euclid.
Qed.

Lemma utf16_units_bmp (u : Z) : u < 65536 -> utf16_units u = [u].
Proof. intros Hu. unfold utf16_units. now decide_cmp. Qed.

(** What [utf8_write] does on a well-formed string, one character at a
    time. *)
Lemma utf8_roundtrip (s : jsstring) :
  Forall code_unit s -> paired s = true -> utf8_read (utf8_write s) = s.
Proof.
  unfold utf8_read.
  induction s as [|u|u v l IHv IHl] using list_ind2; intros Hs Hp.
  - reflexivity.
  - inversion_clear Hs as [|? ? Hu _]. unfold code_unit in Hu.
    cbn [paired] in Hp. cbn [utf8_write].
    destruct (u <? 128) eqn:E1; props.
    { rewrite utf8_points_1 by lia. cbn [flat_map utf8_points app].
      now rewrite utf16_units_bmp by lia. }
    destruct (u <? 2048) eqn:E2; props.
    { rewrite utf8_points_2 by lia. cbn [flat_map utf8_points app].
      now rewrite utf16_units_bmp by lia. }
    destruct (is_high u) eqn:Eh; [discriminate|].
    destruct (is_low u) eqn:El; [discriminate|].
    rewrite utf8_points_3 by (auto; lia). cbn [flat_map utf8_points app].
    now rewrite utf16_units_bmp by lia.
  - inversion Hs as [|? ? Hu Hs']. subst. unfold code_unit in Hu.
    cbn [paired] in Hp. cbn [utf8_write].
    destruct (u <? 128) eqn:E1; props.
    { assert (Eh : is_high u = false)
        by (unfold is_high; apply andb_false_iff; left; apply Z.leb_gt; lia).
      rewrite Eh in Hp. props.
      rewrite utf8_points_1 by lia. cbn [flat_map].
      rewrite utf16_units_bmp by lia. cbn [app]. f_equal. now apply IHv. }
    destruct (u <? 2048) eqn:E2; props.
    { assert (Eh : is_high u = false)
        by (unfold is_high; apply andb_false_iff; left; apply Z.leb_gt; lia).
      rewrite Eh in Hp. props.
      rewrite utf8_points_2 by lia. cbn [flat_map].
      rewrite utf16_units_bmp by lia. cbn [app]. f_equal. now apply IHv. }
    destruct (is_high u) eqn:Eh.
    + props. rewrite H.
      inversion_clear Hs' as [|? ? _ Hl].
      rewrite utf8_points_4 by now apply pair_point_range.
      cbn [flat_map]. rewrite utf16_units_pair by assumption.
      cbn [app]. do 2 f_equal. now apply IHl.
    + props. rewrite H.
      rewrite utf8_points_3 by (auto; lia). cbn [flat_map].
      rewrite utf16_units_bmp by lia. cbn [app]. f_equal. now apply IHv.
Qed.

Lemma utf8_write_bytes (s : jsstring) :
  Forall code_unit s -> Forall byte (utf8_write s).
Proof.
  assert (Hrep : Forall byte replacement)
    by (unfold replacement, byte; repeat constructor; lia).
  induction s as [|u|u v l IHv IHl] using list_ind2; intros Hs.
  - constructor.
  - inversion_clear Hs as [|? ? Hu _]. unfold code_unit in Hu.
    cbn [utf8_write].
    repeat match goal with
           | |- context [if ?c then _ else _] => destruct c eqn:?
           end; unfold is_high, is_low in *; props;
      rewrite ?app_nil_r; try assumption;
      unfold utf8_1, utf8_2, utf8_3, byte; repeat constructor; euclid.
  - inversion Hs as [|? ? Hu Hs']. subst. unfold code_unit in Hu.
    inversion Hs' as [|? ? Hv Hl]. subst. unfold code_unit in Hv.
    specialize (IHv Hs'). specialize (IHl Hl).
    cbn [utf8_write]. cbn [utf8_write] in IHv.
    repeat match goal with
           | |- context [if ?c then _ else _] => destruct c eqn:?
           end;
      apply Forall_app; split; try assumption;
      unfold is_high, is_low, pair_point in *; props;
      unfold utf8_1, utf8_2, utf8_3, utf8_4, byte; repeat constructor; euclid.
Qed.

Lemma codec_roundtrip (s : jsstring) :
  Forall code_unit s -> paired s = true -> decodePassword (encodePassword s) = s.
Proof.
  intros Hs Hp. unfold decodePassword, encodePassword.
  rewrite base64_roundtrip by now apply utf8_write_bytes.
  now apply utf8_roundtrip.
Qed.

End Utf8.

(** ** The regular expression matcher *)

Section RegexFacts.
Import Regex.

Lemma matches_seq_inv (r1 r2 : t) (s : jsstring) :
  matches (Seq r1 r2) s ->
  exists s1 s2, s = s1 ++ s2 /\ matches r1 s1 /\ matches r2 s2.
Proof. intros H. inversion H; subst. eauto. Qed.

Lemma matches_alt_inv (r1 r2 : t) (s : jsstring) :
  matches (Alt r1 r2) s -> matches r1 s \/ matches r2 s.
Proof. intros H. inversion H; subst; auto. Qed.

Lemma matches_class_inv (p : Z -> bool) (s : jsstring) :
  matches (Class p) s -> exists u, s = [u] /\ p u = true.
Proof. intros H. inversion H; subst. eauto. Qed.

Lemma nullable_spec (r : t) : nullable r = true <-> matches r [].
Proof.
  induction r as [| |p|r1 IH1 r2 IH2|r1 IH1 r2 IH2|r IH]; simpl.
  - split; [discriminate|]. intros H. inversion H.
  - split; [constructor|reflexivity].
  - split; [discriminate|]. intros H. inversion H.
  - rewrite andb_true_iff, IH1, IH2. split.
    + intros [H1 H2]. change (@nil Z) with (@nil Z ++ []). now constructor.
    + intros H. apply matches_seq_inv in H as (s1 & s2 & E & H1 & H2).
      symmetry in E. apply app_eq_nil in E as [-> ->]. auto.
  - rewrite orb_true_iff, IH1, IH2. split.
    + intros [H|H]; [now apply MAltL | now apply MAltR].
    + apply matches_alt_inv.
  - split; [constructor|reflexivity].
Qed.

(** A non-empty word of [r*] starts with a non-empty word of [r]. *)
Lemma matches_star_cons (r : t) (s : jsstring) :
  matches (Star r) s ->
  forall u s', s = u :: s' ->
  exists s1 s2, s' = s1 ++ s2 /\ matches r (u :: s1) /\ matches (Star r) s2.
Proof.
  intros H. remember (Star r) as r' eqn:Er.
  induction H as [| | | | | |r0 s1 s2 H1 _ H2 IH2]; try discriminate.
  injection Er as Er. subst r0. intros u s' E.
  destruct s1 as [|x s1]; simpl in E.
  - now apply IH2.
  - injection E as -> <-. eauto.
Qed.

Lemma deriv_spec (r : t) :
  forall u s, matches (deriv u r) s <-> matches r (u :: s).
Proof.
  induction r as [| |p|r1 IH1 r2 IH2|r1 IH1 r2 IH2|r IH]; intros u s; simpl.
  - split; intros H; inversion H.
  - split; intros H; inversion H.
  - destruct (p u) eqn:E; split; intros H.
    + inversion H; subst. now constructor.
    + inversion H; subst. constructor.
    + inversion H.
    + inversion H; subst. congruence.
  - assert (Hfwd : matches (Seq (deriv u r1) r2) s -> matches (Seq r1 r2) (u :: s)).
    { intros H. apply matches_seq_inv in H as (s1 & s2 & -> & H1 & H2).
      apply IH1 in H1. change (u :: s1 ++ s2) with ((u :: s1) ++ s2).
      now constructor. }
    assert (Hbwd : matches (Seq r1 r2) (u :: s) ->
                   matches (Seq (deriv u r1) r2) s
                   \/ (matches r1 [] /\ matches r2 (u :: s))).
    { intros H. apply matches_seq_inv in H as (s1 & s2 & E & H1 & H2).
      destruct s1 as [|x s1]; simpl in E.
      - subst s2. auto.
      - injection E as <- ->. left. constructor; [now apply IH1 | assumption]. }
    destruct (nullable r1) eqn:En; split; intros H.
    + apply matches_alt_inv in H as [H|H]; [now apply Hfwd|].
      apply IH2 in H. apply nullable_spec in En.
      change (u :: s) with ([] ++ u :: s). now constructor.
    + apply Hbwd in H as [H|[_ H]]; [now apply MAltL|].
      apply MAltR. now apply IH2.
    + now apply Hfwd.
    + apply Hbwd in H as [H|[H _]]; [assumption|].
      apply nullable_spec in H. congruence.
  - split; intros H.
    + apply matches_alt_inv in H as [H|H];
        [apply MAltL; now apply IH1 | apply MAltR; now apply IH2].
    + apply matches_alt_inv in H as [H|H];
        [apply MAltL; now apply IH1 | apply MAltR; now apply IH2].
  - split; intros H.
    + apply matches_seq_inv in H as (s1 & s2 & -> & H1 & H2).
      apply IH in H1. change (u :: s1 ++ s2) with ((u :: s1) ++ s2).
      now constructor.
    + destruct (matches_star_cons _ _ H _ _ eq_refl) as (s1 & s2 & -> & H1 & H2).
      constructor; [now apply IH | assumption].
Qed.

(** The matcher decides membership in the language. *)
Lemma test_spec (r : t) (s : jsstring) : test r s = true <-> matches r s.
Proof.
  revert r. induction s as [|u s IH]; intros r; simpl.
  - apply nullable_spec.
  - rewrite IH. apply deriv_spec.
Qed.

Lemma matches_star_class (p : Z -> bool) (s : jsstring) :
  matches (Star (Class p)) s <-> Forall (fun u => p u = true) s.
Proof.
  split.
  - intros H. remember (Star (Class p)) as r eqn:Er.
    induction H as [| | | | | |r0 s1 s2 H1 _ H2 IH2]; try discriminate.
    + constructor.
    + injection Er as ->. apply matches_class_inv in H1 as (u & -> & Hu).
      constructor; auto.
  - induction 1 as [|u s Hu _ IH].
    + constructor.
    + change (u :: s) with ([u] ++ s). constructor; [now constructor | assumption].
Qed.

Lemma matches_plus_class (p : Z -> bool) (s : jsstring) :
  matches (Plus (Class p)) s <-> s <> [] /\ Forall (fun u => p u = true) s.
Proof.
  unfold Plus. split.
  - intros H. apply matches_seq_inv in H as (s1 & s2 & -> & H1 & H2).
    apply matches_class_inv in H1 as (u & -> & Hu).
    apply matches_star_class in H2. split; [discriminate|]. now constructor.
  - intros [Hne H]. destruct s as [|u s]; [contradiction|].
    inversion_clear H as [|? ? Hu Hs].
    change (u :: s) with ([u] ++ s).
    constructor; [now constructor | now apply matches_star_class].
Qed.

Lemma matches_char (c : Z) (s : jsstring) : matches (Char c) s <-> s = [c].
Proof.
  unfold Char. split.
  - intros H. apply matches_class_inv in H as (u & -> & Hu).
    apply Z.eqb_eq in Hu. now subst.
  - intros ->. constructor. apply Z.eqb_refl.
Qed.

(** The regular expression of the source accepts the strings of the
    shape the pattern describes, and no other. *)
Lemma email_regex_shape (s : jsstring) :
  test email_regex s = true <-> email_shape s.
Proof.
  rewrite test_spec. unfold email_regex, email_shape. split.
  - intros H.
    apply matches_seq_inv in H as (a & s1 & -> & Ha & H).
    apply matches_seq_inv in H as (at_ & s2 & -> & Hat & H).
    apply matches_seq_inv in H as (b & s3 & -> & Hb & H).
    apply matches_seq_inv in H as (dot & c & -> & Hdot & Hc).
    apply matches_char in Hat, Hdot. subst at_ dot.
    apply matches_plus_class in Ha as [? ?], Hb as [? ?], Hc as [? ?].
    exists a, b, c. simpl. auto 10.
  - intros (a & b & c & -> & Ha & Hb & Hc & Fa & Fb & Fc).
    constructor; [now apply matches_plus_class|].
    change (64 :: b ++ 46 :: c) with ([64] ++ b ++ [46] ++ c).
    constructor; [now apply matches_char|].
    constructor; [now apply matches_plus_class|].
    constructor; [now apply matches_char | now apply matches_plus_class].
Qed.

End RegexFacts.

(** ** The driver *)

Section DriverFacts.
Variable D : Type.
Variable f : D -> bool.

Lemma find_first (l : list D) (d : D) :
  List.find f l = Some d ->
  exists l1 l2, l = l1 ++ d :: l2 /\ f d = true /\ Forall (fun x => f x = false) l1.
Proof.
  induction l as [|x l IH]; simpl; [discriminate|].
  destruct (f x) eqn:E.
  - intros [= ->]. exists [], l. auto.
  - intros H. destruct (IH H) as (l1 & l2 & -> & Hd & Hl1).
    exists (x :: l1), l2. auto.
Qed.

Lemma find_at (l1 l2 : list D) (d : D) :
  Forall (fun x => f x = false) l1 -> f d = true ->
  List.find f (l1 ++ d :: l2) = Some d.
Proof.
  intros H Hd. induction H as [|x l1 Hx _ IH]; simpl.
  - now rewrite Hd.
  - now rewrite Hx.
Qed.

Lemma update_first_at (g : D -> D) (l1 l2 : list D) (d : D) :
  Forall (fun x => f x = false) l1 -> f d = true ->
  update_first f g (l1 ++ d :: l2) = Some (l1 ++ g d :: l2).
Proof.
  intros H Hd. induction H as [|x l1 Hx _ IH]; simpl.
  - now rewrite Hd.
  - now rewrite Hx, IH.
Qed.

Lemma update_first_nowhere (g : D -> D) (l : list D) :
  (forall x, In x l -> f x = false) -> update_first f g l = None.
Proof.
  induction l as [|x l IH]; intros H; simpl; [reflexivity|].
  rewrite (H x) by now left.
  rewrite IH; [reflexivity|]. intros y Hy. apply H. now right.
Qed.

Lemma remove_first_at (l1 l2 : list D) (d : D) :
  Forall (fun x => f x = false) l1 -> f d = true ->
  remove_first f (l1 ++ d :: l2) = Some (l1 ++ l2).
Proof.
  intros H Hd. induction H as [|x l1 Hx _ IH]; simpl.
  - now rewrite Hd.
  - now rewrite Hx, IH.
Qed.

Lemma remove_first_nowhere (l : list D) :
  (forall x, In x l -> f x = false) -> remove_first f l = None.
Proof.
  induction l as [|x l IH]; intros H; simpl; [reflexivity|].
  rewrite (H x) by now left.
  rewrite IH; [reflexivity|]. intros y Hy. apply H. now right.
Qed.

(** Either some document is the first match, or none matches. *)
Lemma first_match (l : list D) :
  (exists l1 d l2, l = l1 ++ d :: l2 /\ f d = true /\ Forall (fun x => f x = false) l1)
  \/ (forall x, In x l -> f x = false).
Proof.
  destruct (List.find f l) as [d|] eqn:E.
  - left. apply find_first in E as (l1 & l2 & ? & ? & ?). eauto 6.
  - right. intros x Hx. now apply (find_none f l E).
Qed.

End DriverFacts.

Lemma id_is_true (n : option Z) (i : Z) : id_is n i = true <-> n = Some i.
Proof.
  destruct n as [k|]; simpl.
  - rewrite Z.eqb_eq. split; [now intros -> | now intros [= ->]].
  - split; discriminate.
Qed.

Lemma id_is_false (n : option Z) (i : Z) : id_is n i = false <-> n <> Some i.
Proof.
  rewrite <- id_is_true. destruct (id_is n i); split; congruence.
Qed.

(** ** Registration *)

Lemma all_present_filled (b : RegisterBody.t) :
  all_present b <->
  negb (filled (RegisterBody.username b)) || negb (filled (RegisterBody.email b))
  || negb (filled (RegisterBody.password b)) || negb (filled (RegisterBody.confirm b)) = false.
Proof.
  unfold all_present, non_empty. rewrite <- !filled_spec.
  destruct (filled (RegisterBody.username b)), (filled (RegisterBody.email b)),
    (filled (RegisterBody.password b)), (filled (RegisterBody.confirm b));
    simpl; intuition congruence.
Qed.

Lemma taken_find (s : store) (email username : jsstring) :
  taken s email username <->
  exists u, List.find (fun u => str_eqb (User.email u) email
                                || str_eqb (User.username u) username) (users s) = Some u.
Proof.
  unfold taken. split.
  - intros (u & Hin & Hu).
    destruct (List.find _ (users s)) as [v|] eqn:E; [eauto|].
    apply (find_none _ _ E) in Hin. apply orb_false_iff in Hin as [H1 H2].
    apply str_eqb_neq in H1, H2. tauto.
  - intros (u & E). apply find_some in E as [Hin Hu].
    apply orb_true_iff in Hu. exists u. split; [assumption|].
    destruct Hu as [Hu|Hu]; apply str_eqb_eq in Hu; auto.
Qed.

Lemma register_not_present (b : RegisterBody.t) :
  ~ all_present b ->
  negb (filled (RegisterBody.username b)) || negb (filled (RegisterBody.email b))
  || negb (filled (RegisterBody.password b)) || negb (filled (RegisterBody.confirm b)) = true.
Proof.
  intros H. apply not_false_iff_true. intros E. now apply all_present_filled in E.
Qed.

Lemma not_email_shape (e : jsstring) :
  ~ email_shape e -> Regex.test email_regex e = false.
Proof.
  intros H. apply not_true_iff_false. intros E. now apply email_regex_shape in E.
Qed.

Lemma not_taken_find (s : store) (email username : jsstring) :
  ~ taken s email username ->
  List.find (fun u => str_eqb (User.email u) email
                      || str_eqb (User.username u) username) (users s) = None.
Proof.
  intros H. destruct (List.find _ (users s)) as [u|] eqn:E; [|reflexivity].
  exfalso. apply H. apply taken_find. eauto.
Qed.

(** Unfold the driver and the monad. *)
Local Ltac run_driver :=
  unfold try_or, answer, bind, ret, findOne, find_all, insertOne, deleteOne, updateOne,
    findOneAndUpdate, countDocuments, call, record_call, after_calls; cbn.

(** C1 (amended). On a body whose fields are strings or absent,
    registration applies its checks in order, the first failure answering
    400 with its own message and leaving the store as it was: (1) the four
    fields are filled in, (2) the username has at least 3 characters, (3)
    the email has the shape of the pattern, (4) the password equals its
    confirmation, (5) the password has at least 6 characters, (6) no
    stored user has the email or the username, as the database holds
    them: written as UTF-8, with U+FFFD for a surrogate that stands alone.
    The first five failures make no call to the store, the sixth only
    reads it.  When every check passes, one user is appended to the
    collection, with [isAdmin] false, the encoded password, and the
    username and email as the database holds them, and the answer is 201
    with the username and the email of the request and no password. *)
Theorem C1_register_checks_in_order (b : RegisterBody.t) (s : store) :
  let username := str (RegisterBody.username b) in
  let email := str (RegisterBody.email b) in
  let password := str (RegisterBody.password b) in
  let confirm := str (RegisterBody.confirm b) in
  let refused msg := (respond 400 (error msg), s) in
  let created :=
    obj [("message"%string, VStr (js "Registration successful!"));
         ("user"%string, obj [("username"%string, VStr username);
                              ("email"%string, VStr email)])] in
  (~ all_present b ->
   register b s = refused "Please fill in all fields"%string)
  /\ (all_present b -> str_length username < 3 ->
      register b s = refused "Username must be at least 3 characters long"%string)
  /\ (all_present b -> 3 <= str_length username -> ~ email_shape email ->
      register b s = refused "Please enter a valid email address"%string)
  /\ (all_present b -> 3 <= str_length username -> email_shape email ->
      password <> confirm ->
      register b s = refused "Passwords do not match"%string)
  /\ (all_present b -> 3 <= str_length username -> email_shape email ->
      password = confirm -> str_length password < 6 ->
      register b s = refused "Password must be at least 6 characters long"%string)
  /\ (all_present b -> 3 <= str_length username -> email_shape email ->
      password = confirm -> 6 <= str_length password ->
      online s = true -> taken s (sanitize email) (sanitize username) ->
      register b s =
        (respond 400 (error "This email or username is already registered"),
         after_calls s [FindOne Users]))
  /\ (all_present b -> 3 <= str_length username -> email_shape email ->
      password = confirm -> 6 <= str_length password ->
      online s = true -> ~ taken s (sanitize email) (sanitize username) ->
      register b s =
        (respond 201 created,
         mkStore (online s)
           (users s ++ [User.mk (sanitize username) (sanitize email)
                          (encodePassword password) (VBool false)])
           (posts s) (patches s) (calls s ++ [FindOne Users; InsertOne Users]))
      /\ has_key "password" created = false
      /\ has_key "password" (get "user" created) = false
      /\ get "username" (get "user" created) = VStr username
      /\ get "email" (get "user" created) = VStr email).
Proof.
  intros username email password confirm refused created.
  assert (Hlen : forall x n, n <= str_length x -> (str_length x <? n) = false)
    by (intros; now apply Z.ltb_ge).
  repeat match goal with |- _ /\ _ => split end.
  - intros H1. unfold register.
    now rewrite (register_not_present b H1).
  - intros H1 H2. unfold register.
    apply all_present_filled in H1. rewrite H1.
    apply Z.ltb_lt in H2. fold username. now rewrite H2.
  - intros H1 H2 H3. unfold register.
    apply all_present_filled in H1. rewrite H1.
    fold username email. rewrite (Hlen _ _ H2), (not_email_shape _ H3). reflexivity.
  - intros H1 H2 H3 H4. unfold register.
    apply all_present_filled in H1. rewrite H1.
    apply email_regex_shape in H3. apply str_eqb_neq in H4.
    fold username email password confirm. rewrite (Hlen _ _ H2), H3, H4. reflexivity.
  - intros H1 H2 H3 H4 H5. unfold register.
    apply all_present_filled in H1. rewrite H1.
    apply email_regex_shape in H3. apply str_eqb_eq in H4. apply Z.ltb_lt in H5.
    fold username email password confirm. rewrite (Hlen _ _ H2), H3, H4, H5. reflexivity.
  - intros H1 H2 H3 H4 H5 Ho H6. unfold register.
    apply all_present_filled in H1. rewrite H1.
    apply email_regex_shape in H3. apply str_eqb_eq in H4.
    apply taken_find in H6 as (u & H6).
    fold username email password confirm.
    rewrite (Hlen _ _ H2), H3, H4, (Hlen _ _ H5).
    run_driver. rewrite Ho. cbn. now rewrite H6.
  - intros H1 H2 H3 H4 H5 Ho H6. split; [|unfold created; cbn; auto].
    unfold register.
    apply all_present_filled in H1. rewrite H1.
    apply email_regex_shape in H3. apply str_eqb_eq in H4.
    apply not_taken_find in H6.
    fold username email password confirm.
    rewrite (Hlen _ _ H2), H3, H4, (Hlen _ _ H5).
    run_driver. rewrite Ho. cbn. rewrite H6. cbn.
    now rewrite <- app_assoc.
Qed.

(** Witness of C1: a first registration is accepted and stored, a second
    one with the same data is refused. *)
Lemma C1_register_checks_in_order_witness :
  register alice empty_store
  = (respond 201
       (obj [("message"%string, VStr (js "Registration successful!"));
             ("user"%string, obj [("username"%string, VStr (js "alice"));
                                  ("email"%string, VStr (js "alice@example.com"))])]),
     mkStore true [alice_user] [] [] [FindOne Users; InsertOne Users])
  /\ register alice (mkStore true [alice_user] [] [] [])
     = (respond 400 (error "This email or username is already registered"),
        mkStore true [alice_user] [] [] [FindOne Users]).
Proof.
  assert (Hp : all_present alice).
  { repeat split; eexists; (split; [reflexivity|discriminate]). }
  assert (Hu : 3 <= str_length (str (RegisterBody.username alice)))
    by (vm_compute; discriminate).
  assert (He : email_shape (str (RegisterBody.email alice))).
  { exists (js "alice"), (js "example"), (js "com").
    repeat split; try discriminate; repeat constructor. }
  assert (Hl : 6 <= str_length (str (RegisterBody.password alice)))
    by (vm_compute; discriminate).
  split.
  - apply (C1_register_checks_in_order alice empty_store); auto.
    intros (u & [] & _).
  - apply (C1_register_checks_in_order alice (mkStore true [alice_user] [] [] [])); auto.
    exists alice_user. split; [now left | now left].
Defined.

(** On a body whose fields are strings or absent, the handler makes the
    five checks of [register_checks]: it sends the refusal they give and
    leaves the store as it was, or the body passes them all. *)
Lemma register_checks_strings (b : RegisterBody.t) (s : store) :
  match register_checks (of_field (RegisterBody.username b)) (of_field (RegisterBody.email b))
          (of_field (RegisterBody.password b)) (of_field (RegisterBody.confirm b)) with
  | Some r => register b s = (r, s)
  | None =>
      all_present b
      /\ 3 <= str_length (str (RegisterBody.username b))
      /\ email_shape (str (RegisterBody.email b))
      /\ str (RegisterBody.password b) = str (RegisterBody.confirm b)
      /\ 6 <= str_length (str (RegisterBody.password b))
  end.
Proof.
  destruct b as [[u|] [e|] [p|] [c|]]; try reflexivity;
    try (destruct u; reflexivity);
    try (destruct u; destruct e; reflexivity);
    try (destruct u; destruct e; destruct p; reflexivity).
  unfold register_checks, register.
  cbn [RegisterBody.username RegisterBody.email RegisterBody.password RegisterBody.confirm
       of_field scalar_value truthy filled str length_of less_than to_text strict_equal].
  destruct u as [|u0 u]; [reflexivity|]. destruct e as [|e0 e]; [reflexivity|].
  destruct p as [|p0 p]; [reflexivity|]. destruct c as [|c0 c]; [reflexivity|].
  cbn [negb orb].
  destruct (str_length (u0 :: u) <? 3) eqn:E2; [reflexivity|].
  destruct (Regex.test email_regex (e0 :: e)) eqn:E3; [|reflexivity].
  destruct (str_eqb (p0 :: p) (c0 :: c)) eqn:E4; [|reflexivity].
  destruct (str_length (p0 :: p) <? 6) eqn:E5; [reflexivity|].
  cbn [negb]. repeat split.
  - eexists. split; [reflexivity|discriminate].
  - eexists. split; [reflexivity|discriminate].
  - eexists. split; [reflexivity|discriminate].
  - eexists. split; [reflexivity|discriminate].
  - now apply Z.ltb_ge.
  - now apply email_regex_shape.
  - now apply str_eqb_eq.
  - now apply Z.ltb_ge.
Qed.

(** C1, as stated, fails in two ways.  A username that is the number 7 has
    no length, and passes the five checks on the body: the second check
    refuses only a length that is below 3.  And a registration whose
    username ends in a surrogate that stands alone, on a store where a
    user has the username that ends in U+FFFD instead: every check on the
    body passes and no stored user has the email or the username of the
    request, yet the answer is 400 "already registered", the database
    reading the username as the stored one. *)
Lemma C1_counterexample :
  (length_of (SNum 7) = None
   /\ register_checks (SNum 7) (SStr (js "seven@example.com"))
        (SStr (js "secret1")) (SStr (js "secret1")) = None)
  /\ (let s := mkStore true [bob_user] [] [] [] in
      all_present bob_surrogate
      /\ 3 <= str_length (str (RegisterBody.username bob_surrogate))
      /\ email_shape (str (RegisterBody.email bob_surrogate))
      /\ str (RegisterBody.password bob_surrogate) = str (RegisterBody.confirm bob_surrogate)
      /\ 6 <= str_length (str (RegisterBody.password bob_surrogate))
      /\ ~ taken s (str (RegisterBody.email bob_surrogate))
             (str (RegisterBody.username bob_surrogate))
      /\ register bob_surrogate s
         = (respond 400 (error "This email or username is already registered"),
            mkStore true [bob_user] [] [] [FindOne Users])).
Proof.
  split; [split; [reflexivity|vm_compute; reflexivity]|].
  cbv zeta. split; [|split; [|split; [|split; [|split; [|split]]]]].
  - repeat split; eexists; (split; [reflexivity|discriminate]).
  - vm_compute. discriminate.
  - exists (js "robert"), (js "example"), (js "com").
    repeat split; try discriminate; repeat constructor.
  - reflexivity.
  - vm_compute. discriminate.
  - intros (u & [<-|[]] & [E|E]); vm_compute in E; discriminate.
  - vm_compute. reflexivity.
Qed.

(** ** Login *)

Lemma admin_password_encoded : User.password ADMIN = js "YWNjZXNz".
Proof. reflexivity. Qed.

(** C2, as stated, fails for the empty password: its encoding is not the
    administrator's and no stored user matches it, yet the answer is 400,
    because the handler first asks for both fields to be filled in. *)
Lemma C2_empty_password_counterexample :
  encodePassword [] <> User.password ADMIN
  /\ users empty_store = []
  /\ login (admin_login []) empty_store
     = (respond 400 (error "Please fill in all fields"), empty_store)
  /\ status (fst (login (admin_login []) empty_store)) <> 401.
Proof.
  split; [discriminate|]. split; [reflexivity|]. split; [reflexivity|].
  discriminate.
Qed.

(** C2 (amended). Whatever the store holds, and whether it answers or not,
    the administrator's email with the password "access" is answered 200
    with [isAdmin] true, and the store is not called.  With the
    administrator's email and a non-empty password whose encoding is not
    the administrator's and that is not the decoded password of a stored
    user with that email, the answer is 401 "Invalid email or password",
    after one look-up in the users. *)
Theorem C2_admin_login (s : store) :
  login (admin_login (js "access")) s
  = (respond 200
       (obj [("message"%string, VStr (js "Admin login successful!"));
             ("user"%string, obj [("username"%string, VStr (js "Admin"));
                                  ("email"%string, VStr (js "admin@gmail.com"));
                                  ("isAdmin"%string, VBool true)])]),
     s)
  /\ forall password : jsstring,
      password <> [] ->
      encodePassword password <> User.password ADMIN ->
      online s = true ->
      (forall u, In u (users s) -> User.email u = User.email ADMIN ->
                 decodePassword (User.password u) <> password) ->
      login (admin_login password) s
      = (respond 401 (error "Invalid email or password"), after_calls s [FindOne Users]).
Proof.
  split; [reflexivity|].
  intros password Hne Henc Ho Hnone.
  unfold login, admin_login. cbn [LoginBody.email LoginBody.password str filled].
  destruct password as [|c password]; [contradiction|]. cbn [negb orb].
  rewrite str_eqb_refl. apply str_eqb_neq in Henc. rewrite Henc. cbn [andb].
  run_driver. rewrite Ho. cbn.
  destruct (find _ (users s)) as [u|] eqn:E; [|reflexivity].
  apply find_some in E as [Hin Hu]. apply str_eqb_eq in Hu.
  specialize (Hnone u Hin Hu). apply str_eqb_neq in Hnone.
  now rewrite Hnone.
Qed.

(** Witness of C2: a wrong password for the administrator, with one
    registered user in the store. *)
Lemma C2_admin_login_witness :
  login (admin_login (js "letmein")) (mkStore true [alice_user] [] [] [])
  = (respond 401 (error "Invalid email or password"),
     mkStore true [alice_user] [] [] [FindOne Users]).
Proof.
  apply (C2_admin_login (mkStore true [alice_user] [] [] [])).
  - discriminate.
  - vm_compute. discriminate.
  - reflexivity.
  - intros u [<-|[]]. vm_compute. discriminate.
Defined.

(** ** The credential codec *)

(** C3, as stated, fails for a string that holds a surrogate without its
    partner: the encoder writes U+FFFD in its place, and that is what the
    decoder gives back. *)
Lemma C3_lone_surrogate_counterexample :
  Forall code_unit [55296]
  /\ encodePassword [55296] = js "77+9"
  /\ decodePassword (encodePassword [55296]) = [65533]
  /\ decodePassword (encodePassword [55296]) <> [55296].
Proof.
  split; [repeat constructor; unfold code_unit; lia|].
  repeat split. discriminate.
Qed.

(** C3 (amended). For every string in which no surrogate stands alone,
    decoding the encoded string gives the string back. *)
Theorem C3_codec_roundtrip (s : jsstring) :
  Forall code_unit s -> paired s = true ->
  decodePassword (encodePassword s) = s.
Proof. apply codec_roundtrip. Qed.

(** Witness of C3: a password with an accented letter, a euro sign and a
    character outside the basic plane. *)
Lemma C3_codec_roundtrip_witness :
  decodePassword (encodePassword [112; 233; 8364; 55357; 56832])
  = [112; 233; 8364; 55357; 56832].
Proof.
  apply (C3_codec_roundtrip [112; 233; 8364; 55357; 56832]).
  - repeat constructor; unfold code_unit; lia.
  - reflexivity.
Defined.

(** ** Posts *)

Lemma filter_keeps_all (A : Type) (f : A -> bool) (l : list A) :
  (forall x, In x l -> f x = true) -> filter f l = l.
Proof.
  induction l as [|x l IH]; intros H; simpl; [reflexivity|].
  rewrite (H x) by now left. f_equal. apply IH. intros y Hy. apply H. now right.
Qed.

Lemma pull_reply_absent (n : option Z) (p : Post.t) :
  (forall rs r, Post.replies p = Some rs -> In r rs -> n <> Some (Reply.id r)) ->
  pull_reply n p = p.
Proof.
  intros H. destruct p as [i a c im t rs]. unfold pull_reply. cbn in *.
  f_equal. destruct rs as [rs|]; [|reflexivity]. cbn. f_equal.
  apply filter_keeps_all. intros r Hr. apply negb_true_iff, id_is_false. eauto.
Qed.

(** The first stored post the path names, if there is one. *)
Lemma post_lookup (id : jsstring) (s : store) :
  (exists l1 p l2, posts s = l1 ++ p :: l2 /\ names id (Post.id p)
                   /\ Forall (fun q => ~ names id (Post.id q)) l1)
  \/ (forall q, In q (posts s) -> ~ names id (Post.id q)).
Proof.
  destruct (first_match _ (fun p => id_is (parseInt id) (Post.id p)) (posts s))
    as [(l1 & p & l2 & E & Hp & Hl1)|H].
  - left. exists l1, p, l2. repeat split; [assumption|now apply id_is_true|].
    eapply Forall_impl; [|exact Hl1]. intros q Hq. now apply id_is_false.
  - right. intros q Hq. apply id_is_false. auto.
Qed.

Lemma names_first (A : Type) (key : A -> Z) (id : jsstring) (l1 : list A) :
  Forall (fun q => ~ names id (key q)) l1 ->
  Forall (fun q => id_is (parseInt id) (key q) = false) l1.
Proof.
  apply Forall_impl. intros q Hq. now apply id_is_false.
Qed.

Lemma names_nowhere (A : Type) (key : A -> Z) (id : jsstring) (l : list A) :
  (forall q, In q l -> ~ names id (key q)) ->
  forall q, In q l -> id_is (parseInt id) (key q) = false.
Proof.
  intros H q Hq. apply id_is_false. now apply H.
Qed.

(** *** What [res.json] sends of an object literal *)

Lemma lookup_missing (k : string) (fields : list (string * value)) :
  ~ In k (map fst fields) -> lookup k fields = VUndefined.
Proof.
  induction fields as [|[k' v] fields IH]; simpl; [reflexivity|].
  intros H. destruct (String.eqb_spec k k') as [->|_]; [tauto|]. apply IH. tauto.
Qed.

(** Reading a key of the object sent is reading it in the literal, when
    the literal names each key once. *)
Lemma get_obj (k : string) (fields : list (string * value)) :
  NoDup (map fst fields) -> get k (obj fields) = lookup k fields.
Proof.
  unfold obj, get. induction fields as [|[k' v] fields IH]; simpl; [reflexivity|].
  intros H. inversion_clear H as [|? ? Hk Hnd].
  destruct (is_undefined v) eqn:Ev; simpl.
  - rewrite (IH Hnd). destruct (String.eqb_spec k k') as [->|_]; [|reflexivity].
    rewrite (lookup_missing _ _ Hk). now destruct v.
  - now rewrite (IH Hnd).
Qed.

Lemma has_key_obj (k : string) (v : value) (fields : list (string * value)) :
  In (k, v) fields -> is_undefined v = false -> has_key k (obj fields) = true.
Proof.
  intros Hin Hv. unfold obj, has_key. apply existsb_exists.
  exists (k, v). split; [|apply String.eqb_refl].
  apply filter_In. split; [assumption|]. simpl. now rewrite Hv.
Qed.

Lemma post_keys (p : Post.t) :
  NoDup (map fst [("id"%string, VNum (Post.id p));
                  ("author"%string, Post.author p);
                  ("content"%string, Post.content p);
                  ("image"%string, Post.image p);
                  ("timestamp"%string, VStr (Post.timestamp p));
                  ("replies"%string, json_of_replies (Post.replies p))]).
Proof.
  simpl. repeat constructor; simpl; intuition discriminate.
Qed.

(** The post the handler builds. *)
Lemma create_post_run (t : clock) (b : PostBody.t) (s : store) :
  truthy (PostBody.content b) = true -> online s = true ->
  create_post t b s
  = (let post :=
       Post.mk (now t) (js_or (PostBody.author b) (VStr (js "Anonymous")))
         (PostBody.content b) (js_or (PostBody.image b) VNull) (iso t) (Some []) in
     (respond 201 (json_of_post post),
      mkStore (online s) (users s) (posts s ++ [post]) (patches s)
        (calls s ++ [InsertOne Posts]))).
Proof.
  intros H Ho. unfold create_post. rewrite H. run_driver. now rewrite Ho.
Qed.

(** C6. A request to create a post whose content is falsy (absent and
    empty are) is answered 400 and the store is left as it was, with no
    call made; a request with content is answered 201 with the post
    created, which is appended to the collection: its replies are the empty
    sequence, its author is "Anonymous" when none is given, its id is the
    reading of the clock in milliseconds. *)
Theorem C6_create_post (t : clock) (b : PostBody.t) (s : store) :
  truthy VUndefined = false /\ truthy (VStr []) = false
  /\ (truthy (PostBody.content b) = false ->
      create_post t b s = (respond 400 (error "Post content is required"), s))
  /\ (truthy (PostBody.content b) = true -> online s = true ->
      let post :=
        Post.mk (now t) (js_or (PostBody.author b) (VStr (js "Anonymous")))
          (PostBody.content b) (js_or (PostBody.image b) VNull) (iso t) (Some []) in
      create_post t b s
      = (respond 201 (json_of_post post),
         mkStore (online s) (users s) (posts s ++ [post]) (patches s)
           (calls s ++ [InsertOne Posts]))
      /\ get "replies" (json_of_post post) = VArr []
      /\ get "id" (json_of_post post) = VNum (now t)
      /\ get "content" (json_of_post post) = PostBody.content b
      /\ (truthy (PostBody.author b) = false ->
          get "author" (json_of_post post) = VStr (js "Anonymous"))
      /\ (truthy (PostBody.author b) = true ->
          get "author" (json_of_post post) = PostBody.author b)).
Proof.
  split; [reflexivity|]. split; [reflexivity|]. split.
  - intros H. unfold create_post. now rewrite H.
  - intros H Ho post. split; [apply (create_post_run t b s H Ho)|].
    unfold json_of_post. rewrite !get_obj by apply post_keys.
    subst post. cbn [Post.replies Post.id Post.content Post.author lookup String.eqb
                     Ascii.eqb Bool.eqb json_of_replies map].
    repeat split.
    + intros Ha. unfold js_or. now rewrite Ha.
    + intros Ha. unfold js_or. now rewrite Ha.
Qed.

(** Witness of C6: a post with content "hello" and no author, into the
    empty store. *)
Lemma C6_create_post_witness :
  create_post (mkClock 1700000000000 (js "2023-11-14T22:13:20.000Z"))
    (PostBody.mk VUndefined (VStr (js "hello")) VUndefined) empty_store
  = (respond 201
       (VObj [("id"%string, VNum 1700000000000);
              ("author"%string, VStr (js "Anonymous"));
              ("content"%string, VStr (js "hello"));
              ("image"%string, VNull);
              ("timestamp"%string, VStr (js "2023-11-14T22:13:20.000Z"));
              ("replies"%string, VArr [])]),
     mkStore true []
       [Post.mk 1700000000000 (VStr (js "Anonymous")) (VStr (js "hello")) VNull
          (js "2023-11-14T22:13:20.000Z") (Some [])]
       [] [InsertOne Posts]).
Proof.
  apply (C6_create_post (mkClock 1700000000000 (js "2023-11-14T22:13:20.000Z"))
           (PostBody.mk VUndefined (VStr (js "hello")) VUndefined) empty_store);
    reflexivity.
Defined.

(** C9. A post created from a request with no image, or a falsy one, is
    stored and sent with [image] equal to [null]: the key is there. *)
Theorem C9_image_null (t : clock) (b : PostBody.t) (s : store) :
  truthy (PostBody.content b) = true ->
  truthy (PostBody.image b) = false ->
  online s = true ->
  let post :=
    Post.mk (now t) (js_or (PostBody.author b) (VStr (js "Anonymous")))
      (PostBody.content b) VNull (iso t) (Some []) in
  create_post t b s
  = (respond 201 (json_of_post post),
     mkStore (online s) (users s) (posts s ++ [post]) (patches s)
       (calls s ++ [InsertOne Posts]))
  /\ Post.image post = VNull
  /\ get "image" (json_of_post post) = VNull
  /\ has_key "image" (json_of_post post) = true.
Proof.
  intros Hc Hi Ho post. split; [|split; [reflexivity|split]].
  - rewrite (create_post_run t b s Hc Ho).
    replace (js_or (PostBody.image b) VNull) with VNull
      by (unfold js_or; now rewrite Hi).
    reflexivity.
  - unfold json_of_post. now rewrite get_obj by apply post_keys.
  - unfold json_of_post. apply has_key_obj with (v := VNull); [|reflexivity].
    simpl. auto.
Qed.

(** Witness of C9: the image given is the empty string. *)
Lemma C9_image_null_witness :
  get "image"
    (body (fst (create_post (mkClock 1700000000000 (js "2023-11-14T22:13:20.000Z"))
                  (PostBody.mk (VStr (js "kay")) (VStr (js "hello")) (VStr [])) empty_store)))
  = VNull.
Proof.
  pose proof (C9_image_null (mkClock 1700000000000 (js "2023-11-14T22:13:20.000Z"))
                (PostBody.mk (VStr (js "kay")) (VStr (js "hello")) (VStr [])) empty_store
                eq_refl eq_refl eq_refl) as (E & _ & G & _).
  rewrite E. exact G.
Defined.

(** The first deletion of an identifier removes the first post that
    carries it. *)
Lemma delete_post_first (id : jsstring) (b : AdminBody.t) (s : store)
      (l1 l2 : list Post.t) (p : Post.t) :
  truthy (AdminBody.isAdmin b) = true -> online s = true ->
  posts s = l1 ++ p :: l2 -> names id (Post.id p) ->
  Forall (fun q => ~ names id (Post.id q)) l1 ->
  delete_post id b s
  = (respond 200 (message "Post deleted"),
     mkStore (online s) (users s) (l1 ++ l2) (patches s) (calls s ++ [DeleteOne Posts])).
Proof.
  intros Ha Ho E Hp Hl1. unfold delete_post. rewrite Ha.
  run_driver. rewrite Ho, E. cbn.
  rewrite remove_first_at; [reflexivity|now apply names_first|now apply id_is_true].
Qed.

Lemma delete_post_none (id : jsstring) (b : AdminBody.t) (s : store) :
  truthy (AdminBody.isAdmin b) = true -> online s = true ->
  (forall q, In q (posts s) -> ~ names id (Post.id q)) ->
  delete_post id b s
  = (respond 404 (error "Post not found"), after_calls s [DeleteOne Posts]).
Proof.
  intros Ha Ho H. unfold delete_post. rewrite Ha.
  run_driver. rewrite Ho. cbn.
  rewrite remove_first_nowhere; [reflexivity|].
  now apply names_nowhere with (key := Post.id).
Qed.

(** The uniqueness of the identifiers, which the data model assumes, is
    what makes a second deletion find nothing: of two posts created within
    one millisecond, which carry the same identifier, each deletion removes
    one. *)
Lemma delete_post_shared_identifier :
  let t := mkClock 1700000000000 (js "2023-11-14T22:13:20.000Z") in
  let hello := PostBody.mk VUndefined (VStr (js "hello")) VUndefined in
  let admin := AdminBody.mk (VBool true) in
  let id := js "1700000000000" in
  let s0 := snd (create_post t hello (snd (create_post t hello empty_store))) in
  let s1 := snd (delete_post id admin s0) in
  map Post.id (posts s0) = [1700000000000; 1700000000000]
  /\ fst (delete_post id admin s0) = respond 200 (message "Post deleted")
  /\ fst (delete_post id admin s1) = respond 200 (message "Post deleted")
  /\ status (fst (delete_post id admin s1)) <> 404.
Proof.
  split; [reflexivity|]. split; [reflexivity|]. split; [reflexivity|].
  discriminate.
Qed.

(** C7. Without a truthy [isAdmin] the deletion is answered 403 and the
    store is left as it was, with no call made.  With a truthy [isAdmin]
    the post that carries the identifier is removed and the answer is 200,
    or the answer is 404 when no post carries it; the identifiers of the
    stored posts being unique, as the data model has them, a second
    deletion of the same identifier is answered 404. *)
Theorem C7_delete_post (id : jsstring) (b : AdminBody.t) (s : store) :
  (truthy (AdminBody.isAdmin b) = false ->
   delete_post id b s
   = (respond 403 (error "Only administrators can delete posts"), s))
  /\ (truthy (AdminBody.isAdmin b) = true -> online s = true ->
      (forall l1 p l2,
          posts s = l1 ++ p :: l2 -> names id (Post.id p) ->
          Forall (fun q => ~ names id (Post.id q)) l1 ->
          delete_post id b s
          = (respond 200 (message "Post deleted"),
             mkStore (online s) (users s) (l1 ++ l2) (patches s)
               (calls s ++ [DeleteOne Posts])))
      /\ ((forall q, In q (posts s) -> ~ names id (Post.id q)) ->
          delete_post id b s
          = (respond 404 (error "Post not found"), after_calls s [DeleteOne Posts]))
      /\ (NoDup (map Post.id (posts s)) ->
          fst (delete_post id b (snd (delete_post id b s)))
          = respond 404 (error "Post not found"))).
Proof.
  split.
  - intros Ha. unfold delete_post. now rewrite Ha.
  - intros Ha Ho. split; [|split].
    + intros l1 p l2. now apply delete_post_first.
    + now apply delete_post_none.
    + intros Hnd.
      destruct (post_lookup id s) as [(l1 & p & l2 & E & Hp & Hl1)|Hnone].
      * rewrite (delete_post_first id b s l1 l2 p Ha Ho E Hp Hl1).
        rewrite delete_post_none; [reflexivity|assumption|assumption|].
        cbn [snd posts]. intros q Hq Hn.
        rewrite E, map_app in Hnd. cbn [map] in Hnd.
        apply NoDup_remove_2 in Hnd. apply Hnd.
        unfold names in *. assert (Post.id q = Post.id p) as <- by congruence.
        rewrite <- map_app. now apply in_map.
      * rewrite (delete_post_none id b s Ha Ho Hnone).
        rewrite delete_post_none; [reflexivity|assumption|assumption|exact Hnone].
Qed.

(** Witness of C7: one post, deleted twice by an administrator. *)
Lemma C7_delete_post_witness :
  let p := Post.mk 42 (VStr (js "kay")) (VStr (js "hello")) VNull (js "t") (Some []) in
  let s := mkStore true [] [p] [] [] in
  let admin := AdminBody.mk (VBool true) in
  delete_post (js "42") admin s
  = (respond 200 (message "Post deleted"), mkStore true [] [] [] [DeleteOne Posts])
  /\ fst (delete_post (js "42") admin (snd (delete_post (js "42") admin s)))
     = respond 404 (error "Post not found").
Proof.
  intros p s admin.
  destruct (C7_delete_post (js "42") admin s) as (_ & H).
  destruct (H eq_refl eq_refl) as (H1 & _ & H3). split.
  - apply (H1 [] p []); [reflexivity|reflexivity|constructor].
  - apply H3. simpl. repeat constructor. simpl. tauto.
Defined.

Lemma delete_reply_no_post (postId replyId : jsstring) (b : AdminBody.t) (s : store) :
  truthy (AdminBody.isAdmin b) = true -> online s = true ->
  (forall q, In q (posts s) -> ~ names postId (Post.id q)) ->
  delete_reply postId replyId b s
  = (respond 404 (error "Post not found"), after_calls s [UpdateOne Posts]).
Proof.
  intros Ha Ho H. unfold delete_reply. rewrite Ha.
  run_driver. rewrite Ho. cbn.
  rewrite update_first_nowhere; [reflexivity|].
  now apply names_nowhere with (key := Post.id).
Qed.

Lemma delete_reply_post (postId replyId : jsstring) (b : AdminBody.t) (s : store)
      (l1 l2 : list Post.t) (p : Post.t) :
  truthy (AdminBody.isAdmin b) = true -> online s = true ->
  posts s = l1 ++ p :: l2 -> names postId (Post.id p) ->
  Forall (fun q => ~ names postId (Post.id q)) l1 ->
  delete_reply postId replyId b s
  = (respond 200 (message "Reply deleted"),
     mkStore (online s) (users s) (l1 ++ pull_reply (parseInt replyId) p :: l2)
       (patches s) (calls s ++ [UpdateOne Posts])).
Proof.
  intros Ha Ho E Hp Hl1. unfold delete_reply. rewrite Ha.
  run_driver. rewrite Ho, E. cbn.
  rewrite update_first_at; [reflexivity|now apply names_first|now apply id_is_true].
Qed.

(** C5. For a deletion of a reply asked by an administrator: when no post
    carries the post identifier the answer is 404; when a post carries it
    and none of its replies carries the reply identifier, the answer is 200
    "Reply deleted" and no document changes; and the answer is 404 exactly
    when no post carries the post identifier, whatever the reply
    identifier. *)
Theorem C5_delete_reply (postId replyId : jsstring) (b : AdminBody.t) (s : store) :
  truthy (AdminBody.isAdmin b) = true -> online s = true ->
  ((forall q, In q (posts s) -> ~ names postId (Post.id q)) ->
   delete_reply postId replyId b s
   = (respond 404 (error "Post not found"), after_calls s [UpdateOne Posts]))
  /\ (forall l1 p l2,
         posts s = l1 ++ p :: l2 -> names postId (Post.id p) ->
         Forall (fun q => ~ names postId (Post.id q)) l1 ->
         (forall rs r, Post.replies p = Some rs -> In r rs -> ~ names replyId (Reply.id r)) ->
         delete_reply postId replyId b s
         = (respond 200 (message "Reply deleted"), after_calls s [UpdateOne Posts]))
  /\ (status (fst (delete_reply postId replyId b s)) = 404
      <-> forall q, In q (posts s) -> ~ names postId (Post.id q)).
Proof.
  intros Ha Ho. split; [|split].
  - now apply delete_reply_no_post.
  - intros l1 p l2 E Hp Hl1 Hr.
    rewrite (delete_reply_post postId replyId b s l1 l2 p Ha Ho E Hp Hl1).
    rewrite pull_reply_absent by exact Hr.
    unfold after_calls. now rewrite E.
  - destruct (post_lookup postId s) as [(l1 & p & l2 & E & Hp & Hl1)|Hnone].
    + rewrite (delete_reply_post postId replyId b s l1 l2 p Ha Ho E Hp Hl1). cbn.
      split; [discriminate|]. intros H. exfalso. apply (H p); [|assumption].
      rewrite E. apply in_elt.
    + rewrite (delete_reply_no_post postId replyId b s Ha Ho Hnone). cbn. tauto.
Qed.

(** Witness of C5: a post with one reply, asked to drop a reply it does not
    hold. *)
Lemma C5_delete_reply_witness :
  let r := Reply.mk 7 (VStr (js "kay")) (VStr (js "first")) (js "t") in
  let p := Post.mk 42 (VStr (js "kay")) (VStr (js "hello")) VNull (js "t") (Some [r]) in
  let s := mkStore true [] [p] [] [] in
  let admin := AdminBody.mk (VBool true) in
  delete_reply (js "42") (js "8") admin s
  = (respond 200 (message "Reply deleted"), mkStore true [] [p] [] [UpdateOne Posts])
  /\ delete_reply (js "43") (js "7") admin s
     = (respond 404 (error "Post not found"), mkStore true [] [p] [] [UpdateOne Posts]).
Proof.
  intros r p s admin. split.
  - apply (C5_delete_reply (js "42") (js "8") admin s eq_refl eq_refl)
      with (l1 := []) (p := p) (l2 := []).
    + reflexivity.
    + reflexivity.
    + constructor.
    + intros rs r' [= <-] [<-|[]]. discriminate.
  - apply (C5_delete_reply (js "43") (js "7") admin s eq_refl eq_refl).
    intros q [<-|[]]. discriminate.
Defined.

(** ** Patch notes *)

(** The patch after an update: a field of the body replaces the stored one
    when it is truthy. *)
Lemma set_fields_body (b : PatchBody.t) (p : Patch.t) :
  set_fields
    (mkFields (if truthy (PatchBody.version b) then Some (PatchBody.version b) else None)
              (if truthy (PatchBody.date b) then Some (PatchBody.date b) else None)
              (if truthy (PatchBody.text b) then Some (PatchBody.text b) else None)) p
  = Patch.mk (Patch.id p)
      (if truthy (PatchBody.version b) then PatchBody.version b else Patch.version p)
      (if truthy (PatchBody.date b) then PatchBody.date b else Patch.date p)
      (if truthy (PatchBody.text b) then PatchBody.text b else Patch.text p).
Proof.
  unfold set_fields. cbn.
  destruct (truthy (PatchBody.version b)), (truthy (PatchBody.date b)),
    (truthy (PatchBody.text b)); reflexivity.
Qed.

Lemma update_patch_first (id : jsstring) (b : PatchBody.t) (s : store)
      (l1 l2 : list Patch.t) (p : Patch.t) :
  truthy (PatchBody.isAdmin b) = true -> online s = true ->
  patches s = l1 ++ p :: l2 -> names id (Patch.id p) ->
  Forall (fun q => ~ names id (Patch.id q)) l1 ->
  let p' :=
    Patch.mk (Patch.id p)
      (if truthy (PatchBody.version b) then PatchBody.version b else Patch.version p)
      (if truthy (PatchBody.date b) then PatchBody.date b else Patch.date p)
      (if truthy (PatchBody.text b) then PatchBody.text b else Patch.text p) in
  update_patch id b s
  = (respond 200 (json_of_patch p'),
     mkStore (online s) (users s) (posts s) (l1 ++ p' :: l2)
       (calls s ++ [FindOneAndUpdate Patches])).
Proof.
  intros Ha Ho E Hp Hl1 p'. unfold update_patch. rewrite Ha.
  run_driver. rewrite Ho, E. cbn.
  rewrite update_first_at, find_at;
    try (now apply names_first); try (now apply id_is_true).
  cbn. now rewrite set_fields_body.
Qed.

Lemma update_patch_none (id : jsstring) (b : PatchBody.t) (s : store) :
  truthy (PatchBody.isAdmin b) = true -> online s = true ->
  (forall q, In q (patches s) -> ~ names id (Patch.id q)) ->
  update_patch id b s
  = (respond 404 (error "Patch not found"), after_calls s [FindOneAndUpdate Patches]).
Proof.
  intros Ha Ho H. unfold update_patch. rewrite Ha.
  run_driver. rewrite Ho. cbn.
  rewrite update_first_nowhere; [reflexivity|].
  now apply names_nowhere with (key := Patch.id).
Qed.

(** C4. An update of a patch asked by an administrator, for an identifier
    a stored patch carries, replaces in the first such patch the fields
    among version, date and text that the body gives with a truthy value,
    leaves its other fields and every other document as they were, and
    answers 200 with the patch after the update; when no patch carries the
    identifier the answer is 404.  A patch [{version: "1.0", date: "d",
    text: "t"}] updated with [{version: "2.0", isAdmin: true}] becomes
    [{version: "2.0", date: "d", text: "t"}]. *)
Theorem C4_update_patch (id : jsstring) (b : PatchBody.t) (s : store) :
  online s = true ->
  (truthy (PatchBody.isAdmin b) = true ->
   (forall l1 p l2,
       patches s = l1 ++ p :: l2 -> names id (Patch.id p) ->
       Forall (fun q => ~ names id (Patch.id q)) l1 ->
       let p' :=
         Patch.mk (Patch.id p)
           (if truthy (PatchBody.version b) then PatchBody.version b else Patch.version p)
           (if truthy (PatchBody.date b) then PatchBody.date b else Patch.date p)
           (if truthy (PatchBody.text b) then PatchBody.text b else Patch.text p) in
       update_patch id b s
       = (respond 200 (json_of_patch p'),
          mkStore (online s) (users s) (posts s) (l1 ++ p' :: l2)
            (calls s ++ [FindOneAndUpdate Patches])))
   /\ ((forall q, In q (patches s) -> ~ names id (Patch.id q)) ->
       update_patch id b s
       = (respond 404 (error "Patch not found"),
          after_calls s [FindOneAndUpdate Patches])))
  /\ (forall k, names id k ->
      update_patch id version_only
        (mkStore (online s) (users s) (posts s) [patch_1_0 k] (calls s))
      = (respond 200 (json_of_patch (patch_2_0 k)),
         mkStore (online s) (users s) (posts s) [patch_2_0 k]
           (calls s ++ [FindOneAndUpdate Patches]))).
Proof.
  intros Ho. split.
  - intros Ha. split.
    + intros l1 p l2. now apply update_patch_first.
    + now apply update_patch_none.
  - intros k Hk.
    apply (update_patch_first id version_only
             (mkStore (online s) (users s) (posts s) [patch_1_0 k] (calls s))
             [] [] (patch_1_0 k));
      [reflexivity|exact Ho|reflexivity|exact Hk|constructor].
Qed.

(** Witness of C4: the second of two patches is given a new text. *)
Lemma C4_update_patch_witness :
  let s := mkStore true [] [] [seed_patch; patch_1_0 5] [] in
  let b := PatchBody.mk VUndefined (VStr []) (VStr (js "fixed")) (VNum 1) in
  let p' := Patch.mk 5 (VStr (js "1.0")) (VStr (js "d")) (VStr (js "fixed")) in
  update_patch (js "5") b s
  = (respond 200 (json_of_patch p'),
     mkStore true [] [] [seed_patch; p'] [FindOneAndUpdate Patches])
  /\ update_patch (js "6") b s
     = (respond 404 (error "Patch not found"),
        mkStore true [] [] [seed_patch; patch_1_0 5] [FindOneAndUpdate Patches])
  /\ update_patch (js "5") version_only (mkStore true [] [] [patch_1_0 5] [])
     = (respond 200 (json_of_patch (patch_2_0 5)),
        mkStore true [] [] [patch_2_0 5] [FindOneAndUpdate Patches]).
Proof.
  intros s b p'.
  destruct (C4_update_patch (js "5") b s eq_refl) as (H & H5).
  destruct (H eq_refl) as (H1 & _).
  destruct (C4_update_patch (js "6") b s eq_refl) as (H' & _).
  destruct (H' eq_refl) as (_ & H2).
  split; [|split].
  - apply (H1 [seed_patch] (patch_1_0 5) []).
    + reflexivity.
    + reflexivity.
    + repeat constructor. discriminate.
  - apply H2. intros q [<-|[<-|[]]]; discriminate.
  - apply (H5 5). reflexivity.
Defined.

(** C10. An update of a patch asked by an administrator in which none of
    version, date and text is truthy is answered 200 with the matched
    patch as it was stored, and leaves every document as it was. *)
Theorem C10_empty_update (id : jsstring) (b : PatchBody.t) (s : store)
        (l1 l2 : list Patch.t) (p : Patch.t) :
  truthy (PatchBody.isAdmin b) = true ->
  truthy (PatchBody.version b) = false ->
  truthy (PatchBody.date b) = false ->
  truthy (PatchBody.text b) = false ->
  online s = true ->
  patches s = l1 ++ p :: l2 -> names id (Patch.id p) ->
  Forall (fun q => ~ names id (Patch.id q)) l1 ->
  update_patch id b s
  = (respond 200 (json_of_patch p), after_calls s [FindOneAndUpdate Patches]).
Proof.
  intros Ha Hv Hd Ht Ho E Hp Hl1.
  rewrite (update_patch_first id b s l1 l2 p Ha Ho E Hp Hl1).
  rewrite Hv, Hd, Ht. unfold after_calls. rewrite E. now destruct p.
Qed.

(** Witness of C10: an administrator sends nothing but the flag. *)
Lemma C10_empty_update_witness :
  update_patch (js "1") (PatchBody.mk VUndefined VUndefined VUndefined (VBool true))
    (mkStore true [] [] [seed_patch] [])
  = (respond 200 (json_of_patch seed_patch),
     mkStore true [] [] [seed_patch] [FindOneAndUpdate Patches]).
Proof.
  apply (C10_empty_update (js "1")
           (PatchBody.mk VUndefined VUndefined VUndefined (VBool true))
           (mkStore true [] [] [seed_patch] []) [] [] seed_patch);
    try reflexivity.
  constructor.
Defined.

(** ** Start-up *)

Local Ltac split_cases :=
  repeat (match goal with
          | |- context [online ?s] => destruct (online s)
          | |- context [remove_first ?f ?l] => destruct (remove_first f l)
          | |- context [update_first ?f ?g ?l] => destruct (update_first f g l)
          | |- context [List.find ?f ?l] => destruct (List.find f l)
          | |- context [if ?c then _ else _] => destruct c
          end; cbn).

Local Ltac calls_only :=
  intros s; destruct s as [o us ps pa cs]; run_driver; split_cases;
  first [ exists []; split; [now rewrite app_nil_r | intros []]
        | eexists; split; [reflexivity | cbn; intuition discriminate]
        | eexists; split; [rewrite <- app_assoc; reflexivity | cbn; intuition discriminate] ].

Lemma handle_no_count (r : request) : no_count (handle r).
Proof.
  destruct r; cbn [handle].
  - calls_only.
  - unfold register. calls_only.
  - unfold login. calls_only.
  - unfold list_posts. calls_only.
  - unfold create_post. calls_only.
  - unfold delete_post. calls_only.
  - unfold add_reply. calls_only.
  - unfold delete_reply. calls_only.
  - unfold list_patches. calls_only.
  - unfold create_patch. calls_only.
  - unfold update_patch. calls_only.
  - unfold delete_patch. calls_only.
Qed.

Lemma serve_no_count (rs : list request) : no_count (serve rs).
Proof.
  induction rs as [|r rs IH]; intros s; cbn [serve].
  - exists []. split; [now rewrite app_nil_r | intros []].
  - destruct (handle_no_count r s) as (cs1 & E1 & N1).
    destruct (handle r s) as [a s1]. cbn [snd] in E1.
    destruct (IH s1) as (cs2 & E2 & N2).
    destruct (serve rs s1) as [answers s2]. cbn [snd] in *.
    exists (cs1 ++ cs2). split.
    + now rewrite E2, E1, app_assoc.
    + intros H. apply in_app_or in H. tauto.
Qed.

Lemma handle_keeps_empty (r : request) (s : store) :
  creates_patch r = false -> patches s = [] -> patches (snd (handle r s)) = [].
Proof.
  intros Hr Hs. destruct s as [o us ps pa cs]. cbn in Hs. subst pa.
  destruct r; try discriminate; cbn [handle].
  - reflexivity.
  - unfold register. run_driver. split_cases; reflexivity.
  - unfold login. run_driver. split_cases; reflexivity.
  - unfold list_posts. run_driver. split_cases; reflexivity.
  - unfold create_post. run_driver. split_cases; reflexivity.
  - unfold delete_post. run_driver. split_cases; reflexivity.
  - unfold add_reply. run_driver. split_cases; reflexivity.
  - unfold delete_reply. run_driver. split_cases; reflexivity.
  - unfold list_patches. run_driver. split_cases; reflexivity.
  - unfold update_patch. run_driver. split_cases; reflexivity.
  - unfold delete_patch. run_driver. split_cases; reflexivity.
Qed.

Lemma serve_keeps_empty (rs : list request) (s : store) :
  forallb (fun r => negb (creates_patch r)) rs = true ->
  patches s = [] -> patches (snd (serve rs s)) = [].
Proof.
  revert s. induction rs as [|r rs IH]; intros s Hrs Hs; cbn [serve].
  - exact Hs.
  - cbn [forallb] in Hrs. apply andb_true_iff in Hrs as [Hr Hrs].
    apply negb_true_iff in Hr.
    pose proof (handle_keeps_empty r s Hr Hs) as H1.
    destruct (handle r s) as [a s1]. cbn [snd] in H1.
    specialize (IH s1 Hrs H1). destruct (serve rs s1) as [answers s2]. exact IH.
Qed.

(** C8. At start-up one seed patch, with identifier 1 and its fixed
    version, date and text, is inserted when the patches collection is
    empty, and nothing is inserted when it is not.  No request makes the
    server count the patches again: once the collection has been emptied
    it stays empty until a patch is created. *)
Theorem C8_seed_at_startup (s : store) :
  (online s = true -> patches s = [] ->
   connectDB s
   = (Ok tt, mkStore (online s) (users s) (posts s) [seed_patch]
               (calls s ++ [CountDocuments Patches; InsertOne Patches])))
  /\ (online s = true -> patches s <> [] ->
      connectDB s = (Ok tt, after_calls s [CountDocuments Patches]))
  /\ seed_patch
     = Patch.mk 1 (VStr (js "Patch 2.5.0")) (VStr (js "December 15, 2024"))
         (VStr (js "New Features" ++ [10] ++ js "- New Gun"))
  /\ (forall rs : list request, no_count (serve rs))
  /\ (forall rs : list request,
         forallb (fun r => negb (creates_patch r)) rs = true ->
         patches s = [] -> patches (snd (serve rs s)) = []).
Proof.
  split; [|split; [|split; [reflexivity|split]]].
  - intros Ho E. unfold connectDB. run_driver. rewrite Ho, E. cbn.
    now rewrite <- app_assoc.
  - intros Ho E. unfold connectDB. run_driver. rewrite Ho. cbn.
    destruct (patches s) as [|p l] eqn:Ep; [contradiction|].
    cbn [List.length]. rewrite Nat2Z.inj_succ.
    replace (Z.succ (Z.of_nat (List.length l)) =? 0) with false
      by (symmetry; apply Z.eqb_neq; lia).
    reflexivity.
  - apply serve_no_count.
  - intros rs. apply serve_keeps_empty.
Qed.

(** Witness of C8: start-up on an empty database and on one that holds a
    patch; requests on an empty collection. *)
Lemma C8_seed_at_startup_witness :
  connectDB empty_store
  = (Ok tt, mkStore true [] [] [seed_patch] [CountDocuments Patches; InsertOne Patches])
  /\ connectDB (mkStore true [] [] [patch_1_0 5] [])
     = (Ok tt, mkStore true [] [] [patch_1_0 5] [CountDocuments Patches])
  /\ patches (snd (serve [GetPatches; GetPosts] empty_store)) = [].
Proof.
  split; [|split].
  - apply (C8_seed_at_startup empty_store); reflexivity.
  - apply (C8_seed_at_startup (mkStore true [] [] [patch_1_0 5] []));
      [reflexivity|discriminate].
  - apply (C8_seed_at_startup empty_store); reflexivity.
Defined.

(* ================================================================== *)
(** * Further properties                                                *)
(* ================================================================== *)

(** ** The codec on every string *)

Section CodecFacts.
Import Buffer.

Lemma replacement_point (bs : list Z) :
  utf8_points Start (replacement ++ bs) = 65533 :: utf8_points Start bs.
Proof.
  change replacement with (utf8_3 65533).
  apply utf8_points_3; [lia|reflexivity|reflexivity].
Qed.

Lemma not_high_below (u : Z) : u < 2048 -> is_high u = false.
Proof.
  intros H. unfold is_high. apply andb_false_iff. left. apply Z.leb_gt. lia.
Qed.

Lemma not_low_below (u : Z) : u < 2048 -> is_low u = false.
Proof.
  intros H. unfold is_low. apply andb_false_iff. left. apply Z.leb_gt. lia.
Qed.

Lemma utf8_read_write (s : jsstring) :
  Forall code_unit s -> utf8_read (utf8_write s) = sanitize s.
Proof.
  unfold utf8_read.
  induction s as [|u|u v l IHv IHl] using list_ind2; intros Hs.
  - reflexivity.
  - inversion_clear Hs as [|? ? Hu _]. unfold code_unit in Hu.
    cbn [utf8_write sanitize].
    destruct (u <? 128) eqn:E1; props.
    { rewrite (not_high_below u), (not_low_below u) by lia.
      rewrite utf8_points_1 by lia. cbn [flat_map utf8_points app].
      now rewrite utf16_units_bmp by lia. }
    destruct (u <? 2048) eqn:E2; props.
    { rewrite (not_high_below u), (not_low_below u) by lia.
      rewrite utf8_points_2 by lia. cbn [flat_map utf8_points app].
      now rewrite utf16_units_bmp by lia. }
    destruct (is_high u) eqn:Eh.
    { rewrite <- (app_nil_r replacement), replacement_point. reflexivity. }
    destruct (is_low u) eqn:El.
    { rewrite replacement_point. reflexivity. }
    rewrite utf8_points_3 by (auto; lia). cbn [flat_map utf8_points app].
    now rewrite utf16_units_bmp by lia.
  - inversion Hs as [|? ? Hu Hs']. subst. unfold code_unit in Hu.
    inversion Hs' as [|? ? Hv Hl]. subst.
    specialize (IHv Hs'). specialize (IHl Hl).
    cbn [utf8_write sanitize]. cbn [utf8_write sanitize] in IHv.
    destruct (u <? 128) eqn:E1; props.
    { rewrite (not_high_below u), (not_low_below u) by lia.
      rewrite utf8_points_1 by lia. cbn [flat_map].
      rewrite utf16_units_bmp by lia. cbn [app]. f_equal. exact IHv. }
    destruct (u <? 2048) eqn:E2; props.
    { rewrite (not_high_below u), (not_low_below u) by lia.
      rewrite utf8_points_2 by lia. cbn [flat_map].
      rewrite utf16_units_bmp by lia. cbn [app]. f_equal. exact IHv. }
    destruct (is_high u) eqn:Eh.
    + destruct (is_low v) eqn:Elv.
      * rewrite utf8_points_4 by now apply pair_point_range.
        cbn [flat_map]. rewrite utf16_units_pair by assumption.
        cbn [app]. do 2 f_equal. exact IHl.
      * rewrite replacement_point. cbn [flat_map].
        change (utf16_units 65533) with [65533]. cbn [app]. f_equal. exact IHv.
    + destruct (is_low u) eqn:El.
      * rewrite replacement_point. cbn [flat_map].
        change (utf16_units 65533) with [65533]. cbn [app]. f_equal. exact IHv.
      * rewrite utf8_points_3 by (auto; lia). cbn [flat_map].
        rewrite utf16_units_bmp by lia. cbn [app]. f_equal. exact IHv.
Qed.

Lemma codec_sanitize (s : jsstring) :
  Forall code_unit s -> decodePassword (encodePassword s) = sanitize s.
Proof.
  intros Hs. unfold decodePassword, encodePassword.
  rewrite base64_roundtrip by now apply utf8_write_bytes.
  now apply utf8_read_write.
Qed.

Lemma sanitize_paired (s : jsstring) : paired s = true -> sanitize s = s.
Proof.
  induction s as [|u|u v l IHv IHl] using list_ind2; intros Hp.
  - reflexivity.
  - cbn [paired sanitize] in *. destruct (is_high u); [discriminate|].
    destruct (is_low u); [discriminate|reflexivity].
  - cbn [paired sanitize] in Hp |- *. destruct (is_high u).
    + apply andb_true_iff in Hp as [Hv Hl]. rewrite Hv. now rewrite (IHl Hl).
    + destruct (is_low u); [discriminate|]. cbn [negb andb] in Hp.
      f_equal. now apply IHv.
Qed.

(** A surrogate is not U+FFFD. *)
Lemma surrogate_not_replacement (u : Z) :
  is_high u = true \/ is_low u = true -> u <> 65533.
Proof.
  unfold is_high, is_low. intros [H|H]; props; lia.
Qed.

Lemma sanitize_fixed (s : jsstring) : sanitize s = s -> paired s = true.
Proof.
  induction s as [|u|u v l IHv IHl] using list_ind2; intros E.
  - reflexivity.
  - cbn [paired sanitize] in *. destruct (is_high u) eqn:Eh.
    + injection E as E. symmetry in E. now apply surrogate_not_replacement in E; auto.
    + destruct (is_low u) eqn:El; [|reflexivity].
      injection E as E. symmetry in E. now apply surrogate_not_replacement in E; auto.
  - cbn [paired sanitize] in E |- *. destruct (is_high u) eqn:Eh.
    + destruct (is_low v) eqn:Elv.
      * injection E as E. cbn [andb]. now apply IHl.
      * injection E as E _. symmetry in E.
        now apply surrogate_not_replacement in E; auto.
    + destruct (is_low u) eqn:El.
      * injection E as E _. symmetry in E.
        now apply surrogate_not_replacement in E; auto.
      * injection E as E. cbn [negb andb]. now apply IHv.
Qed.

(** An unpaired surrogate leaves a U+FFFD behind. *)
Lemma sanitize_unpaired (s : jsstring) : paired s = false -> In 65533 (sanitize s).
Proof.
  induction s as [|u|u v l IHv IHl] using list_ind2; intros Hp.
  - discriminate.
  - cbn [paired sanitize] in *. destruct (is_high u); [now left|].
    destruct (is_low u); [now left|discriminate].
  - cbn [paired sanitize] in Hp |- *. destruct (is_high u).
    + destruct (is_low v); cbn [andb] in Hp; [|now left].
      right. right. now apply IHl.
    + destruct (is_low u); [now left|]. cbn [negb andb] in Hp.
      right. now apply IHv.
Qed.

(** Only the password "access" has the administrator's encoding. *)
Lemma admin_encoding_only (p : jsstring) :
  Forall code_unit p -> encodePassword p = User.password ADMIN -> p = js "access".
Proof.
  intros Hp E.
  assert (Hs : sanitize p = js "access").
  { rewrite <- (codec_sanitize p Hp), E. reflexivity. }
  destruct (paired p) eqn:Ep.
  - now rewrite <- (sanitize_paired p Ep).
  - apply sanitize_unpaired in Ep. rewrite Hs in Ep. exfalso.
    cbn in Ep. intuition discriminate.
Qed.

Lemma encode_injective (a b : jsstring) :
  Forall code_unit a -> paired a = true ->
  Forall code_unit b -> paired b = true ->
  encodePassword a = encodePassword b -> a = b.
Proof.
  intros Ha Pa Hb Pb E.
  rewrite <- (codec_roundtrip a Ha Pa), <- (codec_roundtrip b Hb Pb). now rewrite E.
Qed.

Lemma b64_char_symbol (n : Z) : 0 <= n < 64 -> base64_symbol (b64_char n).
Proof.
  intros Hn. unfold base64_symbol, b64_char.
  repeat match goal with
         | |- context [if ?c then _ else _] => destruct c eqn:?; props
         end; lia.
Qed.

Lemma base64_write_shape (bs : list Z) :
  Forall byte bs ->
  Forall base64_symbol (base64_write bs)
  /\ str_length (base64_write bs) = 4 * ((Z.of_nat (List.length bs) + 2) / 3).
Proof.
  assert (Hpad : base64_symbol 61) by (unfold base64_symbol; lia).
  unfold str_length.
  induction bs as [|a|a b|a b c l IH] using list_ind3; intros Hbs.
  - split; [constructor|reflexivity].
  - inversion_clear Hbs as [|? ? Ha _]. unfold byte in Ha. split; [|reflexivity].
    cbn [base64_write].
    repeat (apply Forall_cons; [first [exact Hpad | apply b64_char_symbol; euclid]|]).
    apply Forall_nil.
  - inversion_clear Hbs as [|? ? Ha Hbs']. inversion_clear Hbs' as [|? ? Hb _].
    unfold byte in *. split; [|reflexivity].
    cbn [base64_write].
    repeat (apply Forall_cons; [first [exact Hpad | apply b64_char_symbol; euclid]|]).
    apply Forall_nil.
  - inversion_clear Hbs as [|? ? Ha Hbs']. inversion_clear Hbs' as [|? ? Hb Hbs].
    inversion_clear Hbs as [|? ? Hc Hl]. unfold byte in *.
    destruct (IH Hl) as [IH1 IH2]. split.
    + cbn [base64_write app].
      repeat (apply Forall_cons; [apply b64_char_symbol; euclid|]). exact IH1.
    + cbn [base64_write app List.length]. rewrite !Nat2Z.inj_succ.
      rewrite IH2. euclid.
Qed.

End CodecFacts.

Lemma utf8_write_length (s : jsstring) :
  Forall code_unit s ->
  Z.of_nat (List.length (Buffer.utf8_write s)) <= 3 * Z.of_nat (List.length s).
Proof.
  induction s as [|u|u v l IHv IHl] using list_ind2; intros Hs.
  - cbn. lia.
  - cbn [Buffer.utf8_write].
    repeat match goal with
           | |- context [if ?c then _ else _] => destruct c
           end; cbn; lia.
  - inversion_clear Hs as [|? ? _ Hs']. inversion Hs' as [|? ? _ Hl]. subst.
    specialize (IHv Hs'). specialize (IHl Hl).
    cbn [Buffer.utf8_write]. cbn [Buffer.utf8_write] in IHv.
    cbn [List.length] in *. rewrite !Nat2Z.inj_succ in *.
    repeat match goal with
           | |- context [if ?c then _ else _] => destruct c
           end;
      rewrite ?length_app in *; cbn [List.length Buffer.utf8_1 Buffer.utf8_2 Buffer.utf8_3
                                     Buffer.utf8_4 Buffer.replacement] in *; lia.
Qed.

(** X1. For every string, decoding the encoded string gives the string
    with U+FFFD in the place of each surrogate that stands alone; it gives
    the string itself exactly when no surrogate stands alone. *)
Theorem X1_decode_encode_sanitizes (s : jsstring) :
  Forall code_unit s ->
  decodePassword (encodePassword s) = sanitize s
  /\ (decodePassword (encodePassword s) = s <-> paired s = true).
Proof.
  intros Hs. rewrite (codec_sanitize s Hs). split; [reflexivity|].
  split; [apply sanitize_fixed | apply sanitize_paired].
Qed.

Lemma X1_decode_encode_sanitizes_witness :
  decodePassword (encodePassword [104; 55296; 105]) = [104; 65533; 105].
Proof.
  apply (X1_decode_encode_sanitizes [104; 55296; 105]).
  repeat constructor; unfold code_unit; lia.
Defined.

(** X2. Two different strings in which no surrogate stands alone have
    different encodings. *)
Theorem X2_encode_injective (a b : jsstring) :
  Forall code_unit a -> paired a = true ->
  Forall code_unit b -> paired b = true ->
  a <> b -> encodePassword a <> encodePassword b.
Proof.
  intros Ha Pa Hb Pb Hne E. apply Hne. now apply encode_injective.
Qed.

Lemma X2_encode_injective_witness :
  encodePassword (js "secret1") <> encodePassword (js "secret2").
Proof.
  apply (X2_encode_injective (js "secret1") (js "secret2"));
    try reflexivity; try discriminate; repeat constructor; unfold code_unit; lia.
Defined.

(** X3. The encoding of a string is made of characters of the base 64
    alphabet and padding signs only, its length is a multiple of four, and
    it is at most four times as long as the string. *)
Theorem X3_encoding_shape (s : jsstring) :
  Forall code_unit s ->
  Forall base64_symbol (encodePassword s)
  /\ (str_length (encodePassword s)) mod 4 = 0
  /\ str_length (encodePassword s) <= 4 * str_length s.
Proof.
  intros Hs. unfold encodePassword.
  destruct (base64_write_shape (Buffer.utf8_write s) (utf8_write_bytes s Hs)) as [H1 H2].
  pose proof (utf8_write_length s Hs) as H3.
  split; [exact H1|]. rewrite H2. unfold str_length. split; euclid.
Qed.

Lemma X3_encoding_shape_witness :
  Forall base64_symbol (encodePassword (js "secret1"))
  /\ (str_length (encodePassword (js "secret1"))) mod 4 = 0
  /\ str_length (encodePassword (js "secret1")) <= 4 * str_length (js "secret1").
Proof.
  apply (X3_encoding_shape (js "secret1")).
  repeat constructor; unfold code_unit; lia.
Defined.

(** ** Registration and login together *)

Lemma valid_registration_checks (b : RegisterBody.t) :
  valid_registration b ->
  negb (filled (RegisterBody.username b)) || negb (filled (RegisterBody.email b))
  || negb (filled (RegisterBody.password b)) || negb (filled (RegisterBody.confirm b)) = false
  /\ (str_length (str (RegisterBody.username b)) <? 3) = false
  /\ Regex.test email_regex (str (RegisterBody.email b)) = true
  /\ str_eqb (str (RegisterBody.password b)) (str (RegisterBody.confirm b)) = true
  /\ (str_length (str (RegisterBody.password b)) <? 6) = false.
Proof.
  intros (H1 & H2 & H3 & H4 & H5). repeat split.
  - now apply all_present_filled.
  - now apply Z.ltb_ge.
  - now apply email_regex_shape.
  - now apply str_eqb_eq.
  - now apply Z.ltb_ge.
Qed.

Lemma register_fresh (b : RegisterBody.t) (s : store) :
  valid_registration b -> online s = true ->
  ~ taken s (sanitize (str (RegisterBody.email b))) (sanitize (str (RegisterBody.username b))) ->
  register b s
  = (registered b,
     mkStore (online s) (users s ++ [new_user b]) (posts s) (patches s)
       (calls s ++ [FindOne Users; InsertOne Users])).
Proof.
  intros Hv Ho Ht.
  destruct (valid_registration_checks b Hv) as (H1 & H2 & H3 & H4 & H5).
  apply not_taken_find in Ht.
  unfold register. rewrite H1, H2, H3, H4, H5. cbn [negb].
  run_driver. rewrite Ho. cbn. rewrite Ht. cbn.
  now rewrite <- app_assoc.
Qed.

Lemma register_refused (b : RegisterBody.t) (s : store) :
  valid_registration b -> online s = true ->
  taken s (sanitize (str (RegisterBody.email b))) (sanitize (str (RegisterBody.username b))) ->
  register b s
  = (respond 400 (error "This email or username is already registered"),
     after_calls s [FindOne Users]).
Proof.
  intros Hv Ho Ht.
  destruct (valid_registration_checks b Hv) as (H1 & H2 & H3 & H4 & H5).
  apply taken_find in Ht as (u & Ht).
  unfold register. rewrite H1, H2, H3, H4, H5. cbn [negb].
  run_driver. rewrite Ho. cbn. now rewrite Ht.
Qed.

(** The login of a body with both fields filled in, on a database that
    answers. *)
Lemma login_run (e p : jsstring) (s : store) :
  e <> [] -> p <> [] -> online s = true ->
  str_eqb e (User.email ADMIN) && str_eqb (encodePassword p) (User.password ADMIN) = false ->
  login (LoginBody.mk (Some e) (Some p)) s
  = (match List.find (fun u => str_eqb (User.email u) (sanitize e)) (users s) with
     | Some u =>
         if str_eqb (decodePassword (User.password u)) p then logged_in u
         else respond 401 (error "Invalid email or password")
     | None => respond 401 (error "Invalid email or password")
     end,
     after_calls s [FindOne Users]).
Proof.
  intros He Hp Ho Ha. unfold login.
  cbn [LoginBody.email LoginBody.password str filled].
  destruct e as [|c e]; [contradiction|]. destruct p as [|d p]; [contradiction|].
  cbn [negb orb]. rewrite Ha.
  run_driver. rewrite Ho. cbn.
  destruct (find _ (users s)) as [u|]; [|reflexivity].
  destruct (str_eqb (decodePassword (User.password u)) (d :: p)); reflexivity.
Qed.

Lemma non_empty_str (f : field) : non_empty f -> f = Some (str f) /\ str f <> [].
Proof. intros (x & -> & Hx). now split. Qed.

(** After a registration is accepted, the look-up by its email finds the
    user it stored. *)
Lemma find_registered (b : RegisterBody.t) (s : store) :
  ~ taken s (sanitize (str (RegisterBody.email b))) (sanitize (str (RegisterBody.username b))) ->
  List.find (fun u => str_eqb (User.email u) (sanitize (str (RegisterBody.email b))))
    (users s ++ [new_user b])
  = Some (new_user b).
Proof.
  intros Ht. apply find_at.
  - apply Forall_forall. intros u Hu. apply str_eqb_neq. intros E.
    apply Ht. exists u. auto.
  - apply str_eqb_refl.
Qed.

Lemma not_admin_credentials (e p : jsstring) :
  Forall code_unit p -> e <> User.email ADMIN \/ p <> js "access" ->
  str_eqb e (User.email ADMIN) && str_eqb (encodePassword p) (User.password ADMIN) = false.
Proof.
  intros Hp [H|H]; apply andb_false_iff.
  - left. now apply str_eqb_neq.
  - right. apply str_eqb_neq. intros E. apply H. now apply admin_encoding_only.
Qed.

(** X4. A user whose registration was accepted, with a username, an email
    and a password in which no surrogate stands alone, logs in with the
    same email and password: the answer is 200 with the username and the
    email registered and [isAdmin] false.  (The administrator's own
    credentials are answered by the administrator's branch instead.) *)
Theorem X4_register_then_login (b : RegisterBody.t) (s : store) :
  valid_registration b -> online s = true ->
  ~ taken s (str (RegisterBody.email b)) (str (RegisterBody.username b)) ->
  paired (str (RegisterBody.username b)) = true ->
  paired (str (RegisterBody.email b)) = true ->
  Forall code_unit (str (RegisterBody.password b)) ->
  paired (str (RegisterBody.password b)) = true ->
  str (RegisterBody.email b) <> User.email ADMIN
  \/ str (RegisterBody.password b) <> js "access" ->
  fst (login (LoginBody.mk (RegisterBody.email b) (RegisterBody.password b))
         (snd (register b s)))
  = respond 200
      (obj [("message"%string, VStr (js "Login successful!"));
            ("user"%string,
             obj [("username"%string, VStr (str (RegisterBody.username b)));
                  ("email"%string, VStr (str (RegisterBody.email b)));
                  ("isAdmin"%string, VBool false)])]).
Proof.
  intros Hv Ho Ht Hu Hm Hc Hp Hna.
  rewrite <- (sanitize_paired _ Hu), <- (sanitize_paired _ Hm) in Ht.
  rewrite (register_fresh b s Hv Ho Ht). cbn [snd].
  destruct Hv as ((_ & He & Hpw & _) & _).
  apply non_empty_str in He as [Ee He]. apply non_empty_str in Hpw as [Epw Hpw].
  rewrite Ee, Epw at 1.
  rewrite login_run; [|assumption|assumption|exact Ho|now apply not_admin_credentials].
  cbn [users fst]. rewrite (find_registered b s Ht).
  cbn [new_user User.password]. rewrite (codec_roundtrip _ Hc Hp), str_eqb_refl.
  unfold logged_in, new_user. cbn [User.username User.email User.isAdmin].
  now rewrite (sanitize_paired _ Hu), (sanitize_paired _ Hm).
Qed.

Lemma X4_register_then_login_witness :
  fst (login (LoginBody.mk (Some (js "alice@example.com")) (Some (js "secret1")))
         (snd (register alice empty_store)))
  = respond 200
      (obj [("message"%string, VStr (js "Login successful!"));
            ("user"%string,
             obj [("username"%string, VStr (js "alice"));
                  ("email"%string, VStr (js "alice@example.com"));
                  ("isAdmin"%string, VBool false)])]).
Proof.
  apply (X4_register_then_login alice empty_store).
  - split; [repeat split; eexists; (split; [reflexivity|discriminate])|].
    split; [vm_compute; discriminate|]. split; [|split; [reflexivity|vm_compute; discriminate]].
    exists (js "alice"), (js "example"), (js "com").
    repeat split; try discriminate; repeat constructor.
  - reflexivity.
  - intros (u & [] & _).
  - reflexivity.
  - reflexivity.
  - repeat constructor; unfold code_unit; lia.
  - reflexivity.
  - left. discriminate.
Defined.

(** X5. A registration whose fields are strings, that passes the checks
    on the body and whose email and username, as the database holds them
    (with U+FFFD for a surrogate that stands alone), no stored user has, is
    accepted; when a surrogate stands alone in its password, the user
    cannot log in with that password: the stored encoding decodes to
    another string, and the answer is 401. *)
Theorem X5_lone_surrogate_lockout (b : RegisterBody.t) (s : store) :
  valid_registration b -> online s = true ->
  ~ taken s (sanitize (str (RegisterBody.email b))) (sanitize (str (RegisterBody.username b))) ->
  Forall code_unit (str (RegisterBody.password b)) ->
  paired (str (RegisterBody.password b)) = false ->
  fst (register b s) = registered b
  /\ fst (login (LoginBody.mk (RegisterBody.email b) (RegisterBody.password b))
            (snd (register b s)))
     = respond 401 (error "Invalid email or password").
Proof.
  intros Hv Ho Ht Hc Hp.
  rewrite (register_fresh b s Hv Ho Ht). cbn [snd fst]. split; [reflexivity|].
  destruct Hv as ((_ & He & Hpw & _) & _).
  apply non_empty_str in He as [Ee He]. apply non_empty_str in Hpw as [Epw Hpw].
  rewrite Ee, Epw at 1.
  rewrite login_run; [|assumption|assumption|exact Ho|].
  - cbn [users fst]. rewrite (find_registered b s Ht).
    cbn [new_user User.password]. rewrite (codec_sanitize _ Hc).
    replace (str_eqb (sanitize (str (RegisterBody.password b)))
               (str (RegisterBody.password b))) with false; [reflexivity|].
    symmetry. apply str_eqb_neq. intros E. apply sanitize_fixed in E. congruence.
  - apply not_admin_credentials; [assumption|]. right. intros E.
    rewrite E in Hp. discriminate.
Qed.

Lemma X5_lone_surrogate_lockout_witness :
  let b := RegisterBody.mk (Some (js "bobby")) (Some (js "bob@example.com"))
             (Some (js "secret" ++ [55296])) (Some (js "secret" ++ [55296])) in
  fst (register b empty_store) = registered b
  /\ fst (login (LoginBody.mk (RegisterBody.email b) (RegisterBody.password b))
            (snd (register b empty_store)))
     = respond 401 (error "Invalid email or password").
Proof.
  intros b. apply (X5_lone_surrogate_lockout b empty_store).
  - split; [repeat split; eexists; (split; [reflexivity|discriminate])|].
    split; [vm_compute; discriminate|]. split; [|split; [reflexivity|vm_compute; discriminate]].
    exists (js "bob"), (js "example"), (js "com").
    repeat split; try discriminate; repeat constructor.
  - reflexivity.
  - intros (u & [] & _).
  - repeat constructor; unfold code_unit; lia.
  - reflexivity.
Defined.

(** X6. After a registration with string fields is accepted, a second
    one that passes the checks on the body and has the same email or the
    same username, as the database holds them (with U+FFFD for a surrogate
    that stands alone), is answered 400 "already registered" and adds no
    document. *)
Theorem X6_second_registration (b b' : RegisterBody.t) (s : store) :
  valid_registration b -> valid_registration b' -> online s = true ->
  ~ taken s (sanitize (str (RegisterBody.email b))) (sanitize (str (RegisterBody.username b))) ->
  sanitize (str (RegisterBody.email b')) = sanitize (str (RegisterBody.email b))
  \/ sanitize (str (RegisterBody.username b')) = sanitize (str (RegisterBody.username b)) ->
  register b' (snd (register b s))
  = (respond 400 (error "This email or username is already registered"),
     mkStore (online s) (users s ++ [new_user b]) (posts s) (patches s)
       (calls s ++ [FindOne Users; InsertOne Users; FindOne Users])).
Proof.
  intros Hv Hv' Ho Ht Hsame.
  rewrite (register_fresh b s Hv Ho Ht). cbn [snd].
  rewrite register_refused; [|exact Hv'|exact Ho|].
  - unfold after_calls. cbn. now rewrite <- app_assoc.
  - exists (new_user b). cbn [users]. split; [apply in_or_app; right; now left|].
    cbn [new_user User.email User.username]. destruct Hsame as [E|E]; auto.
Qed.

Lemma X6_second_registration_witness :
  let b' := RegisterBody.mk (Some (js "alice")) (Some (js "other@example.com"))
              (Some (js "another")) (Some (js "another")) in
  register b' (snd (register alice empty_store))
  = (respond 400 (error "This email or username is already registered"),
     mkStore true [alice_user] [] [] [FindOne Users; InsertOne Users; FindOne Users]).
Proof.
  intros b'. apply (X6_second_registration alice b' empty_store).
  - split; [repeat split; eexists; (split; [reflexivity|discriminate])|].
    split; [vm_compute; discriminate|]. split; [|split; [reflexivity|vm_compute; discriminate]].
    exists (js "alice"), (js "example"), (js "com").
    repeat split; try discriminate; repeat constructor.
  - split; [repeat split; eexists; (split; [reflexivity|discriminate])|].
    split; [vm_compute; discriminate|]. split; [|split; [reflexivity|vm_compute; discriminate]].
    exists (js "other"), (js "example"), (js "com").
    repeat split; try discriminate; repeat constructor.
  - reflexivity.
  - intros (u & [] & _).
  - right. reflexivity.
Defined.

(** X7. A login whose email and password are strings or absent: with a
    field missing or empty it is answered 400 and the store is not called.
    On a database that answers, a login that is not the administrator's
    and whose password is not the decoded password of a stored user with
    that email, as the database holds it (with U+FFFD for a surrogate that
    stands alone), is answered 401 with one and the same body, whether a
    user has that email or not, and changes no document. *)
Theorem X7_login_refusals (b : LoginBody.t) (s : store) :
  (~ (non_empty (LoginBody.email b) /\ non_empty (LoginBody.password b)) ->
   login b s = (respond 400 (error "Please fill in all fields"), s))
  /\ (non_empty (LoginBody.email b) -> non_empty (LoginBody.password b) ->
      online s = true ->
      str_eqb (str (LoginBody.email b)) (User.email ADMIN)
      && str_eqb (encodePassword (str (LoginBody.password b))) (User.password ADMIN) = false ->
      (forall u, In u (users s) -> User.email u = sanitize (str (LoginBody.email b)) ->
                 decodePassword (User.password u) <> str (LoginBody.password b)) ->
      login b s
      = (respond 401 (error "Invalid email or password"), after_calls s [FindOne Users])).
Proof.
  split.
  - intros H. unfold login.
    replace (negb (filled (LoginBody.email b)) || negb (filled (LoginBody.password b)))
      with true; [reflexivity|].
    symmetry. apply not_false_iff_true. intros E. apply H.
    apply orb_false_iff in E as [E1 E2].
    apply negb_false_iff in E1, E2. apply filled_spec in E1, E2. now split.
  - intros He Hp Ho Ha Hnone.
    apply non_empty_str in He as [Ee He]. apply non_empty_str in Hp as [Ep Hp].
    destruct b as [e p]. cbn [LoginBody.email LoginBody.password] in *.
    rewrite Ee, Ep at 1.
    rewrite login_run by assumption. f_equal.
    destruct (find _ (users s)) as [u|] eqn:E; [|reflexivity].
    apply find_some in E as [Hin Hu]. apply str_eqb_eq in Hu.
    specialize (Hnone u Hin Hu). apply str_eqb_neq in Hnone. now rewrite Hnone.
Qed.

Lemma X7_login_refusals_witness :
  login (LoginBody.mk (Some (js "alice@example.com")) None) empty_store
  = (respond 400 (error "Please fill in all fields"), empty_store)
  /\ login (LoginBody.mk (Some (js "alice@example.com")) (Some (js "wrong")))
       (mkStore true [alice_user] [] [] [])
     = (respond 401 (error "Invalid email or password"),
        mkStore true [alice_user] [] [] [FindOne Users])
  /\ login (LoginBody.mk (Some (js "nobody@example.com")) (Some (js "wrong")))
       (mkStore true [alice_user] [] [] [])
     = (respond 401 (error "Invalid email or password"),
        mkStore true [alice_user] [] [] [FindOne Users]).
Proof.
  split; [|split].
  - apply (X7_login_refusals (LoginBody.mk (Some (js "alice@example.com")) None) empty_store).
    intros [_ (x & E & _)]. discriminate.
  - apply (X7_login_refusals (LoginBody.mk (Some (js "alice@example.com")) (Some (js "wrong")))
             (mkStore true [alice_user] [] [] [])).
    + eexists. split; [reflexivity|discriminate].
    + eexists. split; [reflexivity|discriminate].
    + reflexivity.
    + reflexivity.
    + intros u [<-|[]] _. vm_compute. discriminate.
  - apply (X7_login_refusals (LoginBody.mk (Some (js "nobody@example.com")) (Some (js "wrong")))
             (mkStore true [alice_user] [] [] [])).
    + eexists. split; [reflexivity|discriminate].
    + eexists. split; [reflexivity|discriminate].
    + reflexivity.
    + reflexivity.
    + intros u [<-|[]]. vm_compute. discriminate.
Defined.

(** The handlers read a surrogate that stands alone as the database does,
    as U+FFFD: the registration of [bob_surrogate] being refused for its
    username, its email is still free for another registration; and a
    login finds a stored email by an email that differs from it in such a
    surrogate only. *)
Lemma surrogate_read_as_stored :
  let s := mkStore true [bob_user] [] [] [] in
  let carol :=
    RegisterBody.mk (Some (js "carol")) (RegisterBody.email bob_surrogate)
      (Some (js "secret1")) (Some (js "secret1")) in
  let ann :=
    User.mk (js "ann") (js "a" ++ [65533] ++ js "b@x.com") (encodePassword (js "secret1"))
      (VBool false) in
  let b := LoginBody.mk (Some (js "a" ++ [55296] ++ js "b@x.com")) (Some (js "secret1")) in
  status (fst (register bob_surrogate s)) = 400
  /\ status (fst (register carol (snd (register bob_surrogate s)))) = 201
  /\ fst (login b (mkStore true [ann] [] [] [])) = logged_in ann.
Proof. cbv zeta. repeat split; vm_compute; reflexivity. Qed.

(** ** What the requests do to the users *)

Local Ltac split_cases_eqn :=
  repeat (match goal with
          | |- context [online ?s] => destruct (online s)
          | |- context [remove_first ?f ?l] => destruct (remove_first f l)
          | |- context [update_first ?f ?g ?l] => destruct (update_first f g l)
          | |- context [List.find ?f ?l] => destruct (List.find f l) eqn:?
          | |- context [if ?c then _ else _] => destruct c
          end; cbn).

(** A request leaves the users as they were, or it is a registration that
    found no user with its email or username and appended its own. *)
Lemma handle_users (r : request) (s : store) :
  users (snd (handle r s)) = users s
  \/ exists b,
      r = PostRegister b
      /\ ~ taken s (sanitize (str (RegisterBody.email b)))
             (sanitize (str (RegisterBody.username b)))
      /\ users (snd (handle r s)) = users s ++ [new_user b].
Proof.
  destruct s as [o us ps pa cs].
  destruct r; cbn [handle];
    try (left; unfold login, list_posts, create_post, delete_post, add_reply, delete_reply,
           list_patches, create_patch, update_patch, delete_patch;
         run_driver; split_cases; reflexivity).
  unfold register. run_driver. split_cases_eqn; try (left; reflexivity).
  right. exists b. split; [reflexivity|]. split; [|reflexivity].
  intros Ht. apply taken_find in Ht as (u & Ht). cbn [users] in Ht. congruence.
Qed.

Lemma NoDup_snoc (A : Type) (l : list A) (x : A) :
  NoDup l -> ~ In x l -> NoDup (l ++ [x]).
Proof.
  intros Hl Hx. induction Hl as [|y l Hy Hl IH]; cbn.
  - constructor; [tauto|constructor].
  - constructor.
    + intros H. apply in_app_or in H as [H|[H|[]]]; [tauto|].
      apply Hx. now left.
    + apply IH. intros H. apply Hx. now right.
Qed.

Lemma handle_unique_users (r : request) (s : store) :
  unique_users s -> unique_users (snd (handle r s)).
Proof.
  intros [He Hu]. unfold unique_users.
  destruct (handle_users r s) as [E|(b & _ & Ht & E)]; rewrite E; [now split|].
  rewrite !map_app. cbn [map new_user User.email User.username]. split.
  - apply NoDup_snoc; [assumption|]. intros H.
    apply in_map_iff in H as (u & Eu & Hin). apply Ht. exists u. auto.
  - apply NoDup_snoc; [assumption|]. intros H.
    apply in_map_iff in H as (u & Eu & Hin). apply Ht. exists u. auto.
Qed.

Lemma serve_unique_users (rs : list request) (s : store) :
  unique_users s -> unique_users (snd (serve rs s)).
Proof.
  revert s. induction rs as [|r rs IH]; intros s H; cbn [serve]; [exact H|].
  pose proof (handle_unique_users r s H) as H1.
  destruct (handle r s) as [a s1]. cbn [snd] in H1.
  specialize (IH s1 H1). destruct (serve rs s1) as [answers s2]. exact IH.
Qed.

(** A registration that passes the checks on the body is its look-up
    followed by what comes after it. *)
Lemma register_steps (b : RegisterBody.t) (s : store) :
  valid_registration b ->
  register b s = register_after b (fst (register_lookup b s)) (snd (register_lookup b s)).
Proof.
  intros Hv. destruct (valid_registration_checks b Hv) as (H1 & H2 & H3 & H4 & H5).
  unfold register. rewrite H1, H2, H3, H4, H5. cbn [negb].
  unfold try_or, bind, register_lookup, findOne, call.
  destruct (online s); reflexivity.
Qed.

Lemma register_overlapped_run (b : RegisterBody.t) (s : store) :
  online s = true ->
  ~ taken s (sanitize (str (RegisterBody.email b))) (sanitize (str (RegisterBody.username b))) ->
  register_overlapped b b s
  = ((registered b, registered b),
     mkStore (online s) (users s ++ [new_user b; new_user b]) (posts s) (patches s)
       (calls s ++ [FindOne Users; FindOne Users; InsertOne Users; InsertOne Users])).
Proof.
  intros Ho Ht. apply not_taken_find in Ht.
  unfold register_overlapped, register_lookup, register_after, register_finish.
  run_driver. rewrite Ho. cbn. rewrite Ht. cbn.
  unfold registered, new_user. now rewrite <- !app_assoc.
Qed.

(** X8. Requests being answered one at a time, each to its end before the
    next, when no two stored users share an email and no two share a
    username, the same holds after any sequence of requests.  It is the
    order that keeps it so, not the store: of two registrations with the
    same data that pass their checks, the second being looked up before
    the first is inserted, both are answered 201 and both users are
    stored. *)
Theorem X8_users_stay_unique (rs : list request) (b : RegisterBody.t) (s : store) :
  (unique_users s -> unique_users (snd (serve rs s)))
  /\ (valid_registration b -> online s = true ->
      ~ taken s (sanitize (str (RegisterBody.email b)))
          (sanitize (str (RegisterBody.username b))) ->
      register b s
      = register_after b (fst (register_lookup b s)) (snd (register_lookup b s))
      /\ register_overlapped b b s
         = ((registered b, registered b),
            mkStore (online s) (users s ++ [new_user b; new_user b]) (posts s) (patches s)
              (calls s ++ [FindOne Users; FindOne Users; InsertOne Users; InsertOne Users]))
      /\ ~ unique_users (snd (register_overlapped b b s))).
Proof.
  split; [apply serve_unique_users|].
  intros Hv Ho Ht. split; [now apply register_steps|].
  rewrite (register_overlapped_run b s Ho Ht). split; [reflexivity|].
  cbn [snd]. intros [He _]. cbn [users] in He.
  rewrite map_app in He. apply NoDup_app_remove_l in He.
  cbn [map] in He. inversion He as [|x l Hx _]. apply Hx. now left.
Qed.

Lemma X8_users_stay_unique_witness :
  unique_users (snd (serve [PostRegister alice; PostRegister alice; PostLogin (admin_login [])]
                       empty_store))
  /\ register_overlapped alice alice empty_store
     = ((registered alice, registered alice),
        mkStore true [alice_user; alice_user] [] [] 
          [FindOne Users; FindOne Users; InsertOne Users; InsertOne Users]).
Proof.
  destruct (X8_users_stay_unique
              [PostRegister alice; PostRegister alice; PostLogin (admin_login [])]
              alice empty_store) as [H1 H2].
  split.
  - apply H1. split; constructor.
  - apply H2.
    + split; [repeat split; eexists; (split; [reflexivity|discriminate])|].
      split; [vm_compute; discriminate|]. split; [|split; [reflexivity|vm_compute; discriminate]].
      exists (js "alice"), (js "example"), (js "com").
      repeat split; try discriminate; repeat constructor.
    + reflexivity.
    + intros (u & [] & _).
Defined.

Lemma serve_users_grow (rs : list request) (s : store) :
  exists l, users (snd (serve rs s)) = users s ++ l
            /\ Forall (fun u => User.isAdmin u = VBool false) l.
Proof.
  revert s. induction rs as [|r rs IH]; intros s; cbn [serve].
  - exists []. split; [now rewrite app_nil_r|constructor].
  - pose proof (handle_users r s) as H1.
    destruct (handle r s) as [a s1]. cbn [snd] in H1.
    destruct (IH s1) as (l & E & Hl). destruct (serve rs s1) as [answers s2].
    cbn [snd] in *. destruct H1 as [E1|(b & _ & _ & E1)]; rewrite E, E1.
    + now exists l.
    + exists (new_user b :: l). split; [now rewrite <- app_assoc|].
      constructor; [reflexivity|assumption].
Qed.

(** X9. No sequence of requests removes or changes a stored user: the
    users after it are the users before it followed by the users it
    registered, and each of those has [isAdmin] false. *)
Theorem X9_users_only_grow (rs : list request) (s : store) :
  exists l, users (snd (serve rs s)) = users s ++ l
            /\ Forall (fun u => User.isAdmin u = VBool false) l.
Proof. apply serve_users_grow. Qed.

Lemma login_admin_flag (b : LoginBody.t) (s : store) :
  no_stored_admin s -> Forall code_unit (str (LoginBody.password b)) ->
  get "isAdmin" (get "user" (body (fst (login b s)))) = VBool true ->
  str (LoginBody.email b) = js "admin@gmail.com"
  /\ str (LoginBody.password b) = js "access".
Proof.
  intros Hs Hp H. unfold login in H.
  destruct (negb (filled (LoginBody.email b)) || negb (filled (LoginBody.password b)));
    [discriminate|].
  unfold try_or in H.
  destruct (str_eqb (str (LoginBody.email b)) (User.email ADMIN)
            && str_eqb (encodePassword (str (LoginBody.password b))) (User.password ADMIN))
    eqn:Ea.
  - apply andb_true_iff in Ea as [E1 E2]. apply str_eqb_eq in E1, E2. split.
    + exact E1.
    + now apply admin_encoding_only.
  - exfalso. unfold bind, findOne, call, ret in H.
    destruct (online s); [|discriminate].
    cbn in H. destruct (find _ (users s)) as [u|] eqn:E; [|discriminate].
    destruct (str_eqb (decodePassword (User.password u)) (str (LoginBody.password b)));
      [|discriminate].
    apply find_some in E as [Hin _].
    unfold no_stored_admin in Hs. rewrite Forall_forall in Hs. specialize (Hs u Hin).
    cbn in H. unfold js_or in H. rewrite Hs in H. discriminate.
Qed.

(** X10. When no stored user is an administrator, then after any sequence
    of requests a login whose email and password are strings is answered
    with [isAdmin] true only for the administrator's email with the
    password "access".  That the password is a string matters: the array
    of the six integers 97, 99, 99, 101, 115, 115, which [Buffer.from]
    reads as bytes, has the administrator's encoding as well. *)
Theorem X10_no_escalation (rs : list request) (b : LoginBody.t) (s : store) :
  (no_stored_admin s -> Forall code_unit (str (LoginBody.password b)) ->
   get "isAdmin" (get "user" (body (fst (login b (snd (serve rs s)))))) = VBool true ->
   str (LoginBody.email b) = js "admin@gmail.com"
   /\ str (LoginBody.password b) = js "access")
  /\ encode_secret (Bytes [97; 99; 99; 101; 115; 115]) = User.password ADMIN
  /\ encode_secret (Text (js "access")) = User.password ADMIN.
Proof.
  split; [|split; reflexivity].
  intros Hs Hp. apply login_admin_flag; [|exact Hp].
  destruct (serve_users_grow rs s) as (l & E & Hl).
  unfold no_stored_admin. rewrite E. apply Forall_app. split; [exact Hs|].
  eapply Forall_impl; [|exact Hl]. intros u Hu. now rewrite Hu.
Qed.

Lemma X10_no_escalation_witness :
  str (LoginBody.email (admin_login (js "access"))) = js "admin@gmail.com"
  /\ str (LoginBody.password (admin_login (js "access"))) = js "access".
Proof.
  apply (X10_no_escalation [PostRegister alice] (admin_login (js "access")) empty_store).
  - constructor.
  - repeat constructor; unfold code_unit; lia.
  - reflexivity.
Defined.

(** ** The email pattern *)

Lemma count_occ_none (l : list Z) (x : Z) :
  Forall (fun u => u <> x) l -> count_occ Z.eq_dec l x = 0%nat.
Proof.
  intros H. apply count_occ_not_In. intros Hin.
  rewrite Forall_forall in H. now apply (H x Hin).
Qed.

Lemma not_space_at_spec (u : Z) :
  not_space_at u = true -> is_space u = false /\ u <> 64.
Proof.
  unfold not_space_at. intros H. apply andb_true_iff in H as [H1 H2].
  apply negb_true_iff in H1, H2. apply Z.eqb_neq in H2. now split.
Qed.

(** X11. An email the registration accepts holds exactly one [@] and no
    white space, has a dot after the [@], and is at least five characters
    long. *)
Theorem X11_accepted_email (e : jsstring) :
  Regex.test email_regex e = true ->
  count_occ Z.eq_dec e 64 = 1%nat
  /\ Forall (fun u => is_space u = false) e
  /\ (exists l r, e = l ++ 64 :: r /\ In 46 r)
  /\ 5 <= str_length e.
Proof.
  intros H. apply email_regex_shape in H as (a & b & c & -> & Ha & Hb & Hc & Fa & Fb & Fc).
  assert (Hat : forall l, Forall (fun u => not_space_at u = true) l ->
                          Forall (fun u => u <> 64) l).
  { intros l. apply Forall_impl. intros u Hu. now apply not_space_at_spec in Hu. }
  assert (Hsp : forall l, Forall (fun u => not_space_at u = true) l ->
                          Forall (fun u => is_space u = false) l).
  { intros l. apply Forall_impl. intros u Hu. now apply not_space_at_spec in Hu. }
  split; [|split; [|split]].
  - rewrite count_occ_app, (count_occ_none a 64) by auto.
    rewrite count_occ_cons_eq by reflexivity.
    rewrite count_occ_app, (count_occ_none b 64) by auto.
    rewrite count_occ_cons_neq by discriminate.
    now rewrite (count_occ_none c 64) by auto.
  - apply Forall_app. split; [auto|]. constructor; [reflexivity|].
    apply Forall_app. split; [auto|]. constructor; [reflexivity|auto].
  - exists a, (b ++ 46 :: c). split; [reflexivity|]. apply in_elt.
  - unfold str_length. rewrite length_app. cbn [List.length]. rewrite length_app.
    cbn [List.length].
    destruct a; [contradiction|]. destruct b; [contradiction|]. destruct c; [contradiction|].
    cbn [List.length]. lia.
Qed.

Lemma X11_accepted_email_witness :
  count_occ Z.eq_dec (js "alice@example.com") 64 = 1%nat
  /\ Forall (fun u => is_space u = false) (js "alice@example.com")
  /\ (exists l r, js "alice@example.com" = l ++ 64 :: r /\ In 46 r)
  /\ 5 <= str_length (js "alice@example.com").
Proof.
  apply (X11_accepted_email (js "alice@example.com")). reflexivity.
Defined.

(** ** Replies *)

Lemma add_reply_first (t : clock) (id : jsstring) (b : ReplyBody.t) (s : store)
      (l1 l2 : list Post.t) (p : Post.t) :
  truthy (ReplyBody.content b) = true -> online s = true ->
  posts s = l1 ++ p :: l2 -> names id (Post.id p) ->
  Forall (fun q => ~ names id (Post.id q)) l1 ->
  add_reply t id b s
  = (respond 201 (json_of_reply (new_reply t b)),
     mkStore (online s) (users s)
       (l1 ++ with_replies p (replies_or_empty p ++ [new_reply t b]) :: l2)
       (patches s) (calls s ++ [UpdateOne Posts])).
Proof.
  intros Hc Ho E Hp Hl1. unfold add_reply. rewrite Hc.
  run_driver. rewrite Ho, E. cbn.
  rewrite update_first_at; [|now apply names_first|now apply id_is_true].
  unfold push_reply, with_replies, replies_or_empty, new_reply.
  now destruct (Post.replies p).
Qed.

Lemma add_reply_none (t : clock) (id : jsstring) (b : ReplyBody.t) (s : store) :
  truthy (ReplyBody.content b) = true -> online s = true ->
  (forall q, In q (posts s) -> ~ names id (Post.id q)) ->
  add_reply t id b s
  = (respond 404 (error "Post not found"), after_calls s [UpdateOne Posts]).
Proof.
  intros Hc Ho H. unfold add_reply. rewrite Hc.
  run_driver. rewrite Ho. cbn.
  rewrite update_first_nowhere; [reflexivity|].
  now apply names_nowhere with (key := Post.id).
Qed.

(** X12. A reply with falsy content is answered 400 and the store is not
    called; a reply to an identifier no post carries is answered 404 and
    changes no document. *)
Theorem X12_add_reply_refusals (t : clock) (id : jsstring) (b : ReplyBody.t) (s : store) :
  (truthy (ReplyBody.content b) = false ->
   add_reply t id b s = (respond 400 (error "Reply content is required"), s))
  /\ (truthy (ReplyBody.content b) = true -> online s = true ->
      (forall q, In q (posts s) -> ~ names id (Post.id q)) ->
      add_reply t id b s
      = (respond 404 (error "Post not found"), after_calls s [UpdateOne Posts])).
Proof.
  split.
  - intros H. unfold add_reply. now rewrite H.
  - apply add_reply_none.
Qed.

Lemma X12_add_reply_refusals_witness :
  add_reply noon (js "42") (ReplyBody.mk VUndefined (VStr [])) (mkStore true [] [hello_post] [] [])
  = (respond 400 (error "Reply content is required"), mkStore true [] [hello_post] [] [])
  /\ add_reply noon (js "43") (ReplyBody.mk VUndefined (VStr (js "hi")))
       (mkStore true [] [hello_post] [] [])
     = (respond 404 (error "Post not found"),
        mkStore true [] [hello_post] [] [UpdateOne Posts]).
Proof.
  split.
  - apply (X12_add_reply_refusals noon (js "42") (ReplyBody.mk VUndefined (VStr []))
             (mkStore true [] [hello_post] [] [])).
    reflexivity.
  - apply (X12_add_reply_refusals noon (js "43") (ReplyBody.mk VUndefined (VStr (js "hi")))
             (mkStore true [] [hello_post] [] [])); try reflexivity.
    intros q [<-|[]]. discriminate.
Defined.

(** X13. A reply with content to an identifier a post carries is answered
    201 with the reply, whose id is the reading of the clock and whose
    author is "Anonymous" when none is given; it is put after the replies
    of the first such post (a post without the field gets it), so that
    this post has one reply more, and no other document changes. *)
Theorem X13_add_reply_appends (t : clock) (id : jsstring) (b : ReplyBody.t) (s : store)
        (l1 l2 : list Post.t) (p : Post.t) :
  truthy (ReplyBody.content b) = true -> online s = true ->
  posts s = l1 ++ p :: l2 -> names id (Post.id p) ->
  Forall (fun q => ~ names id (Post.id q)) l1 ->
  let reply := new_reply t b in
  let p' := with_replies p (replies_or_empty p ++ [reply]) in
  add_reply t id b s
  = (respond 201 (json_of_reply reply),
     mkStore (online s) (users s) (l1 ++ p' :: l2) (patches s)
       (calls s ++ [UpdateOne Posts]))
  /\ List.length (replies_or_empty p') = S (List.length (replies_or_empty p))
  /\ Reply.id reply = now t
  /\ (truthy (ReplyBody.author b) = false -> Reply.author reply = VStr (js "Anonymous")).
Proof.
  intros Hc Ho E Hp Hl1 reply p'. split; [now apply add_reply_first|].
  split; [|split; [reflexivity|]].
  - unfold p', replies_or_empty at 1. cbn. rewrite length_app. cbn. lia.
  - intros Ha. unfold reply, new_reply, js_or. cbn. now rewrite Ha.
Qed.

Lemma X13_add_reply_appends_witness :
  let b := ReplyBody.mk VUndefined (VStr (js "hi")) in
  let r := Reply.mk 1700000000000 (VStr (js "Anonymous")) (VStr (js "hi"))
             (js "2023-11-14T22:13:20.000Z") in
  add_reply noon (js "42") b (mkStore true [] [hello_post] [] [])
  = (respond 201 (json_of_reply r),
     mkStore true []
       [with_replies hello_post
          [Reply.mk 7 (VStr (js "kay")) (VStr (js "first")) (js "t"); r]]
       [] [UpdateOne Posts]).
Proof.
  intros b r.
  apply (X13_add_reply_appends noon (js "42") b (mkStore true [] [hello_post] [] [])
           [] [] hello_post); try reflexivity.
  constructor.
Defined.

Lemma delete_reply_403 (postId replyId : jsstring) (b : AdminBody.t) (s : store) :
  truthy (AdminBody.isAdmin b) = false ->
  delete_reply postId replyId b s
  = (respond 403 (error "Only administrators can delete replies"), s).
Proof.
  intros H. unfold delete_reply. now rewrite H.
Qed.

Lemma pull_reply_filter (n : Z) (p : Post.t) (rs : list Reply.t) :
  Post.replies p = Some rs ->
  pull_reply (Some n) p = with_replies p (filter (fun r => negb (Reply.id r =? n)) rs).
Proof.
  intros E. unfold pull_reply, with_replies. now rewrite E.
Qed.

(** X14. A deletion of a reply asked by an administrator takes out of the
    first post that carries the post identifier every reply that carries
    the reply identifier, keeps the other replies in their order, and
    changes no other document; the answer is 200. *)
Theorem X14_delete_reply_removes (postId replyId : jsstring) (b : AdminBody.t) (s : store)
        (l1 l2 : list Post.t) (p : Post.t) (rs : list Reply.t) (n : Z) :
  truthy (AdminBody.isAdmin b) = true -> online s = true ->
  posts s = l1 ++ p :: l2 -> names postId (Post.id p) ->
  Forall (fun q => ~ names postId (Post.id q)) l1 ->
  Post.replies p = Some rs -> names replyId n ->
  let kept := filter (fun r => negb (Reply.id r =? n)) rs in
  delete_reply postId replyId b s
  = (respond 200 (message "Reply deleted"),
     mkStore (online s) (users s) (l1 ++ with_replies p kept :: l2) (patches s)
       (calls s ++ [UpdateOne Posts]))
  /\ (forall r, In r kept <-> In r rs /\ Reply.id r <> n).
Proof.
  intros Ha Ho E Hp Hl1 Er Hn kept. split.
  - rewrite (delete_reply_post postId replyId b s l1 l2 p Ha Ho E Hp Hl1).
    unfold names in Hn. rewrite Hn. now rewrite (pull_reply_filter n p rs Er).
  - intros r. unfold kept. rewrite filter_In, negb_true_iff, Z.eqb_neq. tauto.
Qed.

Lemma X14_delete_reply_removes_witness :
  delete_reply (js "42") (js "7") admin_flag (mkStore true [] [hello_post] [] [])
  = (respond 200 (message "Reply deleted"),
     mkStore true [] [with_replies hello_post []] [] [UpdateOne Posts]).
Proof.
  apply (X14_delete_reply_removes (js "42") (js "7") admin_flag
           (mkStore true [] [hello_post] [] []) [] [] hello_post
           [Reply.mk 7 (VStr (js "kay")) (VStr (js "first")) (js "t")] 7);
    try reflexivity.
  constructor.
Defined.

Lemma with_replies_same (p : Post.t) (rs : list Reply.t) :
  Post.replies p = Some rs -> with_replies p rs = p.
Proof.
  intros E. destruct p as [i a c im t r]. cbn in E. subst r. reflexivity.
Qed.

(** X15. A reply added to a post and then deleted by an administrator
    leaves the posts as they were, when the post had a list of replies and
    none of them carried the identifier of the new one. *)
Theorem X15_add_then_delete_reply (t : clock) (postId replyId : jsstring)
        (b : ReplyBody.t) (a : AdminBody.t) (s : store)
        (l1 l2 : list Post.t) (p : Post.t) (rs : list Reply.t) :
  truthy (ReplyBody.content b) = true -> truthy (AdminBody.isAdmin a) = true ->
  online s = true ->
  posts s = l1 ++ p :: l2 -> names postId (Post.id p) ->
  Forall (fun q => ~ names postId (Post.id q)) l1 ->
  Post.replies p = Some rs -> names replyId (now t) ->
  Forall (fun r => Reply.id r <> now t) rs ->
  posts (snd (delete_reply postId replyId a (snd (add_reply t postId b s)))) = posts s
  /\ fst (delete_reply postId replyId a (snd (add_reply t postId b s)))
     = respond 200 (message "Reply deleted").
Proof.
  intros Hc Ha Ho E Hp Hl1 Er Hn Hrs.
  rewrite (add_reply_first t postId b s l1 l2 p Hc Ho E Hp Hl1). cbn [snd].
  rewrite (delete_reply_post postId replyId a
             (mkStore (online s) (users s)
                (l1 ++ with_replies p (replies_or_empty p ++ [new_reply t b]) :: l2)
                (patches s) (calls s ++ [UpdateOne Posts]))
             l1 l2
             (with_replies p (replies_or_empty p ++ [new_reply t b])) Ha Ho eq_refl Hp Hl1).
  cbn [snd fst posts]. split; [|reflexivity].
  unfold names in Hn. rewrite Hn.
  rewrite (pull_reply_filter (now t)
             (with_replies p (replies_or_empty p ++ [new_reply t b]))
             (replies_or_empty p ++ [new_reply t b]) eq_refl).
  unfold replies_or_empty. rewrite Er, filter_app. cbn [filter new_reply Reply.id].
  rewrite Z.eqb_refl. cbn [negb]. rewrite app_nil_r.
  rewrite filter_keeps_all.
  - unfold with_replies at 1. cbn. rewrite E. f_equal. f_equal.
    now apply with_replies_same.
  - rewrite Forall_forall in Hrs. intros r Hr.
    apply negb_true_iff, Z.eqb_neq. now apply Hrs.
Qed.

Lemma X15_add_then_delete_reply_witness :
  let s := mkStore true [] [hello_post] [] [] in
  let b := ReplyBody.mk VUndefined (VStr (js "hi")) in
  posts (snd (delete_reply (js "42") (js "1700000000000") admin_flag
                (snd (add_reply noon (js "42") b s))))
  = [hello_post].
Proof.
  intros s b.
  apply (X15_add_then_delete_reply noon (js "42") (js "1700000000000") b admin_flag s
           [] [] hello_post [Reply.mk 7 (VStr (js "kay")) (VStr (js "first")) (js "t")]);
    try reflexivity.
  - constructor.
  - repeat constructor. discriminate.
Defined.

(** ** Posts *)

(** X16. A post created and then deleted by an administrator under the
    identifier it was given leaves the posts as they were, when no stored
    post carried that identifier. *)
Theorem X16_create_then_delete_post (t : clock) (id : jsstring) (b : PostBody.t)
        (a : AdminBody.t) (s : store) :
  truthy (PostBody.content b) = true -> truthy (AdminBody.isAdmin a) = true ->
  online s = true -> names id (now t) ->
  Forall (fun q => Post.id q <> now t) (posts s) ->
  posts (snd (delete_post id a (snd (create_post t b s)))) = posts s
  /\ fst (delete_post id a (snd (create_post t b s)))
     = respond 200 (message "Post deleted").
Proof.
  intros Hc Ha Ho Hn Hfresh.
  rewrite (create_post_run t b s Hc Ho). cbv zeta. cbn [snd].
  change (Post.mk (now t) (js_or (PostBody.author b) (VStr (js "Anonymous")))
            (PostBody.content b) (js_or (PostBody.image b) VNull) (iso t) (Some []))
    with (new_post t b).
  rewrite (delete_post_first id a
             (mkStore (online s) (users s) (posts s ++ [new_post t b]) (patches s)
                (calls s ++ [InsertOne Posts]))
             (posts s) [] (new_post t b) Ha Ho eq_refl Hn).
  - cbn [snd fst posts]. now rewrite app_nil_r.
  - eapply Forall_impl; [|exact Hfresh]. intros q Hq E.
    unfold names in *. congruence.
Qed.

Lemma X16_create_then_delete_post_witness :
  posts (snd (delete_post (js "1700000000000") admin_flag
                (snd (create_post noon (PostBody.mk VUndefined (VStr (js "hello")) VUndefined)
                        (mkStore true [] [hello_post] [] [])))))
  = [hello_post].
Proof.
  apply (X16_create_then_delete_post noon (js "1700000000000")
           (PostBody.mk VUndefined (VStr (js "hello")) VUndefined) admin_flag
           (mkStore true [] [hello_post] [] [])); try reflexivity.
  repeat constructor. discriminate.
Defined.

Lemma get_replies_listed (p : Post.t) :
  get "replies" (json_of_post (with_replies p (replies_or_empty p)))
  = VArr (map json_of_reply (replies_or_empty p)).
Proof.
  unfold json_of_post. rewrite get_obj by apply post_keys. reflexivity.
Qed.

(** X17. On a database that answers, the list of posts is answered 200
    with one item for each stored post, in storage order; every item has a
    sequence of replies, empty for a stored post without the field; no
    document changes. *)
Theorem X17_list_posts (s : store) :
  online s = true ->
  exists items,
    list_posts s = (respond 200 (VArr items), after_calls s [Find Posts])
    /\ items = map (fun p => json_of_post (with_replies p (replies_or_empty p))) (posts s)
    /\ List.length items = List.length (posts s)
    /\ Forall (fun item => exists rs, get "replies" item = VArr rs) items.
Proof.
  intros Ho. eexists. split; [|split; [reflexivity|split]].
  - unfold list_posts. run_driver. rewrite Ho. reflexivity.
  - apply length_map.
  - apply Forall_forall. intros item Hin. apply in_map_iff in Hin as (p & <- & _).
    eexists. apply get_replies_listed.
Qed.

Lemma X17_list_posts_witness :
  let old := Post.mk 5 (VStr (js "kay")) (VStr (js "old")) VNull (js "t") None in
  exists items,
    list_posts (mkStore true [] [old] [] [])
    = (respond 200 (VArr items), mkStore true [] [old] [] [Find Posts])
    /\ items = [json_of_post (with_replies old [])].
Proof.
  intros old.
  destruct (X17_list_posts (mkStore true [] [old] [] []) eq_refl) as (items & E & Ei & _).
  exists items. split; [exact E|exact Ei].
Defined.

(** ** Identifiers that are not numbers *)

Lemma nan_names_nothing (A : Type) (key : A -> Z) (id : jsstring) (l : list A) :
  parseInt id = None -> forall q, In q l -> ~ names id (key q).
Proof.
  intros E q _ H. unfold names in H. congruence.
Qed.

Lemma delete_patch_none (id : jsstring) (b : AdminBody.t) (s : store) :
  truthy (AdminBody.isAdmin b) = true -> online s = true ->
  (forall q, In q (patches s) -> ~ names id (Patch.id q)) ->
  delete_patch id b s
  = (respond 404 (error "Patch not found"), after_calls s [DeleteOne Patches]).
Proof.
  intros Ha Ho H. unfold delete_patch. rewrite Ha.
  run_driver. rewrite Ho. cbn.
  rewrite remove_first_nowhere; [reflexivity|].
  now apply names_nowhere with (key := Patch.id).
Qed.

Lemma delete_patch_first (id : jsstring) (b : AdminBody.t) (s : store)
      (l1 l2 : list Patch.t) (p : Patch.t) :
  truthy (AdminBody.isAdmin b) = true -> online s = true ->
  patches s = l1 ++ p :: l2 -> names id (Patch.id p) ->
  Forall (fun q => ~ names id (Patch.id q)) l1 ->
  delete_patch id b s
  = (respond 200 (message "Patch deleted"),
     mkStore (online s) (users s) (posts s) (l1 ++ l2) (calls s ++ [DeleteOne Patches])).
Proof.
  intros Ha Ho E Hp Hl1. unfold delete_patch. rewrite Ha.
  run_driver. rewrite Ho, E. cbn.
  rewrite remove_first_at; [reflexivity|now apply names_first|now apply id_is_true].
Qed.

(** X18. A path identifier that [parseInt] does not read as a number
    names no document: on a database that answers, the routes that look a
    document up by it answer 404 and change no document. *)
Theorem X18_not_a_number (id other : jsstring) (t : clock) (a : AdminBody.t)
        (rb : ReplyBody.t) (pb : PatchBody.t) (s : store) :
  parseInt id = None -> online s = true ->
  truthy (AdminBody.isAdmin a) = true -> truthy (ReplyBody.content rb) = true ->
  truthy (PatchBody.isAdmin pb) = true ->
  delete_post id a s
  = (respond 404 (error "Post not found"), after_calls s [DeleteOne Posts])
  /\ add_reply t id rb s
     = (respond 404 (error "Post not found"), after_calls s [UpdateOne Posts])
  /\ delete_reply id other a s
     = (respond 404 (error "Post not found"), after_calls s [UpdateOne Posts])
  /\ update_patch id pb s
     = (respond 404 (error "Patch not found"), after_calls s [FindOneAndUpdate Patches])
  /\ delete_patch id a s
     = (respond 404 (error "Patch not found"), after_calls s [DeleteOne Patches]).
Proof.
  intros E Ho Ha Hc Hpa. repeat split.
  - apply delete_post_none; auto. now apply nan_names_nothing.
  - apply add_reply_none; auto. now apply nan_names_nothing.
  - apply delete_reply_no_post; auto. now apply nan_names_nothing.
  - apply update_patch_none; auto. now apply nan_names_nothing.
  - apply delete_patch_none; auto. now apply nan_names_nothing.
Qed.

Lemma X18_not_a_number_witness :
  delete_post (js "abc") admin_flag (mkStore true [] [hello_post] [] [])
  = (respond 404 (error "Post not found"), mkStore true [] [hello_post] [] [DeleteOne Posts]).
Proof.
  apply (X18_not_a_number (js "abc") (js "7") noon admin_flag
           (ReplyBody.mk VUndefined (VStr (js "hi")))
           (PatchBody.mk VUndefined VUndefined VUndefined (VBool true))
           (mkStore true [] [hello_post] [] [])); reflexivity.
Defined.

(** ** Patch notes: the administrator's flag, creation, deletion *)

(** X19. Without a truthy [isAdmin] in the body, the deletion of a reply
    and the creation, update and deletion of a patch are answered 403 and
    the store is not called, whatever else the request holds: the flag is
    looked at before the fields of a new patch are. *)
Theorem X19_admin_gate (t : clock) (id other : jsstring) (a : AdminBody.t)
        (b : PatchBody.t) (s : store) :
  (truthy (AdminBody.isAdmin a) = false ->
   delete_reply id other a s
   = (respond 403 (error "Only administrators can delete replies"), s)
   /\ delete_patch id a s
      = (respond 403 (error "Only administrators can delete patches"), s))
  /\ (truthy (PatchBody.isAdmin b) = false ->
      create_patch t b s
      = (respond 403 (error "Only administrators can create patches"), s)
      /\ update_patch id b s
         = (respond 403 (error "Only administrators can edit patches"), s)).
Proof.
  split; intros H; split.
  - now apply delete_reply_403.
  - unfold delete_patch. now rewrite H.
  - unfold create_patch. now rewrite H.
  - unfold update_patch. now rewrite H.
Qed.

Lemma X19_admin_gate_witness :
  create_patch noon (PatchBody.mk VUndefined VUndefined VUndefined (VNum 0)) empty_store
  = (respond 403 (error "Only administrators can create patches"), empty_store)
  /\ delete_patch (js "1") (AdminBody.mk VNull) (mkStore false [] [] [seed_patch] [])
     = (respond 403 (error "Only administrators can delete patches"),
        mkStore false [] [] [seed_patch] []).
Proof.
  split.
  - apply (X19_admin_gate noon (js "1") (js "1") (AdminBody.mk VNull)
             (PatchBody.mk VUndefined VUndefined VUndefined (VNum 0)) empty_store).
    reflexivity.
  - apply (X19_admin_gate noon (js "1") (js "1") (AdminBody.mk VNull)
             (PatchBody.mk VUndefined VUndefined VUndefined (VNum 0))
             (mkStore false [] [] [seed_patch] [])).
    reflexivity.
Defined.

(** X20. A patch creation asked by an administrator is answered 400 "All
    fields are required" when one of version, date and text is falsy, and
    the store is not called; with the three fields it is answered 201 with
    the patch, whose id is the reading of the clock and whose fields are
    those of the body, and the patch is appended to the collection. *)
Theorem X20_create_patch (t : clock) (b : PatchBody.t) (s : store) :
  truthy (PatchBody.isAdmin b) = true ->
  (truthy (PatchBody.version b) = false \/ truthy (PatchBody.date b) = false
   \/ truthy (PatchBody.text b) = false ->
   create_patch t b s = (respond 400 (error "All fields are required"), s))
  /\ (truthy (PatchBody.version b) = true -> truthy (PatchBody.date b) = true ->
      truthy (PatchBody.text b) = true -> online s = true ->
      create_patch t b s
      = (respond 201 (json_of_patch (new_patch t b)),
         mkStore (online s) (users s) (posts s) (patches s ++ [new_patch t b])
           (calls s ++ [InsertOne Patches]))).
Proof.
  intros Ha. split.
  - intros H. unfold create_patch. rewrite Ha. cbn [negb].
    replace (negb (truthy (PatchBody.version b)) || negb (truthy (PatchBody.date b))
             || negb (truthy (PatchBody.text b))) with true; [reflexivity|].
    symmetry. destruct H as [H|[H|H]]; rewrite H; cbn;
      repeat rewrite orb_true_r; reflexivity.
  - intros Hv Hd Ht Ho. unfold create_patch. rewrite Ha, Hv, Hd, Ht. cbn [negb orb].
    run_driver. now rewrite Ho.
Qed.

Lemma X20_create_patch_witness :
  let b := PatchBody.mk (VStr (js "3.0")) (VStr (js "today")) (VStr (js "notes")) (VBool true) in
  create_patch noon (PatchBody.mk (VStr (js "3.0")) VUndefined (VStr (js "notes")) (VBool true))
    empty_store
  = (respond 400 (error "All fields are required"), empty_store)
  /\ create_patch noon b empty_store
     = (respond 201 (json_of_patch (new_patch noon b)),
        mkStore true [] [] [new_patch noon b] [InsertOne Patches]).
Proof.
  intros b. split.
  - apply (X20_create_patch noon
             (PatchBody.mk (VStr (js "3.0")) VUndefined (VStr (js "notes")) (VBool true))
             empty_store eq_refl).
    right. left. reflexivity.
  - apply (X20_create_patch noon b empty_store eq_refl); reflexivity.
Defined.

(** X21. A patch deletion asked by an administrator removes the first
    patch that carries the identifier and answers 200, or answers 404 and
    changes nothing when no patch carries it; the other documents stay. *)
Theorem X21_delete_patch (id : jsstring) (b : AdminBody.t) (s : store) :
  truthy (AdminBody.isAdmin b) = true -> online s = true ->
  (forall l1 p l2,
      patches s = l1 ++ p :: l2 -> names id (Patch.id p) ->
      Forall (fun q => ~ names id (Patch.id q)) l1 ->
      delete_patch id b s
      = (respond 200 (message "Patch deleted"),
         mkStore (online s) (users s) (posts s) (l1 ++ l2)
           (calls s ++ [DeleteOne Patches])))
  /\ ((forall q, In q (patches s) -> ~ names id (Patch.id q)) ->
      delete_patch id b s
      = (respond 404 (error "Patch not found"), after_calls s [DeleteOne Patches])).
Proof.
  intros Ha Ho. split.
  - intros l1 p l2. now apply delete_patch_first.
  - now apply delete_patch_none.
Qed.

Lemma X21_delete_patch_witness :
  delete_patch (js "1") admin_flag (mkStore true [] [] [patch_1_0 5; seed_patch] [])
  = (respond 200 (message "Patch deleted"),
     mkStore true [] [] [patch_1_0 5] [DeleteOne Patches])
  /\ delete_patch (js "2") admin_flag (mkStore true [] [] [patch_1_0 5; seed_patch] [])
     = (respond 404 (error "Patch not found"),
        mkStore true [] [] [patch_1_0 5; seed_patch] [DeleteOne Patches]).
Proof.
  split.
  - apply (X21_delete_patch (js "1") admin_flag
             (mkStore true [] [] [patch_1_0 5; seed_patch] []) eq_refl eq_refl)
      with (l1 := [patch_1_0 5]) (p := seed_patch) (l2 := []);
      try reflexivity.
    repeat constructor. discriminate.
  - apply (X21_delete_patch (js "2") admin_flag
             (mkStore true [] [] [patch_1_0 5; seed_patch] []) eq_refl eq_refl).
    intros q [<-|[<-|[]]]; discriminate.
Defined.

(** ** Start-up, again *)

Lemma connectDB_online (s : store) :
  online s = true ->
  connectDB s
  = (Ok tt,
     match patches s with
     | [] => mkStore (online s) (users s) (posts s) [seed_patch]
               (calls s ++ [CountDocuments Patches; InsertOne Patches])
     | _ :: _ => after_calls s [CountDocuments Patches]
     end).
Proof.
  intros Ho. unfold connectDB. run_driver. rewrite Ho. cbn.
  destruct (patches s) as [|p l] eqn:Ep.
  - cbn. now rewrite <- app_assoc.
  - cbn [List.length]. rewrite Nat2Z.inj_succ.
    replace (Z.succ (Z.of_nat (List.length l)) =? 0) with false
      by (symmetry; apply Z.eqb_neq; lia).
    reflexivity.
Qed.

(** X22. After a start-up on a database that answers the patches
    collection is not empty, the users and the posts are as they were, and
    a second start-up changes no document: the seed is inserted at most
    once.  When the database does not answer, the start-up throws and no
    document changes. *)
Theorem X22_startup (s : store) :
  (online s = true ->
   fst (connectDB s) = Ok tt
   /\ patches (snd (connectDB s)) <> []
   /\ users (snd (connectDB s)) = users s
   /\ posts (snd (connectDB s)) = posts s
   /\ documents (snd (connectDB (snd (connectDB s)))) = documents (snd (connectDB s)))
  /\ (online s = false ->
      connectDB s = (Thrown, after_calls s [CountDocuments Patches])).
Proof.
  split.
  - intros Ho. rewrite (connectDB_online s Ho). cbn [fst snd].
    destruct (patches s) as [|p l] eqn:Ep.
    + repeat split; try discriminate.
      rewrite connectDB_online by exact Ho. reflexivity.
    + repeat split.
      * unfold after_calls. cbn. rewrite Ep. discriminate.
      * rewrite connectDB_online by exact Ho. cbn. rewrite Ep. reflexivity.
  - intros Ho. unfold connectDB. run_driver. now rewrite Ho.
Qed.

Lemma X22_startup_witness :
  patches (snd (connectDB empty_store)) <> []
  /\ connectDB (mkStore false [] [] [] [])
     = (Thrown, mkStore false [] [] [] [CountDocuments Patches]).
Proof.
  split.
  - apply (X22_startup empty_store). reflexivity.
  - apply (X22_startup (mkStore false [] [] [] [])). reflexivity.
Defined.

(** ** Every route *)

Local Ltac unfold_routes :=
  unfold register, login, list_posts, create_post, delete_post, add_reply, delete_reply,
    list_patches, create_patch, update_patch, delete_patch.

Lemma get_agents_status (upstream : option value) :
  status (get_agents upstream) = 200 \/ status (get_agents upstream) = 500.
Proof.
  unfold get_agents.
  repeat match goal with
         | |- context [match ?x with _ => _ end] => destruct x
         end; cbn; auto.
Qed.

(** X23. A request that is answered with an error status (400 or above)
    changes no document. *)
Theorem X23_errors_write_nothing (r : request) (s : store) :
  400 <= status (fst (handle r s)) -> documents (snd (handle r s)) = documents s.
Proof.
  destruct s as [o us ps pa cs].
  destruct r; cbn [handle]; [reflexivity|..];
    try (unfold_routes; run_driver; split_cases;
         intros H; first [reflexivity | exfalso; cbn [fst status] in H; lia]).
  (* the update of a patch: the document found is the document updated *)
  unfold update_patch. destruct (negb (truthy (PatchBody.isAdmin b))); [reflexivity|].
  run_driver. destruct o; [|reflexivity]. cbn.
  destruct (first_match _ (fun p => id_is (parseInt id) (Patch.id p)) pa)
    as [(l1 & p & l2 & -> & Hp & Hl1)|Hnone].
  - rewrite update_first_at, find_at by assumption. cbn. intros H. lia.
  - rewrite update_first_nowhere by assumption. reflexivity.
Qed.

Lemma X23_errors_write_nothing_witness :
  documents (snd (handle (PostRegister alice) (mkStore true [alice_user] [] [] [])))
  = documents (mkStore true [alice_user] [] [] []).
Proof.
  apply (X23_errors_write_nothing (PostRegister alice) (mkStore true [alice_user] [] [] [])).
  vm_compute. discriminate.
Defined.

(** X24. When the database does not answer, no request changes a
    document, and a request is answered 500, or 400 or 403 by a check made
    before the database is called; only the agents route and the login
    (of the administrator) can still answer 200. *)
Theorem X24_database_down (r : request) (s : store) :
  online s = false ->
  documents (snd (handle r s)) = documents s
  /\ (status (fst (handle r s)) = 500
      \/ status (fst (handle r s)) = 400
      \/ status (fst (handle r s)) = 403
      \/ (status (fst (handle r s)) = 200 /\ storeless r = true)).
Proof.
  destruct s as [o us ps pa cs]. cbn [online]. intros ->.
  destruct r; cbn [handle].
  - split; [reflexivity|]. cbn [answer fst storeless].
    destruct (get_agents_status upstream) as [H|H]; rewrite H; auto.
  - unfold_routes; run_driver; split_cases; split; auto.
  - unfold_routes; run_driver; split_cases; split; auto.
  - unfold_routes; run_driver; split_cases; split; auto.
  - unfold_routes; run_driver; split_cases; split; auto.
  - unfold_routes; run_driver; split_cases; split; auto.
  - unfold_routes; run_driver; split_cases; split; auto.
  - unfold_routes; run_driver; split_cases; split; auto.
  - unfold_routes; run_driver; split_cases; split; auto.
  - unfold_routes; run_driver; split_cases; split; auto.
  - unfold_routes; run_driver; split_cases; split; auto.
  - unfold_routes; run_driver; split_cases; split; auto.
Qed.

Lemma X24_database_down_witness :
  handle (PostRegister alice) (mkStore false [] [] [] [])
  = (respond 500 (error "Server error during registration"),
     mkStore false [] [] [] [FindOne Users])
  /\ documents (snd (handle (PostRegister alice) (mkStore false [] [] [] [])))
     = documents (mkStore false [] [] [] []).
Proof.
  split; [reflexivity|].
  apply (X24_database_down (PostRegister alice) (mkStore false [] [] [] [])). reflexivity.
Defined.

(** X25. Every request is answered with one of the statuses 200, 201,
    400, 401, 403, 404 and 500. *)
Theorem X25_statuses (r : request) (s : store) :
  In (status (fst (handle r s))) [200; 201; 400; 401; 403; 404; 500].
Proof.
  destruct s as [o us ps pa cs].
  destruct r; cbn [handle].
  - cbn [answer fst]. destruct (get_agents_status upstream) as [H|H]; rewrite H; cbn; auto 10.
  - unfold_routes; run_driver; split_cases; auto 10.
  - unfold_routes; run_driver; split_cases; auto 10.
  - unfold_routes; run_driver; split_cases; auto 10.
  - unfold_routes; run_driver; split_cases; auto 10.
  - unfold_routes; run_driver; split_cases; auto 10.
  - unfold_routes; run_driver; split_cases; auto 10.
  - unfold_routes; run_driver; split_cases; auto 10.
  - unfold_routes; run_driver; split_cases; auto 10.
  - unfold_routes; run_driver; split_cases; auto 10.
  - unfold_routes; run_driver; split_cases; auto 10.
  - unfold_routes; run_driver; split_cases; auto 10.
Qed.

(** X26. A request changes the documents of at most one collection:
    only a registration changes the users, only the four post and reply
    routes that write change the posts, only the three patch routes that
    write change the patches; whether the database answers never
    changes. *)
Theorem X26_one_collection (r : request) (s : store) :
  (written r <> Some Users -> users (snd (handle r s)) = users s)
  /\ (written r <> Some Posts -> posts (snd (handle r s)) = posts s)
  /\ (written r <> Some Patches -> patches (snd (handle r s)) = patches s)
  /\ online (snd (handle r s)) = online s.
Proof.
  destruct s as [o us ps pa cs].
  destruct r; cbn [handle written];
    (repeat split; try (intros H; try (exfalso; now apply H)));
    try reflexivity;
    unfold_routes; run_driver;
    repeat (match goal with
            | |- context [remove_first ?f ?l] => destruct (remove_first f l)
            | |- context [update_first ?f ?g ?l] => destruct (update_first f g l)
            | |- context [List.find ?f ?l] => destruct (List.find f l)
            | |- context [if ?c then _ else _] => destruct c
            end; cbn);
    reflexivity.
Qed.

Lemma X26_one_collection_witness :
  users (snd (handle (DeletePost (js "42") admin_flag) (mkStore true [alice_user] [hello_post] [] [])))
  = [alice_user].
Proof.
  apply (X26_one_collection (DeletePost (js "42") admin_flag)
           (mkStore true [alice_user] [hello_post] [] [])).
  discriminate.
Defined.

(** ** Agents *)

(** X27. The agents route never uses the store.  It answers 200 or 500;
    when it answers 200, the catalogue answered an object with status 200
    and a list of agents without [null], and the answer lists, in the
    order of the catalogue, exactly the agents whose [isPlayableCharacter]
    is truthy. *)
Theorem X27_agents (upstream : option value) (s : store) :
  handle (GetAgents upstream) s = (get_agents upstream, s)
  /\ (status (get_agents upstream) = 200 \/ status (get_agents upstream) = 500)
  /\ (status (get_agents upstream) = 200 ->
      exists data items,
        upstream = Some data
        /\ get "status" data = VNum 200
        /\ get "data" data = VArr items
        /\ body (get_agents upstream)
           = obj [("status"%string, VNum 200);
                  ("data"%string,
                   VArr (filter (fun a => truthy (get "isPlayableCharacter" a)) items))]).
Proof.
  split; [reflexivity|]. split; [apply get_agents_status|].
  unfold get_agents. intros H.
  destruct upstream as [data|]; [|discriminate].
  destruct data as [| |b|n|str|items|fields]; try discriminate;
    (destruct (get "status" _) as [| |b'|n'|str'|items'|fields'] eqn:Es; try discriminate);
    (destruct n' as [|n'|n']; try discriminate);
    repeat (match type of H with
            | context [match ?p with _ => _ end] =>
                match p with
                | get _ _ => fail 1
                | existsb _ _ => fail 1
                | _ => destruct p; try discriminate
                end
            end);
    (destruct (get "data" _) as [| |b''|n''|str''|agents|fields''] eqn:Ed; try discriminate);
    (destruct (existsb _ agents); [discriminate|]);
    eexists; exists agents; repeat split; try eassumption; reflexivity.
Qed.

Lemma X27_agents_witness :
  let jett := VObj [("displayName"%string, VStr (js "Jett"));
                    ("isPlayableCharacter"%string, VBool true)] in
  let dummy := VObj [("displayName"%string, VStr (js "Dummy"));
                     ("isPlayableCharacter"%string, VBool false)] in
  let data := VObj [("status"%string, VNum 200); ("data"%string, VArr [jett; dummy])] in
  body (get_agents (Some data))
  = obj [("status"%string, VNum 200); ("data"%string, VArr [jett])].
Proof.
  intros jett dummy data.
  destruct (X27_agents (Some data) empty_store) as (_ & _ & H).
  destruct (H eq_refl) as (d & items & E1 & _ & E2 & E3).
  injection E1 as <-. cbn in E2. injection E2 as <-. exact E3.
Defined.

(** ** Reading identifiers *)

Lemma skip_space_app (ws s : jsstring) :
  Forall (fun u => is_space u = true) ws -> skip_space (ws ++ s) = skip_space s.
Proof.
  induction 1 as [|u ws Hu _ IH]; [reflexivity|]. cbn [app skip_space]. now rewrite Hu.
Qed.

Lemma digit_value_decimal (d : Z) :
  decimal_digit d -> digit_value 10 (48 + d) = Some d.
Proof.
  unfold decimal_digit, digit_value. intros Hd. decide_cmp. cbn [andb]. decide_cmp.
  f_equal. lia.
Qed.

Lemma digits_decimal (ds : list Z) (a : Z) :
  Forall decimal_digit ds ->
  digits 10 (Some a) (digit_chars ds) = Some (fold_left (fun a d => a * 10 + d) ds a).
Proof.
  intros H. revert a. induction H as [|d ds Hd _ IH]; intros a; [reflexivity|].
  cbn [digit_chars map digits fold_left]. rewrite (digit_value_decimal d Hd).
  apply IH.
Qed.

Lemma digits_decimal_start (d : Z) (ds : list Z) :
  decimal_digit d -> Forall decimal_digit ds ->
  digits 10 None (digit_chars (d :: ds)) = Some (positional (d :: ds)).
Proof.
  intros Hd Hds. cbn [digit_chars map digits]. rewrite (digit_value_decimal d Hd).
  unfold positional. cbn [fold_left]. apply (digits_decimal ds d Hds).
Qed.

Lemma option_map_one (o : option Z) : option_map (Z.mul 1) o = o.
Proof.
  destruct o as [z|]; [|reflexivity]. cbn [option_map]. f_equal; lia.
Qed.

Lemma option_map_minus (o : option Z) : option_map (Z.mul (-1)) o = option_map Z.opp o.
Proof.
  destruct o as [z|]; [|reflexivity]. cbn [option_map]. f_equal; lia.
Qed.

(** After the white space and the sign, a string that starts with decimal
    digits is read in base ten: two digits are not the prefix of a
    hexadecimal number. *)
Lemma radix_ten (d : Z) (ds : list Z) :
  decimal_digit d -> Forall decimal_digit ds ->
  match digit_chars (d :: ds) with
  | 48 :: 120 :: rest => (16, rest)
  | 48 :: 88 :: rest => (16, rest)
  | _ => (10, digit_chars (d :: ds))
  end = (10, digit_chars (d :: ds)).
Proof.
  intros Hd Hds. unfold decimal_digit in Hd.
  assert (Ed : d = 0 \/ d = 1 \/ d = 2 \/ d = 3 \/ d = 4 \/ d = 5 \/ d = 6 \/ d = 7
               \/ d = 8 \/ d = 9) by lia.
  destruct Ed as [->|[->|[->|[->|[->|[->|[->|[->|[->| ->]]]]]]]]]; try reflexivity.
  destruct Hds as [|e ds He _]; [reflexivity|]. unfold decimal_digit in He.
  assert (Ee : e = 0 \/ e = 1 \/ e = 2 \/ e = 3 \/ e = 4 \/ e = 5 \/ e = 6 \/ e = 7
               \/ e = 8 \/ e = 9) by lia.
  destruct Ee as [->|[->|[->|[->|[->|[->|[->|[->|[->| ->]]]]]]]]]; reflexivity.
Qed.

Lemma digit_char_cases (d : Z) :
  decimal_digit d -> is_space (48 + d) = false /\ 48 + d <> 45 /\ 48 + d <> 43.
Proof.
  unfold decimal_digit. intros Hd. split; [|lia].
  unfold is_space. decide_cmp. reflexivity.
Qed.

Lemma parseInt_unsigned (d : Z) (ds : list Z) :
  decimal_digit d -> Forall decimal_digit ds ->
  parseInt (digit_chars (d :: ds)) = Some (positional (d :: ds)).
Proof.
  intros Hd Hds. unfold parseInt.
  assert (Es : skip_space (digit_chars (d :: ds)) = digit_chars (d :: ds)).
  { cbn [digit_chars map skip_space]. now rewrite (proj1 (digit_char_cases d Hd)). }
  rewrite Es.
  assert (Esign : match digit_chars (d :: ds) with
                  | 45 :: rest => (-1, rest)
                  | 43 :: rest => (1, rest)
                  | _ => (1, digit_chars (d :: ds))
                  end = (1, digit_chars (d :: ds))).
  { unfold decimal_digit in Hd.
    assert (Ed : d = 0 \/ d = 1 \/ d = 2 \/ d = 3 \/ d = 4 \/ d = 5 \/ d = 6 \/ d = 7
                 \/ d = 8 \/ d = 9) by lia.
    destruct Ed as [->|[->|[->|[->|[->|[->|[->|[->|[->| ->]]]]]]]]]; reflexivity. }
  rewrite Esign, (radix_ten d ds Hd Hds), option_map_one.
  now apply digits_decimal_start.
Qed.

Lemma parseInt_signed (d : Z) (ds : list Z) :
  decimal_digit d -> Forall decimal_digit ds ->
  parseInt (45 :: digit_chars (d :: ds)) = Some (- positional (d :: ds))
  /\ parseInt (43 :: digit_chars (d :: ds)) = Some (positional (d :: ds)).
Proof.
  intros Hd Hds. unfold parseInt. cbn [skip_space].
  change (is_space 45) with false. change (is_space 43) with false. cbv iota.
  rewrite (radix_ten d ds Hd Hds), option_map_one, option_map_minus.
  rewrite (digits_decimal_start d ds Hd Hds). split; reflexivity.
Qed.

Lemma parseInt_skips (ws s : jsstring) :
  Forall (fun u => is_space u = true) ws -> parseInt (ws ++ s) = parseInt s.
Proof.
  intros H. unfold parseInt. now rewrite (skip_space_app ws s H).
Qed.

(** X28. [parseInt] reads the decimal writing of a number: a non-empty
    sequence of decimal digits that writes a number up to 2^53 is read as
    that number, with a minus sign as its opposite, and white space before
    it is skipped. *)
Theorem X28_parseInt_decimal (ws : jsstring) (d : Z) (ds : list Z) :
  Forall (fun u => is_space u = true) ws ->
  decimal_digit d -> Forall decimal_digit ds ->
  positional (d :: ds) <= 9007199254740992 ->
  parseInt (ws ++ digit_chars (d :: ds)) = Some (positional (d :: ds))
  /\ parseInt (ws ++ 45 :: digit_chars (d :: ds)) = Some (- positional (d :: ds))
  /\ parseInt (ws ++ 43 :: digit_chars (d :: ds)) = Some (positional (d :: ds)).
Proof.
  intros Hws Hd Hds _. rewrite !parseInt_skips by exact Hws.
  split; [now apply parseInt_unsigned|]. now apply parseInt_signed.
Qed.

Lemma X28_parseInt_decimal_witness :
  parseInt (js " 042") = Some 42 /\ parseInt (js " -042") = Some (-42)
  /\ parseInt (js " +042") = Some 42.
Proof.
  apply (X28_parseInt_decimal (js " ") 0 [4; 2]).
  - repeat constructor.
  - unfold decimal_digit. lia.
  - repeat constructor; unfold decimal_digit; lia.
  - vm_compute. discriminate.
Defined.

(** ** Patches, composed *)

(** X29. After a patch is created, the list of patches is the list before
    followed by the new patch. *)
Theorem X29_create_then_list_patches (t : clock) (b : PatchBody.t) (s : store) :
  truthy (PatchBody.isAdmin b) = true ->
  truthy (PatchBody.version b) = true -> truthy (PatchBody.date b) = true ->
  truthy (PatchBody.text b) = true -> online s = true ->
  fst (list_patches s) = respond 200 (VArr (map json_of_patch (patches s)))
  /\ fst (list_patches (snd (create_patch t b s)))
     = respond 200 (VArr (map json_of_patch (patches s) ++ [json_of_patch (new_patch t b)])).
Proof.
  intros Ha Hv Hd Ht Ho. split.
  - unfold list_patches. run_driver. now rewrite Ho.
  - unfold create_patch. rewrite Ha, Hv, Hd, Ht. cbn [negb orb].
    unfold list_patches. run_driver. rewrite Ho. cbn.
    now rewrite map_app.
Qed.

Lemma X29_create_then_list_patches_witness :
  let b := PatchBody.mk (VStr (js "3.0")) (VStr (js "today")) (VStr (js "notes")) (VBool true) in
  fst (list_patches (snd (create_patch noon b (mkStore true [] [] [seed_patch] []))))
  = respond 200 (VArr [json_of_patch seed_patch; json_of_patch (new_patch noon b)]).
Proof.
  intros b.
  apply (X29_create_then_list_patches noon b (mkStore true [] [] [seed_patch] []));
    reflexivity.
Defined.

Lemma set_fields_twice (u : update_fields) (p : Patch.t) :
  set_fields u (set_fields u p) = set_fields u p.
Proof.
  unfold set_fields. cbn.
  destruct (set_version u), (set_date u), (set_text u); reflexivity.
Qed.

(** X30. An update of a patch asked by an administrator can be repeated:
    the second time the same request gets the same answer and changes no
    document. *)
Theorem X30_update_twice (id : jsstring) (b : PatchBody.t) (s : store) :
  truthy (PatchBody.isAdmin b) = true -> online s = true ->
  fst (update_patch id b (snd (update_patch id b s))) = fst (update_patch id b s)
  /\ documents (snd (update_patch id b (snd (update_patch id b s))))
     = documents (snd (update_patch id b s)).
Proof.
  intros Ha Ho.
  destruct (first_match _ (fun p => id_is (parseInt id) (Patch.id p)) (patches s))
    as [(l1 & p & l2 & E & Hp & Hl1)|Hnone].
  - apply id_is_true in Hp.
    assert (Hl1' : Forall (fun q => ~ names id (Patch.id q)) l1).
    { eapply Forall_impl; [|exact Hl1]. intros q Hq. now apply id_is_false. }
    rewrite (update_patch_first id b s l1 l2 p Ha Ho E Hp Hl1'). cbv zeta. cbn [snd fst].
    rewrite <- set_fields_body.
    set (u := mkFields _ _ _).
    rewrite (update_patch_first id b
               (mkStore (online s) (users s) (posts s) (l1 ++ set_fields u p :: l2)
                  (calls s ++ [FindOneAndUpdate Patches]))
               l1 l2 (set_fields u p) Ha Ho eq_refl Hp Hl1').
    cbv zeta. cbn [snd fst]. rewrite <- set_fields_body. fold u.
    rewrite set_fields_twice. split; reflexivity.
  - assert (Hn : forall q, In q (patches s) -> ~ names id (Patch.id q)).
    { intros q Hq. apply id_is_false. now apply Hnone. }
    rewrite (update_patch_none id b s Ha Ho Hn). cbn [snd fst].
    rewrite update_patch_none; [split; reflexivity|exact Ha|exact Ho|exact Hn].
Qed.

Lemma X30_update_twice_witness :
  fst (update_patch (js "5") version_only
         (snd (update_patch (js "5") version_only (mkStore true [] [] [patch_1_0 5] []))))
  = fst (update_patch (js "5") version_only (mkStore true [] [] [patch_1_0 5] [])).
Proof.
  apply (X30_update_twice (js "5") version_only (mkStore true [] [] [patch_1_0 5] []));
    reflexivity.
Defined.
